(** * PVC (parallel virtual cluster): the VM controller, the node flush,
      the network controller and the process runner, embedded from the
      Python sources and checked against the specification.

    The Python code is embedded shallowly: a method becomes a computation
    in a small state-and-exception monad over the objects it touches, a
    [while True] loop becomes a fuelled iteration, and everything outside
    the controller (the coordination store, the local libvirt driver, the
    peers that change both while the controller sleeps) is an explicit
    component of the state. *)

From Stdlib Require Import ZArith QArith List Bool Ascii String.
From stdpp Require Import base strings list gmap.

Set Default Proof Using "Type".

(** ** Python control flow: results, exceptions, loops *)

Inductive exn :=
| AttributeError
| NameError
| TypeError
| KeyError
| IndexError
| ValueError
| OSError
| NoNodeError
| libvirtError (msg : string).

(** A call returns, raises, or is cut off because the iteration budget of
    the model ran out ([OutOfFuel] is never a Python behaviour). *)
Inductive outcome (A : Type) :=
| Return (a : A)
| Raise (e : exn)
| OutOfFuel.
Arguments Return {A} a.
Arguments Raise {A} e.
Arguments OutOfFuel {A}.

Definition M (S A : Type) : Type := S → outcome A * S.

#[global] Instance M_ret {S} : MRet (M S) := λ A a s, (Return a, s).

#[global] Instance M_bind {S} : MBind (M S) := λ A B f m s,
  match m s with
  | (Return a, s') => f a s'
  | (Raise e, s') => (Raise e, s')
  | (OutOfFuel, s') => (OutOfFuel, s')
  end.

Definition raise {S A} (e : exn) : M S A := λ s, (Raise e, s).
Definition out_of_fuel {S A} : M S A := λ s, (OutOfFuel, s).
Definition get {S} : M S S := λ s, (Return s, s).
Definition gets {S A} (f : S → A) : M S A := λ s, (Return (f s), s).
Definition modify {S} (f : S → S) : M S unit := λ s, (Return tt, f s).

(** [try: body / except: handler]; the handler receives the exception and
    re-raises the ones its [except] clause does not name. *)
Definition try_except {S A} (body : M S A) (handler : exn → M S A) : M S A :=
  λ s, match body s with
       | (Raise e, s') => handler e s'
       | r => r
       end.

(** [while True:] with loop-carried locals [L]; the body answers [inl l]
    to go round again and [inr r] to [break]. *)
Fixpoint while_true {S L R} (fuel : nat) (body : L → M S (L + R)) (l : L)
  : M S R :=
  match fuel with
  | O => out_of_fuel
  | Datatypes.S n =>
      r ← body l;
      match r with
      | inl l' => while_true n body l'
      | inr r => mret r
      end
  end.

(** [for x in xs:] over a list, the body run for its effects. *)
Fixpoint for_each {S A} (xs : list A) (body : A → M S unit) : M S unit :=
  match xs with
  | [] => mret tt
  | x :: xs' => body x;; for_each xs' body
  end.

(** ** Python strings *)

(** [str.isspace] on one ASCII character: the space, the controls 9 to
    13 (tab, line feed, vertical tab, form feed, carriage return) and the
    separators 28 to 31 (FS, GS, RS, US). *)
Definition is_space (a : ascii) : bool :=
  let n := nat_of_ascii a in
  (n =? 32)%nat || ((9 <=? n)%nat && (n <=? 13)%nat)
  || ((28 <=? n)%nat && (n <=? 31)%nat).

(** [s.split()]: the words between runs of white space. *)
Fixpoint split_words (cur : option string) (s : string) : list string :=
  match s with
  | EmptyString => match cur with Some w => [w] | None => [] end
  | String a r =>
      if is_space a
      then match cur with
           | Some w => w :: split_words None r
           | None => split_words None r
           end
      else split_words (Some (default "" cur +:+ String a "")) r
  end.
Definition str_split (s : string) : list string := split_words None s.

(** [s.split(sep)] for a one-character separator: empty fields are kept,
    and the empty string gives one empty field. *)
Fixpoint split_fields (sep : ascii) (cur : string) (s : string) : list string :=
  match s with
  | EmptyString => [cur]
  | String a r =>
      if Ascii.eqb a sep
      then cur :: split_fields sep "" r
      else split_fields sep (cur +:+ String a "") r
  end.
Definition str_split_on (sep : ascii) (s : string) : list string :=
  split_fields sep "" s.

(** [sep.join(xs)]. *)
Definition str_join (sep : string) (xs : list string) : string :=
  String.concat sep xs.

(** [xs.remove(x)] on a list that contains [x]: the first occurrence goes. *)
Fixpoint list_remove (x : string) (xs : list string) : list string :=
  match xs with
  | [] => []
  | y :: ys => if bool_decide (x = y) then ys else y :: list_remove x ys
  end.

(** ** The world of a VM controller

    One [VMInstance] object, the [this_node] object it shares with the
    node supervisor, and what lies outside the process: the coordination
    store, the local libvirt driver and the answers that remote parties
    will give.  Both daemons of the repository that carry a
    [VMInstance.py] ([pvcnoded] and the older [pvcvd]) work on this
    state; [pvcvd] calls the fields [self.node] and [self.this_node]
    [self.hypervisor] and [self.thishypervisor]. *)

Inductive virDomainState :=
| VIR_DOMAIN_NOSTATE
| VIR_DOMAIN_RUNNING
| VIR_DOMAIN_BLOCKED
| VIR_DOMAIN_PAUSED
| VIR_DOMAIN_SHUTDOWN
| VIR_DOMAIN_SHUTOFF
| VIR_DOMAIN_CRASHED
| VIR_DOMAIN_PMSUSPENDED.

#[global] Instance virDomainState_eq_dec : EqDecision virDomainState.
Proof. solve_decision. Defined.

(** A libvirt domain handle; it stays valid as a Python object after the
    domain has left the driver, and then every call on it fails. *)
Inductive virDomain := VirDomain (uuid : string).

Record Cluster := mkCluster {
  zk : gmap string string;               (* the coordination store *)
  libvirt : gmap string virDomainState;  (* domains of the local driver *)
  libvirt_up : bool;       (* libvirt.open("qemu:///system") gives a connection *)
  dest_up : bool;          (* libvirt.open(<target>) gives a connection *)
  migrate_ok : bool;       (* dom.migrate(...) to the target succeeds *)
  create_error : option string  (* createXML fails with this libvirtError *)
}.

(** The attributes of the Python object; [self_state], [self_node] and
    [self_dom] are [self.state], [self.node] and [self.dom]. *)
Record VMInstance := mkVMInstance {
  domuuid : string;
  self_state : string;
  self_node : string;
  self_dom : option virDomain;
  instart : bool;
  inrestart : bool;
  inmigrate : bool;
  inreceive : bool;
  inshutdown : bool;
  instop : bool;
  console_log : bool     (* pvcnoded: the console log watcher is started *)
}.

Record NodeInstance := mkNodeInstance {
  name : string;
  domain_list : list string;
  router_state : string
}.

(** What the controller does to the outside, in order. *)
Inductive event :=
| ZkWrite (key value : string)
| LvShutdown (uuid : string)
| LvDestroy (uuid : string)
| LvCreateXML (xml : string)
| LvMigrate (uuid dest_lv : string) (dest_tcp : option string)
| OsCommand (command : string).

#[global] Instance event_eq_dec : EqDecision event.
Proof. solve_decision. Defined.

Record State := mkState {
  self : VMInstance;
  this_node : NodeInstance;
  cluster : Cluster;
  trace : list event;
  clock : Z                (* milliseconds slept so far *)
}.

Definition upd_self (f : VMInstance → VMInstance) (s : State) : State :=
  mkState (f (self s)) (this_node s) (cluster s) (trace s) (clock s).
Definition upd_node (f : NodeInstance → NodeInstance) (s : State) : State :=
  mkState (self s) (f (this_node s)) (cluster s) (trace s) (clock s).
Definition upd_cluster (f : Cluster → Cluster) (s : State) : State :=
  mkState (self s) (this_node s) (f (cluster s)) (trace s) (clock s).
Definition log (e : event) (s : State) : State :=
  mkState (self s) (this_node s) (cluster s) (trace s ++ [e]) (clock s).
Definition set_clock (t : Z) (s : State) : State :=
  mkState (self s) (this_node s) (cluster s) (trace s) t.

Definition set_self_state (v : string) (o : VMInstance) : VMInstance :=
  mkVMInstance (domuuid o) v (self_node o) (self_dom o) (instart o)
    (inrestart o) (inmigrate o) (inreceive o) (inshutdown o) (instop o)
    (console_log o).
Definition set_self_node (v : string) (o : VMInstance) : VMInstance :=
  mkVMInstance (domuuid o) (self_state o) v (self_dom o) (instart o)
    (inrestart o) (inmigrate o) (inreceive o) (inshutdown o) (instop o)
    (console_log o).
Definition set_self_dom (v : option virDomain) (o : VMInstance) : VMInstance :=
  mkVMInstance (domuuid o) (self_state o) (self_node o) v (instart o)
    (inrestart o) (inmigrate o) (inreceive o) (inshutdown o) (instop o)
    (console_log o).
Definition set_instart (v : bool) (o : VMInstance) : VMInstance :=
  mkVMInstance (domuuid o) (self_state o) (self_node o) (self_dom o) v
    (inrestart o) (inmigrate o) (inreceive o) (inshutdown o) (instop o)
    (console_log o).
Definition set_inrestart (v : bool) (o : VMInstance) : VMInstance :=
  mkVMInstance (domuuid o) (self_state o) (self_node o) (self_dom o)
    (instart o) v (inmigrate o) (inreceive o) (inshutdown o) (instop o)
    (console_log o).
Definition set_inmigrate (v : bool) (o : VMInstance) : VMInstance :=
  mkVMInstance (domuuid o) (self_state o) (self_node o) (self_dom o)
    (instart o) (inrestart o) v (inreceive o) (inshutdown o) (instop o)
    (console_log o).
Definition set_inreceive (v : bool) (o : VMInstance) : VMInstance :=
  mkVMInstance (domuuid o) (self_state o) (self_node o) (self_dom o)
    (instart o) (inrestart o) (inmigrate o) v (inshutdown o) (instop o)
    (console_log o).
Definition set_inshutdown (v : bool) (o : VMInstance) : VMInstance :=
  mkVMInstance (domuuid o) (self_state o) (self_node o) (self_dom o)
    (instart o) (inrestart o) (inmigrate o) (inreceive o) v (instop o)
    (console_log o).
Definition set_instop (v : bool) (o : VMInstance) : VMInstance :=
  mkVMInstance (domuuid o) (self_state o) (self_node o) (self_dom o)
    (instart o) (inrestart o) (inmigrate o) (inreceive o) (inshutdown o) v
    (console_log o).
Definition set_console_log (v : bool) (o : VMInstance) : VMInstance :=
  mkVMInstance (domuuid o) (self_state o) (self_node o) (self_dom o)
    (instart o) (inrestart o) (inmigrate o) (inreceive o) (inshutdown o)
    (instop o) v.

Definition set_domain_list (l : list string) (n : NodeInstance) : NodeInstance :=
  mkNodeInstance (name n) l (router_state n).

Definition set_zk (m : gmap string string) (c : Cluster) : Cluster :=
  mkCluster m (libvirt c) (libvirt_up c) (dest_up c) (migrate_ok c)
    (create_error c).
Definition set_libvirt (m : gmap string virDomainState) (c : Cluster) : Cluster :=
  mkCluster (zk c) m (libvirt_up c) (dest_up c) (migrate_ok c)
    (create_error c).

(** The store keys the controllers format. *)
Definition state_key (u : string) : string := "/domains/" +:+ u +:+ "/state".
Definition node_key (u : string) : string := "/domains/" +:+ u +:+ "/node".
Definition hypervisor_key (u : string) : string :=
  "/domains/" +:+ u +:+ "/hypervisor".
Definition failedreason_key (u : string) : string :=
  "/domains/" +:+ u +:+ "/failedreason".
Definition xml_key (u : string) : string := "/domains/" +:+ u +:+ "/xml".
Definition rbdlist_key (u : string) : string := "/domains/" +:+ u +:+ "/rbdlist".
Definition runningdomains_key (n : string) : string :=
  "/nodes/" +:+ n +:+ "/runningdomains".

(** Modelled from the spec: the [zkhandler] module is not among the
    sources.  Section 4.1 gives [read(key)] and an atomic
    [write({key: value})]; a key that is absent reads as the empty string
    (section 9, decode-or-empty-string), and neither call fails while the
    session lasts. *)
Definition readdata (key : string) : M State string :=
  gets (λ s, default "" (zk (cluster s) !! key)).

Definition write_one (s : State) (kv : string * string) : State :=
  log (ZkWrite kv.1 kv.2)
    (upd_cluster (λ c, set_zk (<[kv.1 := kv.2]> (zk c)) c) s).
Definition writedata (kvs : list (string * string)) : M State unit :=
  modify (λ s, foldl write_one s kvs).

(** libvirt calls on a domain handle.  [self.dom] may be [None]; a method
    call on [None] raises [AttributeError]. *)
Definition dom_state (d : option virDomain) : M State virDomainState :=
  match d with
  | None => raise AttributeError
  | Some (VirDomain u) =>
      s ← get;
      match libvirt (cluster s) !! u with
      | Some st => mret st
      | None => raise (libvirtError "Domain not found")
      end
  end.

(** [dom.destroy()]: the domains are transient (they are started with
    [createXML]), so a destroyed domain is gone from the driver. *)
Definition dom_destroy (d : option virDomain) : M State unit :=
  match d with
  | None => raise AttributeError
  | Some (VirDomain u) =>
      s ← get;
      match libvirt (cluster s) !! u with
      | Some _ =>
          modify (λ s, log (LvDestroy u)
            (upd_cluster (λ c, set_libvirt (delete u (libvirt c)) c) s))
      | None => raise (libvirtError "Domain not found")
      end
  end.

(** [dom.shutdown()] only asks the guest to stop; whether and when it does
    is up to the guest. *)
Definition dom_shutdown (d : option virDomain) : M State unit :=
  match d with
  | None => raise AttributeError
  | Some (VirDomain u) =>
      s ← get;
      match libvirt (cluster s) !! u with
      | Some _ => modify (log (LvShutdown u))
      | None => raise (libvirtError "Domain not found")
      end
  end.

(** [lv_conn.createXML(xmlconfig, 0)]: the guest described by the stored
    XML (it carries the domain's own uuid) starts, or libvirt refuses. *)
Definition createXML (u xmlconfig : string) : M State virDomain :=
  s ← get;
  match create_error (cluster s) with
  | Some msg => raise (libvirtError msg)
  | None =>
      modify (λ s, log (LvCreateXML xmlconfig)
        (upd_cluster (λ c, set_libvirt (<[u := VIR_DOMAIN_RUNNING]> (libvirt c)) c) s));;
      mret (VirDomain u)
  end.

(** [dom.migrate(dest_lv_conn, VIR_MIGRATE_LIVE, None, uri, 0)]: on success
    the domain has left the local driver. *)
Definition dom_migrate (d : option virDomain) (dest_lv : string)
    (dest_tcp : option string) : M State bool :=
  match d with
  | None => raise AttributeError
  | Some (VirDomain u) =>
      s ← get;
      match libvirt (cluster s) !! u with
      | Some _ =>
          if migrate_ok (cluster s)
          then modify (λ s, log (LvMigrate u dest_lv dest_tcp)
                 (upd_cluster (λ c, set_libvirt (delete u (libvirt c)) c) s));;
               mret true
          else raise (libvirtError "Migration failed")
      | None => raise (libvirtError "Domain not found")
      end
  end.

(** The two list methods have the same body in both daemons (only the
    logging call in the handler differs). *)
Definition addDomainToList : M State unit :=
  s ← get;
  if bool_decide (domuuid (self s) ∈ domain_list (this_node s))
  then mret tt
  else
    try_except
      (modify (upd_node (λ n, set_domain_list (domain_list n ++ [domuuid (self s)]) n));;
       s ← get;
       writedata [(runningdomains_key (name (this_node s)),
                   str_join " " (domain_list (this_node s)))])
      (λ e, mret tt).

Definition removeDomainFromList : M State unit :=
  s ← get;
  if bool_decide (domuuid (self s) ∈ domain_list (this_node s))
  then
    try_except
      (modify (upd_node (λ n, set_domain_list (list_remove (domuuid (self s)) (domain_list n)) n));;
       s ← get;
       writedata [(runningdomains_key (name (this_node s)),
                   str_join " " (domain_list (this_node s)))])
      (λ e, mret tt)
  else mret tt.

(** [try: self.dom.destroy() / except AttributeError: <log>], the opening
    of [terminate_vm] and of [stop_vm] in both daemons. *)
Definition try_destroy : M State unit :=
  s ← get;
  try_except (dom_destroy (self_dom (self s)))
    (λ e, match e with AttributeError => mret tt | _ => raise e end).

(** [time.sleep]: the only points at which the model lets the rest of the
    cluster act.  [env t] is what the peers and the guests have done to
    the store and to the local driver by the time [t]. *)
Definition sleep (env : Z → Cluster → Cluster) (ms : Z) : M State unit :=
  modify (λ s, let t := (clock s + ms)%Z in
               set_clock t (upd_cluster (env t) s)).

(** ** node-daemon/pvcnoded/VMInstance.py *)

Module Pvcnoded.
Section controller.
Variable env : Z → Cluster → Cluster.
Variable cluster_domain : string.            (* config['cluster_domain'] *)
Variable fuel : nat.
Variable manage_vm_state_rec : M State unit.  (* self.manage_vm_state() *)

Definition console_log_start : M State unit :=
  modify (upd_self (set_console_log true)).
Definition console_log_stop : M State unit :=
  modify (upd_self (set_console_log false)).

(** The uuid is well formed: [uuid.UUID(tuuid)] does not raise. *)
Definition lookupByUUID (tuuid : string) : M State (option virDomain) :=
  s ← get;
  if bool_decide (self_node (self s) ≠ name (this_node s)) then mret None
  else if negb (libvirt_up (cluster s)) then mret None
  else match libvirt (cluster s) !! tuuid with
       | Some _ => mret (Some (VirDomain tuuid))
       | None => mret None
       end.

Definition start_vm : M State unit :=
  console_log_start;;
  modify (upd_self (set_instart true));;
  s ← get;
  let u := domuuid (self s) in
  if negb (libvirt_up (cluster s))
  then modify (upd_self (set_instart false))
  else
    curstate ← try_except
      (d ← lookupByUUID u;
       modify (upd_self (set_self_dom d));;
       st ← dom_state d;
       mret (Some st))
      (λ _, mret None);
    (if bool_decide (curstate = Some VIR_DOMAIN_RUNNING)
     then
       addDomainToList;;
       writedata [(failedreason_key u, "")]
     else
       try_except
         (xmlconfig ← readdata (xml_key u);
          d ← createXML u xmlconfig;
          addDomainToList;;
          modify (upd_self (set_self_dom (Some d)));;
          writedata [(failedreason_key u, "")])
         (λ e, match e with
               | libvirtError msg =>
                   writedata [(state_key u, "fail")];;
                   writedata [(failedreason_key u, msg)];;
                   modify (upd_self (set_self_dom None))
               | _ => raise e
               end));;
    modify (upd_self (set_instart false)).

Definition terminate_vm : M State unit :=
  modify (upd_self (set_instop true));;
  try_destroy;;
  removeDomainFromList;;
  modify (upd_self (set_self_dom None));;
  modify (upd_self (set_instop false));;
  console_log_stop.

Definition stop_vm : M State unit :=
  modify (upd_self (set_instop true));;
  s ← get;
  let u := domuuid (self s) in
  try_destroy;;
  removeDomainFromList;;
  s ← get;
  (if bool_decide (inrestart (self s) = false)
   then writedata [(state_key u, "stop")]
   else mret tt);;
  modify (upd_self (set_self_dom None));;
  modify (upd_self (set_instop false));;
  console_log_stop.

(** One round of the [while True] of [shutdown_vm]; [inr is_aborted]
    is a [break]. *)
Definition shutdown_round (u : string) (tick : Z) : M State (Z + bool) :=
  let tick := (tick + 2)%Z in
  sleep env 2000;;
  current_state ← readdata (state_key u);
  if negb (bool_decide (current_state ∈ ["shutdown"; "restart"]))
  then mret (inr true)
  else
    s ← get;
    lvdomstate ← try_except
      (st ← dom_state (self_dom (self s)); mret (Some st))
      (λ _, mret None);
    if bool_decide (lvdomstate ≠ Some VIR_DOMAIN_RUNNING)
    then
      removeDomainFromList;;
      writedata [(state_key u, "stop")];;
      modify (upd_self (set_self_dom None));;
      console_log_stop;;
      mret (inr false)
    else if bool_decide (90 ≤ tick)%Z
    then
      writedata [(state_key u, "stop")];;
      mret (inr false)
    else mret (inl tick).

Definition shutdown_vm : M State unit :=
  modify (upd_self (set_inshutdown true));;
  s ← get;
  let u := domuuid (self s) in
  dom_shutdown (self_dom (self s));;
  is_aborted ← while_true fuel (shutdown_round u) 0%Z;
  modify (upd_self (set_inshutdown false));;
  (if is_aborted : bool then manage_vm_state_rec else mret tt);;
  s ← get;
  if inrestart (self s)
  then
    sleep env 1000;;
    writedata [(state_key u, "start")]
  else mret tt.

Definition restart_vm : M State unit :=
  modify (upd_self (set_inrestart true));;
  s ← get;
  let u := domuuid (self s) in
  if negb (libvirt_up (cluster s))
  then modify (upd_self (set_inrestart false))
  else
    shutdown_vm;;
    sleep env 200;;
    start_vm;;
    addDomainToList;;
    writedata [(state_key u, "start")];;
    modify (upd_self (set_inrestart false)).

Definition live_migrate_vm : M State bool :=
  s ← get;
  let dest_lv :=
    "qemu+tcp://" +:+ self_node (self s) +:+ "." +:+ cluster_domain +:+ "/system" in
  let dest_tcp := "tcp://" +:+ self_node (self s) +:+ "." +:+ cluster_domain in
  if negb (dest_up (cluster s)) then mret false
  else
    try_except
      (target_dom ← dom_migrate (self_dom (self s)) dest_lv (Some dest_tcp);
       if negb target_dom then raise (libvirtError "") else mret true)
      (λ _, mret false).

Definition migrate_vm : M State unit :=
  modify (upd_self (set_inmigrate true));;
  s ← get;
  let u := domuuid (self s) in
  migrate_ret ← live_migrate_vm;
  (if negb migrate_ret
   then writedata [(state_key u, "shutdown")]
   else
     removeDomainFromList;;
     console_log_stop);;
  modify (upd_self (set_inmigrate false)).

(** One round of the first [while True] of [receive_migrate];
    [inr live_receive] is a [break]. *)
Definition receive_round (u : string) (tick : Z) : M State (Z + bool) :=
  sleep env 1000;;
  let tick := (tick + 1)%Z in
  st ← readdata (state_key u);
  modify (upd_self (set_self_state st));;
  d ← lookupByUUID u;
  modify (upd_self (set_self_dom d));;
  let timeout_check : M State (Z + bool) :=
    if bool_decide (90 < tick)%Z
    then
      writedata [(state_key u, "fail")];;
      mret (inr true)
    else mret (inl tick) in
  match d with
  | Some _ =>
      lvdomstate ← dom_state d;
      if bool_decide (lvdomstate = VIR_DOMAIN_RUNNING)
      then
        addDomainToList;;
        writedata [(state_key u, "start")];;
        mret (inr true)
      else if bool_decide (st ≠ "migrate")
      then mret (inr true)
      else timeout_check
  | None =>
      if bool_decide (st = "shutdown") || bool_decide (st = "stop")
      then mret (inr false)
      else timeout_check
  end.

(** One round of the second loop, the wait for the sender's shutdown. *)
Definition fallback_round (u : string) (tick : Z) : M State (Z + unit) :=
  sleep env 1000;;
  let tick := (tick + 1)%Z in
  st ← readdata (state_key u);
  modify (upd_self (set_self_state st));;
  if bool_decide (st = "stop")
  then
    sleep env 1000;;
    writedata [(state_key u, "start")];;
    mret (inr tt)
  else if bool_decide (120 < tick)%Z
  then
    writedata [(state_key u, "fail");
               (failedreason_key u, "Timeout waiting for migrate or shutdown")];;
    mret (inr tt)
  else mret (inl tick).

Definition receive_migrate : M State unit :=
  modify (upd_self (set_inreceive true));;
  s ← get;
  let u := domuuid (self s) in
  live_receive ← while_true fuel (receive_round u) 0%Z;
  (if negb live_receive
   then while_true fuel (fallback_round u) 0%Z
   else mret tt);;
  modify (upd_self (set_inreceive false)).

Definition manage_vm_state_body : M State unit :=
  s ← get;
  let u := domuuid (self s) in
  st ← readdata (state_key u);
  modify (upd_self (set_self_state st));;
  nd ← readdata (node_key u);
  modify (upd_self (set_self_node nd));;
  s ← get;
  running ← try_except
    (match self_dom (self s) with
     | Some d => dom_state (Some d)
     | None => raise TypeError
     end)
    (λ _, mret VIR_DOMAIN_NOSTATE);
  s ← get;
  let is_state (v : string) := bool_decide (self_state (self s) = v) in
  if bool_decide (instart (self s) = false)
     && bool_decide (inrestart (self s) = false)
     && bool_decide (inmigrate (self s) = false)
     && bool_decide (inreceive (self s) = false)
     && bool_decide (inshutdown (self s) = false)
     && bool_decide (instop (self s) = false)
  then
    if bool_decide (self_node (self s) = name (this_node s))
    then
      if bool_decide (running = VIR_DOMAIN_RUNNING)
      then
        if is_state "start" then
          console_log_start;;
          addDomainToList
        else if is_state "migrate" then
          console_log_start;;
          writedata [(state_key u, "start")];;
          addDomainToList
        else if is_state "restart" then restart_vm
        else if is_state "shutdown" then shutdown_vm
        else if is_state "stop" then stop_vm
        else mret tt
      else
        (if is_state "start" then start_vm
         else if is_state "migrate" then receive_migrate
         else mret tt);;
        s ← get;
        let is_state (v : string) := bool_decide (self_state (self s) = v) in
        if is_state "restart" then
          writedata [(state_key u, "start")]
        else if is_state "shutdown" then
          removeDomainFromList;;
          console_log_stop
        else if is_state "stop" then
          removeDomainFromList;;
          console_log_stop
        else mret tt
    else
      if bool_decide (running = VIR_DOMAIN_RUNNING)
      then
        if is_state "migrate" then migrate_vm
        else if is_state "shutdown" then shutdown_vm
        else terminate_vm
      else mret tt
  else mret tt.
End controller.

(** [shutdown_vm] calls back into [manage_vm_state] when it is aborted, so
  the recursion is cut by the same budget that bounds the loops. *)
Fixpoint manage_vm_state (env : Z → Cluster → Cluster) (cluster_domain : string)
  (fuel : nat) : M State unit :=
match fuel with
| O => out_of_fuel
| S n => manage_vm_state_body env cluster_domain fuel
           (manage_vm_state env cluster_domain n)
end.
End Pvcnoded.

(** ** virtualization-daemon/pvcvd/VMInstance.py *)

Module Pvcvd.
Section controller.
Variable env : Z → Cluster → Cluster.
Variable fuel : nat.

Definition lookupByUUID (tuuid : string) : M State (option virDomain) :=
  s ← get;
  if negb (libvirt_up (cluster s)) then mret None
  else match libvirt (cluster s) !! tuuid with
       | Some _ => mret (Some (VirDomain tuuid))
       | None => mret None
       end.

Definition start_vm : M State unit :=
  modify (upd_self (set_instart true));;
  s ← get;
  let u := domuuid (self s) in
  if negb (libvirt_up (cluster s))
  then modify (upd_self (set_instart false))
  else
    curstate ← try_except
      (d ← lookupByUUID u;
       modify (upd_self (set_self_dom d));;
       st ← dom_state d;
       mret (Some st))
      (λ _, mret None);
    (if bool_decide (curstate = Some VIR_DOMAIN_RUNNING)
     then
       addDomainToList;;
       writedata [(failedreason_key u, "")]
     else
       try_except
         (xmlconfig ← readdata (xml_key u);
          d ← createXML u xmlconfig;
          addDomainToList;;
          modify (upd_self (set_self_dom (Some d)));;
          writedata [(failedreason_key u, "")])
         (λ e, match e with
               | libvirtError msg =>
                   writedata [(state_key u, "failed")];;
                   writedata [(failedreason_key u, msg)];;
                   modify (upd_self (set_self_dom None))
               | _ => raise e
               end));;
    modify (upd_self (set_instart false)).

Definition terminate_vm : M State unit :=
  modify (upd_self (set_instop true));;
  try_destroy;;
  removeDomainFromList;;
  modify (upd_self (set_self_dom None));;
  modify (upd_self (set_instop false)).

Definition stop_vm : M State unit :=
  modify (upd_self (set_instop true));;
  s ← get;
  let u := domuuid (self s) in
  try_destroy;;
  removeDomainFromList;;
  s ← get;
  (if bool_decide (inrestart (self s) = false)
   then writedata [(state_key u, "stop")]
   else mret tt);;
  modify (upd_self (set_self_dom None));;
  modify (upd_self (set_instop false)).

(** The test and the body of
    [while self.dom.state()[0] == VIR_DOMAIN_RUNNING and tick < 60];
    [inr tick] is the exit of the loop. *)
Definition shutdown_round (tick : Z) : M State (Z + Z) :=
  s ← get;
  st ← dom_state (self_dom (self s));
  if bool_decide (st = VIR_DOMAIN_RUNNING) && bool_decide (tick < 60)%Z
  then
    let tick := (tick + 1)%Z in
    sleep env 500;;
    mret (inl tick)
  else mret (inr tick).

Definition shutdown_vm : M State unit :=
  modify (upd_self (set_inshutdown true));;
  s ← get;
  let u := domuuid (self s) in
  dom_shutdown (self_dom (self s));;
  returned ← try_except
    (tick ← while_true fuel shutdown_round 0%Z;
     if bool_decide (60 ≤ tick)%Z
     then
       stop_vm;;
       modify (upd_self (set_inshutdown false));;
       mret true
     else mret false)
    (λ _, mret false);
  if returned : bool then mret tt
  else
    removeDomainFromList;;
    s ← get;
    (if bool_decide (inrestart (self s) = false)
     then writedata [(state_key u, "stop")]
     else mret tt);;
    modify (upd_self (set_self_dom None));;
    modify (upd_self (set_inshutdown false)).

Definition restart_vm : M State unit :=
  modify (upd_self (set_inrestart true));;
  s ← get;
  let u := domuuid (self s) in
  if negb (libvirt_up (cluster s))
  then modify (upd_self (set_inrestart false))
  else
    shutdown_vm;;
    start_vm;;
    addDomainToList;;
    writedata [(state_key u, "start")];;
    modify (upd_self (set_inrestart false)).

Definition live_migrate_vm (dest_hypervisor : string) : M State Z :=
  s ← get;
  let dest_lv := "qemu+tcp://" +:+ self_node (self s) +:+ "/system" in
  if negb (dest_up (cluster s)) then mret 1%Z
  else
    try_except
      (target_dom ← dom_migrate (self_dom (self s)) dest_lv None;
       if negb target_dom then raise (libvirtError "") else mret 0%Z)
      (λ _, mret 1%Z).

Definition migrate_vm : M State unit :=
  modify (upd_self (set_inmigrate true));;
  s ← get;
  let u := domuuid (self s) in
  migrate_ret ← try_except (live_migrate_vm (self_node (self s)))
                           (λ _, mret 0%Z);
  (if bool_decide (migrate_ret ≠ 0%Z)
   then
     shutdown_vm;;
     sleep env 1000
   else
     removeDomainFromList;;
     sleep env 1000);;
  writedata [(state_key u, "start")];;
  modify (upd_self (set_inmigrate false)).

(** One round of the [while True] of [receive_migrate]; [inl tt] is a
    [continue] or the end of the body, [inr tt] a [break]. *)
Definition receive_round (u : string) (_ : unit) : M State (unit + unit) :=
  sleep env 500;;
  st ← readdata (state_key u);
  modify (upd_self (set_self_state st));;
  d ← lookupByUUID u;
  modify (upd_self (set_self_dom d));;
  if bool_decide (d = None) && bool_decide (st = "migrate")
  then mret (inl tt)
  else if bool_decide (st ≠ "migrate")
  then mret (inr tt)
  else
    try_except
      (lvdomstate ← dom_state d;
       if bool_decide (lvdomstate = VIR_DOMAIN_RUNNING)
       then mret (inr tt)
       else mret (inl tt))
      (λ _, mret (inl tt)).

Definition receive_migrate : M State unit :=
  modify (upd_self (set_inreceive true));;
  s ← get;
  let u := domuuid (self s) in
  while_true fuel (receive_round u) tt;;
  s ← get;
  dom_state_ ← try_except
    (st ← dom_state (self_dom (self s)); mret (Some st))
    (λ e, match e with AttributeError => mret None | _ => raise e end);
  (if bool_decide (dom_state_ = Some VIR_DOMAIN_RUNNING)
   then addDomainToList
   else mret tt);;
  modify (upd_self (set_inreceive false)).

Definition manage_vm_state : M State unit :=
  sleep env 200;;
  s ← get;
  let u := domuuid (self s) in
  st ← readdata (state_key u);
  modify (upd_self (set_self_state st));;
  nd ← readdata (hypervisor_key u);
  modify (upd_self (set_self_node nd));;
  s ← get;
  running ← try_except
    (match self_dom (self s) with
     | Some d => dom_state (Some d)
     | None => raise TypeError
     end)
    (λ _, mret VIR_DOMAIN_NOSTATE);
  s ← get;
  let is_state (v : string) := bool_decide (self_state (self s) = v) in
  if bool_decide (instart (self s) = false)
     && bool_decide (inrestart (self s) = false)
     && bool_decide (inmigrate (self s) = false)
     && bool_decide (inreceive (self s) = false)
     && bool_decide (inshutdown (self s) = false)
     && bool_decide (instop (self s) = false)
  then
    if bool_decide (self_node (self s) = name (this_node s))
    then
      if bool_decide (running = VIR_DOMAIN_RUNNING)
      then
        if is_state "start" then addDomainToList
        else if is_state "migrate" then
          writedata [(state_key u, "start")];;
          addDomainToList
        else if is_state "restart" then restart_vm
        else if is_state "shutdown" then shutdown_vm
        else if is_state "stop" then stop_vm
        else mret tt
      else
        (if is_state "start" then start_vm
         else if is_state "migrate" then receive_migrate
         else mret tt);;
        s ← get;
        let is_state (v : string) := bool_decide (self_state (self s) = v) in
        if is_state "restart" then
          writedata [(state_key u, "start")]
        else if is_state "shutdown" then removeDomainFromList
        else if is_state "stop" then removeDomainFromList
        else mret tt
    else
      if bool_decide (running = VIR_DOMAIN_RUNNING)
      then
        if is_state "migrate" then migrate_vm
        else terminate_vm
      else mret tt
  else mret tt.
End controller.
End Pvcvd.

(** ** The command queue handler of pvcnoded: [flush_locks], [run_command] *)

(** What [json.loads] hands back. *)
#[warnings="-register-all"]
Inductive json :=
| JNull
| JBool (b : bool)
| JNumber (z : Z)
| JString (s : string)
| JArray (l : list json)
| JObject (l : list (string * json)).

(** [if v:] on a decoded value. *)
Definition truthy (v : json) : bool :=
  match v with
  | JNull => false
  | JBool b => b
  | JNumber z => negb (z =? 0)%Z
  | JString s => negb (bool_decide (s = ""))
  | JArray l => negb (bool_decide (length l = 0%nat))
  | JObject l => negb (bool_decide (length l = 0%nat))
  end.

(** [v.items()]: only a dict has the method. *)
Definition items {S} (v : json) : M S (list (string * json)) :=
  match v with
  | JObject l => mret l
  | _ => raise AttributeError
  end.

(** [v[key]] for a string key. *)
Definition subscript {S} (v : json) (key : string) : M S json :=
  match v with
  | JObject l =>
      match list_find (λ kv, kv.1 = key) l with
      | Some (_, kv) => mret kv.2
      | None => raise KeyError
      end
  | _ => raise TypeError
  end.

Definition dquote : string := String "034"%char "".

Module CommandQueue.
Section handler.
Variable env : Z → Cluster → Cluster.
(** Modelled from the spec: [pvcnoded.common] is not among the sources;
    section 2 gives the process runner as foreground execution with
    captured stdout, stderr and exit.  [os_reply] is what the program
    answers (exit code, stdout, stderr) given everything the handler
    has done before. *)
Variable os_reply : list event → string → Z * string * string.
Variable json_loads : string → option json.   (* None: it raised *)
Variable py_str : json → string.              (* '{}'.format(v) *)

Definition run_os_command (command_string : string)
  : M State (Z * string * string) :=
  s ← get;
  modify (log (OsCommand command_string));;
  mret (os_reply (trace s) command_string).

(** The body of [for lock, detail in lock_list.items()]. *)
Definition free_lock (rbd : string) (item : string * json) : M State unit :=
  let lock := item.1 in
  let detail := item.2 in
  locker ← subscript detail "locker";
  r ← run_os_command
        ("rbd lock remove " +:+ rbd +:+ " " +:+ dquote +:+ lock +:+ dquote
         +:+ " " +:+ dquote +:+ py_str locker +:+ dquote);
  mret tt.

(** The body of [for rbd in rbd_list]. *)
Definition flush_volume (rbd : string) : M State unit :=
  r ← run_os_command ("rbd lock list --format json " +:+ rbd);
  let lock_list_retcode := r.1.1 in
  let lock_list_stdout := r.1.2 in
  if bool_decide (lock_list_retcode ≠ 0%Z) then mret tt
  else
    match json_loads lock_list_stdout with
    | None => mret tt
    | Some lock_list =>
        if truthy lock_list
        then
          l ← items lock_list;
          for_each l (free_lock rbd)
        else mret tt
    end.

Definition flush_locks (dom_uuid : string) : M State bool :=
  rbds ← readdata (rbdlist_key dom_uuid);
  let rbd_list := str_split_on ","%char rbds in
  for_each rbd_list flush_volume;;
  mret true.

(** The advisory lock on [/cmd/domains] is taken and released around
    the body; nothing contends for it in this model. *)
Definition run_command (data : string) : M State unit :=
  match str_split data with
  | [command; args] =>
      if bool_decide (command = "flush_locks")
      then
        let dom_uuid := args in
        s ← get;
        if bool_decide (router_state (this_node s) = "primary")
        then
          result ← flush_locks dom_uuid;
          (if result : bool
           then writedata [("/cmd/domains", "success-" +:+ data)]
           else writedata [("/cmd/domains", "failure-" +:+ data)]);;
          sleep env 1000
        else mret tt
      else mret tt
  | _ => raise ValueError
  end.
End handler.
End CommandQueue.

(** ** daemon-common/daemon_lib/common.py *)

Module Common.
(** A [subprocess.Popen] object.  [returncode] is [None] from the
    constructor on; only [poll], [wait] and [communicate] set it. *)
Record Popen := mkPopen {
  args : list string;
  popen_env : option (list (string * string));
  returncode : option Z
}.

Record OS := mkOS {
  program_exit : list string → option Z;
    (* the status the program will exit with; None: it cannot be executed *)
  spawned : list Popen
}.

Definition record_spawn (p : Popen) (o : OS) : OS :=
  mkOS (program_exit o) (spawned o ++ [p]).

(** [subprocess.Popen(command, env=environment, ...)].  The program is
    [command[0]]: an empty list raises [IndexError] before anything is
    executed, a program that cannot be executed raises [OSError]. *)
Definition subprocess_Popen (command : list string)
    (environment : option (list (string * string))) : M OS Popen :=
  match command with
  | [] => raise IndexError
  | _ :: _ =>
      o ← get;
      match program_exit o command with
      | None => raise OSError
      | Some _ =>
          let p := mkPopen command environment None in
          modify (record_spawn p);;
          mret p
      end
  end.
(** [threading.Thread(target=runcmd).start()]: the thread body runs on
    its own; an exception in it does not reach the caller. *)
Definition thread_start (body : M OS unit) : M OS unit :=
  try_except body (λ _, mret tt).

Record OSDaemon := mkOSDaemon { proc : Popen }.

Definition run_os_daemon (command_string : string)
    (environment : option (list (string * string))) : M OS OSDaemon :=
  let command := str_split command_string in
  p ← subprocess_Popen command environment;
  mret (mkOSDaemon p).

(** The value returned is a Python [int] or [None]. *)
Definition run_os_command (command_string : string) (background : bool)
    (environment : option (list (string * string))) : M OS (option Z) :=
  let command := str_split command_string in
  if background
  then
    let runcmd : M OS unit :=
      p ← subprocess_Popen command environment; mret tt in
    thread_start runcmd;;
    mret (Some 0%Z)
  else
    command_output ← subprocess_Popen command environment;
    mret (returncode command_output).

(** [Popen.wait()], as the library defines it: block until the child
    has exited and store its status in [returncode].  The source never
    calls it; it is what the specification's wording asks for. *)
Definition Popen_wait (p : Popen) : M OS Z :=
  o ← get;
  match program_exit o (args p) with
  | Some status => mret status
  | None => raise OSError
  end.

(** The process runner in the words of the specification: foreground
    execution with captured exit status. *)
Definition run_os_command_spec (command_string : string)
    (environment : option (list (string * string))) : M OS (option Z) :=
  let command := str_split command_string in
  command_output ← subprocess_Popen command environment;
  status ← Popen_wait command_output;
  mret (Some status).
End Common.

(** ** router-daemon/pvcrd/VXNetworkInstance.py *)

Module VXNetwork.
Record VXNetworkInstance := mkVXNetworkInstance {
  vni : string;
  vni_dev : string;
  domain : option string;
  ip_gateway : option string;
  ip_cidrnetmask : option string;
  dhcp_start : option string;
  dhcp_end : option string;
  dhcp_server_daemon : option Common.OSDaemon;
  network_state : string      (* self.this_router.network_state *)
}.

Record State := mkState {
  self : VXNetworkInstance;
  os : Common.OS;
  environ : gmap string string   (* os.environ *)
}.

Definition vxlan_nic (n : VXNetworkInstance) : string := "vxlan" +:+ vni n.
Definition bridge_nic (n : VXNetworkInstance) : string := "br" +:+ vni n.
Definition dnsmasq_hostsdir (n : VXNetworkInstance) : string :=
  "/var/lib/dnsmasq/" +:+ vni n.

(** ['{}'.format(v)] for an attribute that is a string or still [None]. *)
Definition fmt (v : option string) : string := default "None" v.

Definition set_dhcp_server_daemon (d : option Common.OSDaemon)
    (n : VXNetworkInstance) : VXNetworkInstance :=
  mkVXNetworkInstance (vni n) (vni_dev n) (domain n) (ip_gateway n)
    (ip_cidrnetmask n) (dhcp_start n) (dhcp_end n) d (network_state n).

(** Calls into [daemon_lib.common] act on the operating system only. *)
Definition lift_os {A} (m : M Common.OS A) : M State A :=
  λ s, let '(r, o) := m (os s) in (r, mkState (self s) o (environ s)).

(** Modelled from the spec: the router object is not among the
    sources; [getnetworkstate()] answers the attribute [network_state]
    that the watchers of this file read directly. *)
Definition getnetworkstate : M State string :=
  gets (λ s, network_state (self s)).

Definition createGatewayAddress : M State unit :=
  st ← getnetworkstate;
  if bool_decide (st = "primary")
  then
    s ← get;
    let n := self s in
    lift_os (Common.run_os_command
      ("ip address add " +:+ fmt (ip_gateway n) +:+ "/"
         +:+ fmt (ip_cidrnetmask n) +:+ " dev " +:+ bridge_nic n)
      false None);;
    lift_os (Common.run_os_command
      ("arping -A -c2 -I " +:+ bridge_nic n +:+ " " +:+ fmt (ip_gateway n))
      true None);;
    mret tt
  else mret tt.

Definition dhcp_configuration (n : VXNetworkInstance) : list string :=
  [ "--domain-needed";
    "--bogus-priv";
    "--no-resolv";
    "--filterwin2k";
    "--expand-hosts";
    "--domain=" +:+ fmt (domain n);
    "--local=/" +:+ fmt (domain n) +:+ "/";
    "--listen-address=" +:+ fmt (ip_gateway n);
    "--bind-interfaces";
    "--leasefile-ro";
    "--dhcp-script=/usr/share/pvc/pvcrd/dnsmasq-zookeeper-leases.py";
    "--dhcp-range=" +:+ fmt (dhcp_start n) +:+ "," +:+ fmt (dhcp_end n) +:+ ",4h";
    "--dhcp-lease-max=99";
    "--dhcp-hostsdir=" +:+ dnsmasq_hostsdir n;
    "--log-facility=DAEMON";
    "--keep-in-foreground" ].

Definition startDHCPServer : M State unit :=
  st ← getnetworkstate;
  if bool_decide (st = "primary")
  then
    s ← get;
    let n := self s in
    lift_os (Common.run_os_command
      ("/bin/mkdir --parents " +:+ dnsmasq_hostsdir n) false None);;
    match environ s !! "PVCRD_CONFIG_FILE" with
    | None => raise KeyError
    | Some pvcrd_config_file =>
        let dhcp_environment :=
          [("DNSMASQ_INTERFACE", bridge_nic n);
           ("PVCRD_CONFIG_FILE", pvcrd_config_file)] in
        d ← lift_os (Common.run_os_daemon
               ("/usr/sbin/dnsmasq " +:+ str_join " " (dhcp_configuration n))
               (Some dhcp_environment));
        modify (λ s, mkState (set_dhcp_server_daemon (Some d) (self s))
                             (os s) (environ s))
    end
  else mret tt.

Definition set_ip_gateway (g : option string)
    (n : VXNetworkInstance) : VXNetworkInstance :=
  mkVXNetworkInstance (vni n) (vni_dev n) (domain n) g
    (ip_cidrnetmask n) (dhcp_start n) (dhcp_end n) (dhcp_server_daemon n)
    (network_state n).

(** [common.run_os_command(command)] for its effect, the value dropped. *)
Definition os_command (command_string : string) : M State unit :=
  lift_os (Common.run_os_command command_string false None);;
  mret tt.

Definition createNetwork : M State unit :=
  s ← get;
  let n := self s in
  os_command ("ip link add " +:+ vxlan_nic n +:+ " type vxlan id " +:+ vni n
                +:+ " dstport 4789 dev " +:+ vni_dev n);;
  os_command ("brctl addbr " +:+ bridge_nic n);;
  os_command ("brctl addif " +:+ bridge_nic n +:+ " " +:+ vxlan_nic n);;
  os_command ("ip link set " +:+ vxlan_nic n +:+ " up");;
  os_command ("ip link set " +:+ bridge_nic n +:+ " up").

Definition removeNetwork : M State unit :=
  s ← get;
  let n := self s in
  os_command ("ip link set " +:+ bridge_nic n +:+ " down");;
  os_command ("ip link set " +:+ vxlan_nic n +:+ " down");;
  os_command ("brctl delif " +:+ bridge_nic n +:+ " " +:+ vxlan_nic n);;
  os_command ("brctl delbr " +:+ bridge_nic n);;
  os_command ("ip link delete " +:+ vxlan_nic n).

Definition removeGatewayAddress : M State unit :=
  s ← get;
  let n := self s in
  os_command ("ip address delete " +:+ fmt (ip_gateway n) +:+ "/"
                +:+ fmt (ip_cidrnetmask n) +:+ " dev " +:+ bridge_nic n).

(** [if v:] on an attribute that is a string or [None]. *)
Definition nonempty (v : option string) : bool :=
  match v with
  | Some x => negb (bool_decide (x = ""))
  | None => false
  end.

(** The watcher of [/networks/<vni>/ip_gateway].  [data] is the content
    of the key ([None] when the key does not exist), taken to be ASCII so
    that [decode] does not raise; [event] is the type of the event when
    the call carries one.  The answer [Some false] is the [return False]
    that ends the watch, [None] the end of the body. *)
Definition watch_network_gateway (data : option string)
    (event : option string) : M State (option bool) :=
  if bool_decide (event = Some "DELETED") then mret (Some false)
  else
    s ← get;
    (if nonempty data && bool_decide (ip_gateway (self s) ≠ data)
     then
       let orig_gateway := ip_gateway (self s) in
       modify (λ s, mkState (set_ip_gateway data (self s)) (os s) (environ s));;
       if bool_decide (network_state (self s) = "primary")
       then
         (if nonempty orig_gateway then removeGatewayAddress else mret tt);;
         createGatewayAddress
       else mret tt
     else mret tt);;
    mret None.
End VXNetwork.

(** *** The watcher of the DHCP flag

    The flag, and the signals sent to the daemons, are kept beside the
    state of the controller. *)

Module DHCPWatch.
(** [self.dhcp_flag]: the text that [__init__] reads from the store, or
    the [bool] that the watcher computes. *)
Inductive flag :=
| FlagStr (s : string)
| FlagBool (b : bool).

Record State := mkState {
  net : VXNetwork.State;
  dhcp_flag : flag;
  signals : list (Common.Popen * string)   (* process, signal name *)
}.

Definition lift_net {A} (m : M VXNetwork.State A) : M State A :=
  λ s, let '(r, n) := m (net s) in (r, mkState n (dhcp_flag s) (signals s)).

(** [OSDaemon.signal]: [signal_map[sent_signal]] raises [KeyError] for a
    name other than ['hup'] and ['int']; the signal goes to the process
    of the daemon. *)
Definition OSDaemon_signal (d : Common.OSDaemon) (sent_signal : string)
  : M State unit :=
  if bool_decide (sent_signal = "hup") then
    modify (λ s, mkState (net s) (dhcp_flag s)
                   (signals s ++ [(Common.proc d, "SIGHUP")]))
  else if bool_decide (sent_signal = "int") then
    modify (λ s, mkState (net s) (dhcp_flag s)
                   (signals s ++ [(Common.proc d, "SIGINT")]))
  else raise KeyError.

Definition stopDHCPServer : M State unit :=
  s ← get;
  match VXNetwork.dhcp_server_daemon (VXNetwork.self (net s)) with
  | Some d => OSDaemon_signal d "int"
  | None => mret tt
  end.

(** [self.dhcp_flag != text]: a [bool] never equals a [str]. *)
Definition flag_differs (f : flag) (text : string) : bool :=
  match f with
  | FlagStr x => bool_decide (x ≠ text)
  | FlagBool _ => true
  end.

(** The watcher of [/networks/<vni>/dhcp_flag]; [data] and [event] as
    for the gateway watcher. *)
Definition watch_network_dhcp_status (data : option string)
    (event : option string) : M State (option bool) :=
  if bool_decide (event = Some "DELETED") then mret (Some false)
  else
    s ← get;
    (match data with
     | Some text =>
         if negb (bool_decide (text = "")) && flag_differs (dhcp_flag s) text
         then
           let new_flag := bool_decide (text = "True") in
           modify (λ s, mkState (net s) (FlagBool new_flag) (signals s));;
           let primary :=
             bool_decide (VXNetwork.network_state (VXNetwork.self (net s))
                          = "primary") in
           if new_flag && primary then lift_net VXNetwork.startDHCPServer
           else if primary then stopDHCPServer
           else mret tt
         else mret tt
     | None => mret tt
     end);;
    mret None.
End DHCPWatch.

(** ** NodeInstance.py: the flush of a node *)

Module NodeSupervisor.
(** The Python values that the free-memory attribute takes: an [int]
    on the local node ([conn.getFreeMemory()]), a [str] on the nodes
    watched through the store ([data.decode('ascii')]); the running
    minimum starts as a [float]. *)
Inductive pyval :=
| PyInt (z : Z)
| PyFloat (q : Q)
| PyStr (s : string).

Record NodeInstance := mkNodeInstance {
  name : string;
  memfree : pyval;
  domainlist : list string
}.

Record Store := mkStore {
  zk : gmap string string;
  sets : list (string * string)    (* the zk.set calls made, in order *)
}.

(** [zk.set(path, value)]: kazoo refuses a path that does not exist. *)
Definition zk_set (path value : string) : M Store unit :=
  s ← get;
  match zk s !! path with
  | None => raise NoNodeError
  | Some _ =>
      modify (λ s, mkStore (<[path := value]> (zk s)) (sets s ++ [(path, value)]))
  end.

Definition num_of (v : pyval) : option Q :=
  match v with
  | PyInt z => Some (inject_Z z)
  | PyFloat q => Some q
  | PyStr _ => None
  end.

(** [a < b]: numbers compare by value, strings with each other, and a
    string against a number raises [TypeError]. *)
Definition py_lt {S} (a b : pyval) : M S bool :=
  match a, b with
  | PyStr x, PyStr y => mret (String.ltb x y)
  | _, _ =>
      match num_of a, num_of b with
      | Some p, Some q => mret (negb (Qle_bool q p))
      | _, _ => raise TypeError
      end
  end.

Definition getfreemem (n : NodeInstance) : pyval := memfree n.
Definition getname (n : NodeInstance) : string := name n.

(** [for node in node_list:] with the locals [least_mem], [least_host]. *)
Fixpoint select_target {S} (node_list : list NodeInstance)
    (least_mem : pyval) (least_host : string) : M S (pyval * string) :=
  match node_list with
  | [] => mret (least_mem, least_host)
  | node :: rest =>
      let node_freemem := getfreemem node in
      lt ← py_lt node_freemem least_mem;
      if lt : bool
      then select_target rest node_freemem (getname node)
      else select_target rest least_mem least_host
  end.

(** [(2^64)/8]: [^] is exclusive or on [int], [/] is true division. *)
Definition least_mem_init : pyval :=
  PyFloat (inject_Z (Z.lxor 2 64) / 8).

(** [flush] names [node_list], not [self.node_list]: the name is
    looked up among the globals of the module, where the file binds
    none.  [global_node_list] is the binding that lookup finds. *)
Definition flush (global_node_list : option (list NodeInstance))
    (self : NodeInstance) : M Store unit :=
  for_each (domainlist self) (λ domain,
    let least_mem := least_mem_init in
    let least_host := "" in
    node_list ← match global_node_list with
                | Some l => mret l
                | None => raise NameError
                end;
    r ← select_target node_list least_mem least_host;
    let least_host := r.2 in
    zk_set ("/domains/" +:+ domain +:+ "/state") "flush";;
    zk_set ("/domains/" +:+ domain +:+ "/hypervisor") least_host).

(** The selector in the words of the specification (least-used memory):
    a candidate whose free memory no other candidate exceeds. *)
Definition most_free (node_list : list NodeInstance) (target : string) : Prop :=
  ∃ n z, n ∈ node_list ∧ name n = target ∧ memfree n = PyInt z ∧
    ∀ n' z', n' ∈ node_list → memfree n' = PyInt z' → (z' ≤ z)%Z.
End NodeSupervisor.

(** ** Vocabulary of the statements *)

(** The events [evs] are what a call added to the trace. *)
Definition emitted (s s' : State) (evs : list event) : Prop :=
  trace s' = trace s ++ evs.

(** No write to the store key [k] among the events. *)
Definition no_write_to (k : string) (evs : list event) : Prop :=
  ∀ v, ZkWrite k v ∉ evs.

(** A call left the domain's state key alone: it issued no write to it and
    the store still holds what it held. *)
Definition state_untouched (s s' : State) : Prop :=
  ∃ evs, emitted s s' evs
    ∧ no_write_to (state_key (domuuid (self s))) evs
    ∧ zk (cluster s') !! state_key (domuuid (self s))
      = zk (cluster s) !! state_key (domuuid (self s)).

(** One of the six re-entrancy flags is up. *)
Definition busy (o : VMInstance) : Prop :=
  instart o = true ∨ inrestart o = true ∨ inmigrate o = true
  ∨ inreceive o = true ∨ inshutdown o = true ∨ instop o = true.

(** [self.dom] is a handle on the controller's own domain and the local
    driver knows the domain; this is what [manage_vm_state] has seen when
    it found the domain running. *)
Definition dom_present (s : State) : Prop :=
  self_dom (self s) = Some (VirDomain (domuuid (self s)))
  ∧ is_Some (libvirt (cluster s) !! domuuid (self s)).

(** What [terminate_vm] achieves when the domain is there to destroy. *)
Definition terminated (s s' : State) : Prop :=
  libvirt (cluster s') !! domuuid (self s) = None
  ∧ LvDestroy (domuuid (self s)) ∈ trace s'
  ∧ domain_list (this_node s')
    = list_remove (domuuid (self s)) (domain_list (this_node s))
  ∧ self_dom (self s') = None.

(** The account a shutdown gives of itself on the state key: ['stop'] is
    written, or, when the guard on [inrestart] holds it back, nothing. *)
Definition stop_report (in_restart : bool) (u : string) (evs : list event) : Prop :=
  if in_restart then no_write_to (state_key u) evs
  else ZkWrite (state_key u) "stop" ∈ evs.

(** *** Weakest preconditions

    [wp m Q s]: running [m] from [s] ends in an outcome and a state that
    satisfy [Q].  The computations are functions, so this is a statement
    about the one run there is. *)
Definition wp {S A} (m : M S A) (Q : outcome A → S → Prop) (s : S) : Prop :=
  Q (m s).1 (m s).2.

(** The postcondition of the first half of a [≫=]. *)
Definition wp_cont {S A B} (f : A → M S B) (Q : outcome B → S → Prop)
    (r : outcome A) (s : S) : Prop :=
  match r with
  | Return a => wp (f a) Q s
  | Raise e => Q (Raise e) s
  | OutOfFuel => Q OutOfFuel s
  end.


(** What the specification asks of one send attempt by the owner, [ok]
    telling whether the live migration went through: ['shutdown'] written
    on failure, the domain off the running list on success, and no
    ['start'] written by the sender either way. *)
Definition sends_as_specified (ok : bool) (s s' : State) : Prop :=
  ∃ evs, emitted s s' evs
    ∧ (ok = false → ZkWrite (state_key (domuuid (self s))) "shutdown" ∈ evs)
    ∧ (ok = true →
         domain_list (this_node s')
         = list_remove (domuuid (self s)) (domain_list (this_node s)))
    ∧ ZkWrite (state_key (domuuid (self s))) "start" ∉ evs.

(** The events a shutdown in pvcvd can produce for the domain [u] on the
    node [n]: the request to the guest, the destruction of the domain, the
    update of the node's list, and the report ['stop']. *)
Definition shutdown_event (u n : string) (e : event) : Prop :=
  e = LvShutdown u ∨ e = LvDestroy u
  ∨ (∃ v, e = ZkWrite (runningdomains_key n) v)
  ∨ e = ZkWrite (state_key u) "stop".

(** One send attempt in pvcvd, [ok] telling whether the live migration
    went through: the sender never writes ['shutdown'] to the state key;
    on success the domain has been migrated, no shutdown was asked for and
    the uuid is off the running list; on failure the sender has asked the
    guest to shut down and no migration has taken place; either way the
    last thing it does is to write ['start']. *)
Definition pvcvd_sends (ok : bool) (s s' : State) : Prop :=
  ∃ evs, emitted s s' (evs ++ [ZkWrite (state_key (domuuid (self s))) "start"])
    ∧ (ZkWrite (state_key (domuuid (self s))) "shutdown" ∉ evs)
    ∧ (ok = true →
         (∃ dest_lv, LvMigrate (domuuid (self s)) dest_lv None ∈ evs)
         ∧ (LvShutdown (domuuid (self s)) ∉ evs)
         ∧ domain_list (this_node s')
           = list_remove (domuuid (self s)) (domain_list (this_node s)))
    ∧ (ok = false →
         LvShutdown (domuuid (self s)) ∈ evs
         ∧ ∀ dest_lv dest_tcp,
             LvMigrate (domuuid (self s)) dest_lv dest_tcp ∉ evs).

(** The peers leave the domain's state key at ['migrate'] and the domain
    never shows up in the local driver. *)
Definition nothing_arrives (env : Z → Cluster → Cluster) (u : string) : Prop :=
  ∀ t c,
    zk c !! state_key u = Some "migrate" → libvirt c !! u = None →
    zk (env t c) !! state_key u = Some "migrate"
    ∧ libvirt (env t c) !! u = None.

(** [rbd lock list --format json <volume>] succeeds and its output decodes
    to an empty collection, whenever it is asked. *)
Definition carries_no_locks (os_reply : list event → string → Z * string * string)
    (json_loads : string → option json) (rbd : string) : Prop :=
  ∀ tr, ∃ out err lock_list,
    os_reply tr ("rbd lock list --format json " +:+ rbd) = (0%Z, out, err)
    ∧ json_loads out = Some lock_list
    ∧ truthy lock_list = false.

(** The listing of the locks of one volume, as an event. *)
Definition lock_list_command (rbd : string) : event :=
  OsCommand ("rbd lock list --format json " +:+ rbd).

(** ** The scenarios the statements are run on *)

(** A controller on [hv1] in the middle of receiving a migration
    ([inreceive] is up) when its watch fires again. *)
Definition busy_state : State :=
  mkState
    (mkVMInstance "7c1f" "start" "hv1" None false false false true false false false)
    (mkNodeInstance "hv1" [] "secondary")
    (mkCluster (<[state_key "7c1f" := "migrate"]> (<[node_key "7c1f" := "hv1"]> ∅))
       ∅ true true true None)
    [] 0.

(** Node [hv1] already lists the domain of this controller, after
    another one. *)
Definition listed_state : State :=
  mkState
    (mkVMInstance "7c1f" "start" "hv1" None false false false false false false false)
    (mkNodeInstance "hv1" ["3d2a"; "7c1f"] "secondary")
    (mkCluster (<[runningdomains_key "hv1" := "3d2a 7c1f"]> ∅) ∅ true true true None)
    [] 0.

(** A domain that runs here although the store has given it to [hv2],
    whose controller has already written ['start']. *)
Definition disowned_state : State :=
  mkState
    (mkVMInstance "7c1f" "start" "hv2" (Some (VirDomain "7c1f"))
       false false false false false false true)
    (mkNodeInstance "hv1" ["7c1f"] "secondary")
    (mkCluster (<[state_key "7c1f" := "start"]> (<[node_key "7c1f" := "hv2"]> ∅))
       (<["7c1f" := VIR_DOMAIN_RUNNING]> ∅) true true true None)
    [] 0.

(** An operating system on which the tools the daemons call exist. *)
Definition tools : Common.OS :=
  Common.mkOS
    (λ argv, match argv with
             | [] => None
             | prog :: _ =>
                 if bool_decide (prog = "/bin/false") then Some 1%Z
                 else Some 0%Z
             end)
    [].

(** The controller of network 1001 on a router in network state [st]. *)
Definition network_on (st : string) : VXNetwork.State :=
  VXNetwork.mkState
    (VXNetwork.mkVXNetworkInstance "1001" "ens4" (Some "net.local")
       (Some "10.1.0.1") (Some "24") (Some "10.1.0.100") (Some "10.1.0.199")
       None st)
    tools
    (<["PVCRD_CONFIG_FILE" := "/etc/pvc/pvcrd.conf"]> ∅).

(** The node that is flushed; it runs one domain. *)
Definition flushed_node : NodeSupervisor.NodeInstance :=
  NodeSupervisor.mkNodeInstance "hv1" (NodeSupervisor.PyInt 1073741824) ["7c1f"].

(** The other nodes, with their free memory in bytes as libvirt reports
    it. *)
Definition candidates : list NodeSupervisor.NodeInstance :=
  [ NodeSupervisor.mkNodeInstance "hv2" (NodeSupervisor.PyInt 4294967296) [];
    NodeSupervisor.mkNodeInstance "hv3" (NodeSupervisor.PyInt 8589934592) [] ].

(** Candidates with so little memory left that the comparison against
    [(2^64)/8 = 8.25] can succeed. *)
Definition starved_candidates : list NodeSupervisor.NodeInstance :=
  [ NodeSupervisor.mkNodeInstance "hv2" (NodeSupervisor.PyInt 7) [];
    NodeSupervisor.mkNodeInstance "hv3" (NodeSupervisor.PyInt 3) [];
    NodeSupervisor.mkNodeInstance "hv4" (NodeSupervisor.PyInt 5) [] ].

(** The store before the flush: both keys of the domain exist. *)
Definition flush_store : NodeSupervisor.Store :=
  NodeSupervisor.mkStore
    (<["/domains/7c1f/state" := "start"]>
       (<["/domains/7c1f/hypervisor" := "hv1"]> ∅))
    [].

(** A restart has been requested for a domain that runs on [hv1]; the
    guest powers off within the first second of being asked to (the
    request reaches it after the 0.2 seconds that pvcvd sleeps first). *)
Definition restart_requested (node_field : string) : State :=
  mkState
    (mkVMInstance "7c1f" "start" "hv1" (Some (VirDomain "7c1f"))
       false false false false false false true)
    (mkNodeInstance "hv1" ["7c1f"] "secondary")
    (mkCluster
       (<[state_key "7c1f" := "restart"]>
          (<[node_field := "hv1"]>
             (<[xml_key "7c1f" := "<domain/>"]> ∅)))
       (<["7c1f" := VIR_DOMAIN_RUNNING]> ∅) true true true None)
    [] 0.



(** The domain runs on [hv1]; the store has given it to [hv2] and asks
    for a migration.  [can_migrate] says whether libvirt will carry the
    live migration through. *)
Definition migrating_away (node_field : string) (can_migrate : bool) : State :=
  mkState
    (mkVMInstance "7c1f" "migrate" "hv2" (Some (VirDomain "7c1f"))
       false false false false false false true)
    (mkNodeInstance "hv1" ["7c1f"] "secondary")
    (mkCluster
       (<[state_key "7c1f" := "migrate"]> (<[node_field := "hv2"]> ∅))
       (<["7c1f" := VIR_DOMAIN_RUNNING]> ∅) true true can_migrate None)
    [] 0.

(** Nobody else touches the store or the driver. *)
Definition quiet : Z → Cluster → Cluster := λ _ c, c.

(** The target [hv2] has been told to receive the domain; the sender
    never delivers it and never falls back to a shutdown. *)
Definition awaiting_migration : State :=
  mkState
    (mkVMInstance "7c1f" "migrate" "hv2" None
       false false false false false false false)
    (mkNodeInstance "hv2" [] "secondary")
    (mkCluster
       (<[state_key "7c1f" := "migrate"]>
          (<[node_key "7c1f" := "hv2"]>
             (<[failedreason_key "7c1f" := ""]> ∅)))
       ∅ true true true None)
    [] 0.

(** The sibling path: the sender has fallen back to a shutdown that
    never completes; after the second window both keys are written. *)
Definition sender_shutting_down : Z → Cluster → Cluster :=
  λ t c, set_zk (<[state_key "7c1f" := "shutdown"]> (zk c)) c.

(** A cluster in which the two volumes of the domain exist and are
    unlocked; [rbd] prints an empty JSON object for each. *)
Definition unlocked_reply : list event → string → Z * string * string :=
  λ _ command,
    if bool_decide (command = "rbd lock list --format json vms/7c1f_disk0")
       || bool_decide (command = "rbd lock list --format json vms/7c1f_disk1")
    then (0%Z, "{}", "")
    else (2%Z, "", "rbd: error opening image").

(** A decoder that knows the outputs used here. *)
Definition toy_json_loads : string → option json :=
  λ text, if bool_decide (text = "{}") then Some (JObject []) else None.

(** [str] on the decoded values used here. *)
Definition toy_py_str : json → string :=
  λ v, match v with JString s => s | _ => "" end.

(** The primary [hv1], a stopped domain with two volumes, and the request
    in the command queue. *)
Definition primary_with_unlocked_volumes : State :=
  mkState
    (mkVMInstance "7c1f" "stop" "hv1" None
       false false false false false false false)
    (mkNodeInstance "hv1" [] "primary")
    (mkCluster
       (<[rbdlist_key "7c1f" := "vms/7c1f_disk0,vms/7c1f_disk1"]>
          (<["/cmd/domains" := "flush_locks 7c1f"]> ∅))
       ∅ true true true None)
    [] 0.

(** With a lock on a volume the handler removes it, and succeeds too. *)
Definition locked_reply : list event → string → Z * string * string :=
  λ tr command,
    if bool_decide (command = "rbd lock list --format json vms/7c1f_disk0")
    then (0%Z, "locked", "")
    else if bool_decide (command = "rbd lock list --format json vms/7c1f_disk1")
    then (0%Z, "{}", "")
    else (0%Z, "", "").

(** A decoder for the output of a volume with one lock. *)
Definition locked_json_loads : string → option json :=
  λ text,
    if bool_decide (text = "{}") then Some (JObject [])
    else if bool_decide (text = "locked")
    then Some (JObject [("auto 94", JObject [("locker", JString "client.4123")])])
    else None.

(** ** Vocabulary and scenarios of the further properties *)

(** The state in which [start_vm] finds a domain that the local driver
    does not have. *)
Definition not_in_driver (s : State) : Prop :=
  libvirt_up (cluster s) = true
  ∧ libvirt (cluster s) !! domuuid (self s) = None.

(** What a failed start leaves behind: the state key set to [word], the
    error text in [failedreason], no handle, the flag down, and neither the
    driver nor the list of running domains touched. *)
Definition start_failed (word msg : string) (s s' : State) : Prop :=
  trace s' = trace s ++ [ZkWrite (state_key (domuuid (self s))) word;
                         ZkWrite (failedreason_key (domuuid (self s))) msg]
  ∧ zk (cluster s') !! state_key (domuuid (self s)) = Some word
  ∧ zk (cluster s') !! failedreason_key (domuuid (self s)) = Some msg
  ∧ libvirt (cluster s') = libvirt (cluster s)
  ∧ this_node s' = this_node s
  ∧ self_dom (self s') = None
  ∧ instart (self s') = false.

(** What a successful start leaves behind: the domain running and held,
    the uuid listed, [failedreason] cleared, the flag down, [self.state] as
    it was and the state key not written. *)
Definition started (s s' : State) : Prop :=
  dom_present s'
  ∧ libvirt (cluster s') !! domuuid (self s) = Some VIR_DOMAIN_RUNNING
  ∧ domuuid (self s) ∈ domain_list (this_node s')
  ∧ zk (cluster s') !! failedreason_key (domuuid (self s)) = Some ""
  ∧ instart (self s') = false
  ∧ self_state (self s') = self_state (self s)
  ∧ state_untouched s s'.

(** The owner [hv1] is asked to start a domain that its driver does not
    have; [refused] is the answer libvirt will give to [createXML]. *)
Definition cold_start (refused : option string) : State :=
  mkState
    (mkVMInstance "7c1f" "start" "hv1" None
       false false false false false false false)
    (mkNodeInstance "hv1" ["3d2a"] "secondary")
    (mkCluster
       (<[state_key "7c1f" := "start"]>
          (<[node_key "7c1f" := "hv1"]>
             (<[xml_key "7c1f" := "<domain/>"]> ∅)))
       (<["3d2a" := VIR_DOMAIN_RUNNING]> ∅) true true true refused)
    [] 0.

(** What an abandoned request leaves behind: nothing written, nothing
    asked of the driver, the list of running domains and the handle as
    they were. *)
Definition dropped (s s' : State) : Prop :=
  trace s' = trace s
  ∧ cluster s' = cluster s
  ∧ this_node s' = this_node s
  ∧ self_dom (self s') = self_dom (self s)
  ∧ ¬ busy (self s').

(** One of the six flags is up exactly when the conjunction that
    [manage_vm_state] tests is false. *)
Definition idle (o : VMInstance) : Prop :=
  instart o = false ∧ inrestart o = false ∧ inmigrate o = false
  ∧ inreceive o = false ∧ inshutdown o = false ∧ instop o = false.

(** The write that [addDomainToList] makes, if it makes one. *)
Definition listing_write (s : State) : list event :=
  if bool_decide (domuuid (self s) ∈ domain_list (this_node s)) then []
  else [ZkWrite (runningdomains_key (name (this_node s)))
          (str_join " " (domain_list (this_node s) ++ [domuuid (self s)]))].

(** What [start_vm] leaves behind when it finds the domain running: the
    handle, the uuid on the list, [failedreason] cleared, the driver as it
    was, and in the trace the listing write (if the uuid was not listed)
    followed by the write to [failedreason] and nothing else. *)
Definition adopted (s s' : State) : Prop :=
  dom_present s'
  ∧ libvirt (cluster s') = libvirt (cluster s)
  ∧ domuuid (self s) ∈ domain_list (this_node s')
  ∧ zk (cluster s') !! failedreason_key (domuuid (self s)) = Some ""
  ∧ trace s'
    = trace s ++ listing_write s
      ++ [ZkWrite (failedreason_key (domuuid (self s))) ""]
  ∧ instart (self s') = false.

(** The same request on a node whose libvirt cannot be reached. *)
Definition driver_down : State :=
  upd_cluster
    (λ c, mkCluster (zk c) (libvirt c) false (dest_up c) (migrate_ok c)
            (create_error c))
    (cold_start None).

(** The owner [hv1] is asked to start a domain that its driver already
    runs and that is not on its list. *)
Definition already_running : State :=
  mkState
    (mkVMInstance "7c1f" "start" "hv1" None
       false false false false false false false)
    (mkNodeInstance "hv1" ["3d2a"] "secondary")
    (mkCluster
       (<[state_key "7c1f" := "start"]> (<[node_key "7c1f" := "hv1"]> ∅))
       (<["7c1f" := VIR_DOMAIN_RUNNING]> ∅) true true true None)
    [] 0.

(** [running == libvirt.VIR_DOMAIN_RUNNING] as [manage_vm_state] finds
    it: the controller holds a handle and the driver has that domain
    running. *)
Definition runs_here (s : State) : Prop :=
  ∃ u, self_dom (self s) = Some (VirDomain u)
       ∧ libvirt (cluster s) !! u = Some VIR_DOMAIN_RUNNING.

(** The five states that [manage_vm_state] names. *)
Definition handled_states : list string :=
  ["start"; "migrate"; "restart"; "shutdown"; "stop"].

(** Nothing was done: the trace, the store, the driver and the list of
    running domains are as they were. *)
Definition no_action (c : Cluster) (s s' : State) : Prop :=
  trace s' = trace s ∧ cluster s' = c ∧ this_node s' = this_node s
  ∧ self_dom (self s') = self_dom (self s).

(** A domain that the administrator has disabled, on its owner. *)
Definition disabled_domain : State :=
  mkState
    (mkVMInstance "7c1f" "disable" "hv1" None
       false false false false false false false)
    (mkNodeInstance "hv1" [] "secondary")
    (mkCluster
       (<[state_key "7c1f" := "disable"]> (<[node_key "7c1f" := "hv1"]> ∅))
       ∅ true true true None)
    [] 0.

(** The domain runs on its owner [hv1], which does not list it, and the
    state key still says ['migrate']. *)
Definition stuck_in_migrate : State :=
  mkState
    (mkVMInstance "7c1f" "migrate" "hv1" (Some (VirDomain "7c1f"))
       false false false false false false false)
    (mkNodeInstance "hv1" [] "secondary")
    (mkCluster
       (<[state_key "7c1f" := "migrate"]> (<[node_key "7c1f" := "hv1"]> ∅))
       (<["7c1f" := VIR_DOMAIN_RUNNING]> ∅) true true true None)
    [] 0.

(** A restart is requested on [hv1] for a domain that has meanwhile
    left the driver; the controller still holds the handle. *)
Definition restart_of_stopped : State :=
  upd_cluster (set_libvirt ∅) (restart_requested (node_key "7c1f")).

(** The sender delivers: from the first second on the domain runs in the
    local driver. *)
Definition delivered : Z → Cluster → Cluster :=
  λ t c, set_libvirt (<["7c1f" := VIR_DOMAIN_RUNNING]> (libvirt c)) c.

(** The sender has fallen back to a shutdown and the guest has halted. *)
Definition sender_stopped : Z → Cluster → Cluster :=
  λ t c, set_zk (<[state_key "7c1f" := "stop"]> (zk c)) c.

(** The sender has fallen back to a shutdown that never completes: the
    state key reads ['shutdown'] whenever the receiver looks, and the
    domain does not show up. *)
Definition sender_hangs (env : Z → Cluster → Cluster) (u : string) : Prop :=
  ∀ t c, libvirt c !! u = None →
    zk (env t c) !! state_key u = Some "shutdown"
    ∧ libvirt (env t c) !! u = None.

(** What a live migration needs: a connection to the target, the
    controller's handle on a domain the driver has, and libvirt carrying
    the migration through. *)
Definition can_migrate_live (s : State) : Prop :=
  dest_up (cluster s) = true
  ∧ migrate_ok (cluster s) = true
  ∧ ∃ u, self_dom (self s) = Some (VirDomain u)
         ∧ is_Some (libvirt (cluster s) !! u).

(** The domain has left the local driver through one [migrate] call with
    the given target and transport URI; nothing else happened. *)
Definition migrated_to (dest_lv : string) (dest_tcp : option string)
    (s s' : State) : Prop :=
  ∃ u, self_dom (self s) = Some (VirDomain u)
       ∧ s' = log (LvMigrate u dest_lv dest_tcp)
                (upd_cluster (λ c, set_libvirt (delete u (libvirt c)) c) s).

(** The candidates as [hv1] knows them when the others are watched
    through the store. *)
Definition watched_candidates : list NodeSupervisor.NodeInstance :=
  [ NodeSupervisor.mkNodeInstance "hv2" (NodeSupervisor.PyStr "4294967296") [];
    NodeSupervisor.mkNodeInstance "hv3" (NodeSupervisor.PyStr "8589934592") [] ].

Definition state_path (domain : string) : string :=
  "/domains/" +:+ domain +:+ "/state".

Definition hypervisor_path (domain : string) : string :=
  "/domains/" +:+ domain +:+ "/hypervisor".

(** A node that runs two domains, and a store that has both keys of
    each. *)
Definition node_with_two_domains : NodeSupervisor.NodeInstance :=
  NodeSupervisor.mkNodeInstance "hv1" (NodeSupervisor.PyInt 2)
    ["7c1f"; "3d2a"].

Definition store_of_two_domains : NodeSupervisor.Store :=
  NodeSupervisor.mkStore
    (<["/domains/7c1f/state" := "start"]>
       (<["/domains/7c1f/hypervisor" := "hv1"]>
          (<["/domains/3d2a/state" := "start"]>
             (<["/domains/3d2a/hypervisor" := "hv1"]> ∅))))
    [].

(** A store in which the domain has a state but no [hypervisor] key. *)
Definition flush_store_without_target : NodeSupervisor.Store :=
  NodeSupervisor.mkStore (<["/domains/7c1f/state" := "start"]> ∅) [].

(** A run that added to the trace nothing but operating-system commands
    and left everything else as it was. *)
Definition os_only (s s' : State) : Prop :=
  ∃ evs, trace s' = trace s ++ evs
    ∧ (∀ e, e ∈ evs → ∃ c, e = OsCommand c)
    ∧ cluster s' = cluster s ∧ this_node s' = this_node s ∧ clock s' = clock s.

(** [split()] separates at the ASCII separators 28 to 31 as well: a
    request whose two words are separated by FS is a two-word request, so
    a secondary returns on it (no [ValueError]) and the primary acts on
    it. *)
Definition fs_separated_request : string :=
  "flush_locks" +:+ String "028"%char "7c1f".

(** A host on which dnsmasq is not installed. *)
Definition host_without_dnsmasq : Common.OS :=
  Common.mkOS
    (λ argv, match argv with
             | [] => None
             | prog :: _ =>
                 if bool_decide (prog = "/usr/sbin/dnsmasq") then None
                 else Some 0%Z
             end)
    [].

(** The program of the command exists and can be executed. *)
Definition startable (o : Common.OS) (command_string : string) : Prop :=
  is_Some (Common.program_exit o (str_split command_string)).

(** The call went through the commands [cmds] in order, starting one
    process for each with the environment inherited, and changed nothing
    else. *)
Definition commands_run (cmds : list string) (s s' : VXNetwork.State) : Prop :=
  VXNetwork.self s' = VXNetwork.self s
  ∧ VXNetwork.environ s' = VXNetwork.environ s
  ∧ Common.program_exit (VXNetwork.os s') = Common.program_exit (VXNetwork.os s)
  ∧ Common.spawned (VXNetwork.os s')
    = Common.spawned (VXNetwork.os s)
      ++ ((λ c, Common.mkPopen (str_split c) None None) <$> cmds).

(** The controller of network 1001 on the primary, in a daemon that was
    started without [PVCRD_CONFIG_FILE]. *)
Definition network_without_config : VXNetwork.State :=
  VXNetwork.mkState (VXNetwork.self (network_on "primary")) tools ∅.

(** The steps that set a network up, each with the command that does it
    and the command that undoes it. *)
Inductive setup_step :=
| AddVxlan (vxlan vni dev : string)
| AddBridge (bridge : string)
| Attach (bridge vxlan : string)
| BringUp (nic : string).

Definition do_command (st : setup_step) : string :=
  match st with
  | AddVxlan vxlan vni dev =>
      "ip link add " +:+ vxlan +:+ " type vxlan id " +:+ vni
        +:+ " dstport 4789 dev " +:+ dev
  | AddBridge bridge => "brctl addbr " +:+ bridge
  | Attach bridge vxlan => "brctl addif " +:+ bridge +:+ " " +:+ vxlan
  | BringUp nic => "ip link set " +:+ nic +:+ " up"
  end.

Definition undo_command (st : setup_step) : string :=
  match st with
  | AddVxlan vxlan vni dev => "ip link delete " +:+ vxlan
  | AddBridge bridge => "brctl delbr " +:+ bridge
  | Attach bridge vxlan => "brctl delif " +:+ bridge +:+ " " +:+ vxlan
  | BringUp nic => "ip link set " +:+ nic +:+ " down"
  end.

Definition network_setup (n : VXNetwork.VXNetworkInstance) : list setup_step :=
  [ AddVxlan (VXNetwork.vxlan_nic n) (VXNetwork.vni n) (VXNetwork.vni_dev n);
    AddBridge (VXNetwork.bridge_nic n);
    Attach (VXNetwork.bridge_nic n) (VXNetwork.vxlan_nic n);
    BringUp (VXNetwork.vxlan_nic n);
    BringUp (VXNetwork.bridge_nic n) ].

(** The two processes that [startDHCPServer] starts for the controller
    [n] when the configuration file is [config_file]. *)
Definition dhcp_processes (n : VXNetwork.VXNetworkInstance) (config_file : string)
  : list Common.Popen :=
  [ Common.mkPopen
      (str_split ("/bin/mkdir --parents " +:+ VXNetwork.dnsmasq_hostsdir n))
      None None;
    Common.mkPopen
      (str_split ("/usr/sbin/dnsmasq "
                  +:+ str_join " " (VXNetwork.dhcp_configuration n)))
      (Some [("DNSMASQ_INTERFACE", VXNetwork.bridge_nic n);
             ("PVCRD_CONFIG_FILE", config_file)])
      None ].

(** The controller of network 1001 on the primary, as [__init__] leaves
    it when the store says that DHCP is off. *)
Definition dhcp_off : DHCPWatch.State :=
  DHCPWatch.mkState (network_on "primary") (DHCPWatch.FlagStr "False") [].

(** The same controller after a first notification ['True']. *)
Definition dhcp_turned_on : DHCPWatch.State :=
  (DHCPWatch.watch_network_dhcp_status (Some "True") None dhcp_off).2.

(** * Properties *)

(** ** Reasoning support *)

Ltac munfold :=
  try unfold mbind; try unfold mret; try unfold M_bind; try unfold M_ret;
  try unfold try_except; try unfold get; try unfold gets; try unfold modify;
  try unfold raise; try unfold out_of_fuel;
  try unfold readdata; try unfold writedata; try unfold sleep;
  try unfold Pvcnoded.console_log_start; try unfold Pvcnoded.console_log_stop.

Ltac mred :=
  repeat (progress (
    munfold;
    cbn [for_each upd_self upd_node upd_cluster log set_clock
         self this_node cluster trace clock
         domuuid self_state self_node self_dom instart inrestart inmigrate
         inreceive inshutdown instop console_log
         set_self_state set_self_node set_self_dom set_instart set_inrestart
         set_inmigrate set_inreceive set_inshutdown set_instop
         set_console_log
         name domain_list router_state set_domain_list
         zk libvirt libvirt_up dest_up migrate_ok create_error set_zk
         set_libvirt write_one foldl fst snd])).

Ltac bd_true := rewrite bool_decide_eq_true_2 by first [done | auto; congruence].
Ltac bd_false := rewrite bool_decide_eq_false_2 by first [done | auto; congruence].

Lemma ZkWrite_key (k v k' v' : string) : ZkWrite k v = ZkWrite k' v' → k = k'.
Proof. congruence. Qed.

Lemma state_key_ne_runningdomains (u n : string) :
  runningdomains_key n ≠ state_key u.
Proof. unfold state_key, runningdomains_key. intros [=]. Qed.

Lemma state_key_ne_failedreason (u : string) :
  failedreason_key u ≠ state_key u.
Proof.
  unfold state_key, failedreason_key. intros H.
  do 2 apply (inj (String.append _)) in H. discriminate.
Qed.

Lemma list_remove_absent (x : string) (l : list string) :
  x ∉ l → list_remove x l = l.
Proof.
  induction l as [|y l IH]; [done|].
  intros H. apply not_elem_of_cons in H as [Hne Hl].
  cbn. rewrite bool_decide_eq_false_2 by done. by rewrite IH.
Qed.

Lemma list_remove_subset (x y : string) (l : list string) :
  y ∈ list_remove x l → y ∈ l.
Proof.
  induction l as [|z l IH]; [done|].
  cbn. case_bool_decide.
  - intros Hy. by apply list_elem_of_further.
  - intros [->|Hy]%elem_of_cons; [apply list_elem_of_here|].
    apply list_elem_of_further. by apply IH.
Qed.

Lemma list_remove_NoDup (x : string) (l : list string) :
  NoDup l → NoDup (list_remove x l) ∧ x ∉ list_remove x l.
Proof.
  induction 1 as [|z l Hz Hl IH]; cbn.
  - split; [constructor | set_solver].
  - case_bool_decide as Hx.
    + subst. done.
    + destruct IH as [IH1 IH2]. split.
      * constructor; [|done]. intros Hin. by apply list_remove_subset in Hin.
      * intros [?|?]%elem_of_cons; done.
Qed.

(** The two list methods, spelled out. *)
Lemma addDomainToList_present (s : State) :
  domuuid (self s) ∈ domain_list (this_node s) →
  addDomainToList s = (Return tt, s).
Proof. intros H. unfold addDomainToList. mred. by bd_true. Qed.

Lemma addDomainToList_absent (s : State) :
  domuuid (self s) ∉ domain_list (this_node s) →
  addDomainToList s =
    (Return tt,
     write_one
       (upd_node (set_domain_list (domain_list (this_node s) ++ [domuuid (self s)])) s)
       (runningdomains_key (name (this_node s)),
        str_join " " (domain_list (this_node s) ++ [domuuid (self s)]))).
Proof. intros H. unfold addDomainToList. mred. by bd_false. Qed.

Lemma removeDomainFromList_absent (s : State) :
  domuuid (self s) ∉ domain_list (this_node s) →
  removeDomainFromList s = (Return tt, s).
Proof. intros H. unfold removeDomainFromList. mred. by bd_false. Qed.

Lemma removeDomainFromList_present (s : State) :
  domuuid (self s) ∈ domain_list (this_node s) →
  removeDomainFromList s =
    (Return tt,
     write_one
       (upd_node (set_domain_list (list_remove (domuuid (self s)) (domain_list (this_node s)))) s)
       (runningdomains_key (name (this_node s)),
        str_join " " (list_remove (domuuid (self s)) (domain_list (this_node s))))).
Proof. intros H. unfold removeDomainFromList. mred. by bd_true. Qed.

(** What every caller of [removeDomainFromList] needs: it returns, touches
    nothing but the list and its key, and never the state key. *)
Lemma removeDomainFromList_spec (s : State) :
  ∃ s', removeDomainFromList s = (Return tt, s')
    ∧ self s' = self s
    ∧ name (this_node s') = name (this_node s)
    ∧ domain_list (this_node s')
      = list_remove (domuuid (self s)) (domain_list (this_node s))
    ∧ libvirt (cluster s') = libvirt (cluster s)
    ∧ clock s' = clock s
    ∧ state_untouched s s'.
Proof.
  destruct (decide (domuuid (self s) ∈ domain_list (this_node s))) as [Hin|Hin].
  - rewrite removeDomainFromList_present by done.
    eexists; split; [reflexivity|]. mred. do 5 (split; [reflexivity|]).
    eexists; split; [reflexivity|]. split.
    + intros v Hv. apply list_elem_of_singleton, ZkWrite_key in Hv.
      symmetry in Hv. by apply state_key_ne_runningdomains in Hv.
    + mred. rewrite lookup_insert_ne; [done|apply state_key_ne_runningdomains].
  - rewrite removeDomainFromList_absent by done.
    eexists; split; [reflexivity|]. rewrite list_remove_absent by done.
    do 5 (split; [reflexivity|]). exists []. split; [|split].
    + unfold emitted. by rewrite app_nil_r.
    + intros v Hv. by apply not_elem_of_nil in Hv.
    + done.
Qed.

(** *** Calls that leave the state key alone *)

Lemma state_untouched_refl (s s' : State) :
  trace s' = trace s → zk (cluster s') = zk (cluster s) → state_untouched s s'.
Proof.
  intros Ht Hz. exists []. unfold emitted. rewrite app_nil_r, Hz.
  split; [done|]. split; [|done]. intros v Hv. by apply not_elem_of_nil in Hv.
Qed.

Lemma state_untouched_trans (s s1 s2 : State) :
  domuuid (self s1) = domuuid (self s) →
  state_untouched s s1 → state_untouched s1 s2 → state_untouched s s2.
Proof.
  intros Hu (e1 & He1 & Hn1 & Hz1) (e2 & He2 & Hn2 & Hz2).
  rewrite Hu in *. exists (e1 ++ e2). unfold emitted in *.
  split; [by rewrite He2, He1, app_assoc|]. split; [|congruence].
  intros v [Hv|Hv]%elem_of_app; [by apply (Hn1 v)|by apply (Hn2 v)].
Qed.

Lemma state_untouched_destroy (s : State) (u : string) :
  state_untouched s
    (log (LvDestroy u)
       (upd_cluster (λ c, set_libvirt (delete u (libvirt c)) c) s)).
Proof.
  exists [LvDestroy u]. split; [done|]. split; [|done].
  intros v Hv. apply list_elem_of_singleton in Hv. discriminate.
Qed.

Lemma try_destroy_spec (s : State) :
  ∃ r s', try_destroy s = (r, s')
    ∧ self s' = self s ∧ this_node s' = this_node s ∧ clock s' = clock s
    ∧ state_untouched s s'
    ∧ r ≠ OutOfFuel
    ∧ (dom_present s →
         r = Return tt
         ∧ libvirt (cluster s') !! domuuid (self s) = None
         ∧ emitted s s' [LvDestroy (domuuid (self s))])
    ∧ (∀ e, r = Raise e → s' = s).
Proof.
  unfold try_destroy, dom_present. mred.
  destruct (self_dom (self s)) as [[u]|] eqn:Hd; cbn [dom_destroy]; mred.
  - destruct (libvirt (cluster s) !! u) eqn:Hl; mred.
    + do 2 eexists. split; [reflexivity|]. mred. do 3 (split; [done|]).
      split; [apply state_untouched_destroy|]. split; [done|].
      split; [|done].
      intros [[= ->] _]. mred. by rewrite lookup_delete_eq.
    + do 2 eexists. split; [reflexivity|]. do 3 (split; [done|]).
      split; [by apply state_untouched_refl|]. split; [done|].
      split; [|done].
      intros [[= ->] [x Hx]]. congruence.
  - do 2 eexists. split; [reflexivity|]. do 3 (split; [done|]).
    split; [by apply state_untouched_refl|]. split; [done|].
    split; [|done].
    intros [[=] _].
Qed.

(** *** Force-termination *)

Lemma upd_self_untouched (f : VMInstance → VMInstance) (s : State) :
  state_untouched s (upd_self f s).
Proof. by apply state_untouched_refl. Qed.

(** [terminate_vm] in either daemon, whatever its outcome. *)
Lemma pvcnoded_terminate_vm_untouched (s : State) :
  state_untouched s (Pvcnoded.terminate_vm s).2.
Proof.
  unfold Pvcnoded.terminate_vm. mred.
  destruct (try_destroy_spec (upd_self (set_instop true) s))
    as (r & s1 & -> & Hself1 & _ & _ & Hu1 & Hr & _).
  assert (Hs1 : state_untouched s s1).
  { eapply state_untouched_trans; [|apply upd_self_untouched|exact Hu1]. done. }
  destruct r as [[]|e|]; [|done..].
  destruct (removeDomainFromList_spec s1) as (s2 & -> & Hself2 & _ & _ & _ & _ & Hu2).
  mred. eapply state_untouched_trans; [|exact Hs1|].
  { by rewrite Hself1. }
  eapply state_untouched_trans; [|exact Hu2|by apply state_untouched_refl].
  by rewrite Hself2.
Qed.

Lemma pvcvd_terminate_vm_untouched (s : State) :
  state_untouched s (Pvcvd.terminate_vm s).2.
Proof.
  unfold Pvcvd.terminate_vm. mred.
  destruct (try_destroy_spec (upd_self (set_instop true) s))
    as (r & s1 & -> & Hself1 & _ & _ & Hu1 & Hr & _).
  assert (Hs1 : state_untouched s s1).
  { eapply state_untouched_trans; [|apply upd_self_untouched|exact Hu1]. done. }
  destruct r as [[]|e|]; [|done..].
  destruct (removeDomainFromList_spec s1) as (s2 & -> & Hself2 & _ & _ & _ & _ & Hu2).
  mred. eapply state_untouched_trans; [|exact Hs1|].
  { by rewrite Hself1. }
  eapply state_untouched_trans; [|exact Hu2|by apply state_untouched_refl].
  by rewrite Hself2.
Qed.

Lemma pvcnoded_terminate_vm_present (s : State) :
  dom_present s →
  ∃ s', Pvcnoded.terminate_vm s = (Return tt, s') ∧ terminated s s'.
Proof.
  intros Hp. unfold Pvcnoded.terminate_vm. mred.
  destruct (try_destroy_spec (upd_self (set_instop true) s))
    as (r & s1 & -> & Hself1 & Hnode1 & _ & _ & _ & Hd & _).
  destruct Hd as (-> & Hlv & Hem); [exact Hp|]. mred.
  destruct (removeDomainFromList_spec s1)
    as (s2 & -> & Hself2 & _ & Hl2 & Hlv2 & _ & (evs & Hem2 & _)).
  mred. eexists; split; [reflexivity|]. unfold terminated. mred.
  rewrite Hlv2, Hl2, Hself1, Hnode1. mred. split; [done|]. split; [|done].
  rewrite Hem2, Hem. mred. set_solver.
Qed.

Lemma pvcvd_terminate_vm_present (s : State) :
  dom_present s →
  ∃ s', Pvcvd.terminate_vm s = (Return tt, s') ∧ terminated s s'.
Proof.
  intros Hp. unfold Pvcvd.terminate_vm. mred.
  destruct (try_destroy_spec (upd_self (set_instop true) s))
    as (r & s1 & -> & Hself1 & Hnode1 & _ & _ & _ & Hd & _).
  destruct Hd as (-> & Hlv & Hem); [exact Hp|]. mred.
  destruct (removeDomainFromList_spec s1)
    as (s2 & -> & Hself2 & _ & Hl2 & Hlv2 & _ & (evs & Hem2 & _)).
  mred. eexists; split; [reflexivity|]. unfold terminated. mred.
  rewrite Hlv2, Hl2, Hself1, Hnode1. mred. split; [done|]. split; [|done].
  rewrite Hem2, Hem. mred. set_solver.
Qed.

(** The contrast: [stop_vm] on the same input writes ['stop'] unless a
    restart is in progress. *)
Lemma pvcnoded_stop_vm_writes_stop (s : State) :
  dom_present s → inrestart (self s) = false →
  ∃ s', Pvcnoded.stop_vm s = (Return tt, s')
    ∧ ZkWrite (state_key (domuuid (self s))) "stop" ∈ trace s'
    ∧ zk (cluster s') !! state_key (domuuid (self s)) = Some "stop".
Proof.
  intros Hp Hr. unfold Pvcnoded.stop_vm. mred.
  destruct (try_destroy_spec (upd_self (set_instop true) s))
    as (r & s1 & -> & Hself1 & Hnode1 & _ & _ & _ & Hd & _).
  destruct Hd as (-> & Hlv & Hem); [exact Hp|]. mred.
  destruct (removeDomainFromList_spec s1)
    as (s2 & -> & Hself2 & _ & Hl2 & Hlv2 & _ & (evs & Hem2 & _)).
  mred. rewrite Hself2, Hself1. mred. rewrite Hr. bd_true. mred.
  eexists; split; [reflexivity|]. mred. split; [set_solver|].
  by rewrite lookup_insert_eq.
Qed.

(** *** The re-entrancy guard of [manage_vm_state] *)

Lemma busy_guard (o : VMInstance) :
  busy o →
  bool_decide (instart o = false)
  && bool_decide (inrestart o = false)
  && bool_decide (inmigrate o = false)
  && bool_decide (inreceive o = false)
  && bool_decide (inshutdown o = false)
  && bool_decide (instop o = false) = false.
Proof.
  unfold busy.
  destruct (instart o), (inrestart o), (inmigrate o), (inreceive o),
    (inshutdown o), (instop o); cbn; intuition congruence.
Qed.

(** C5. Whenever one of the six re-entrancy flags (instart, inrestart,
    inmigrate, inreceive, inshutdown, instop) is up, [manage_vm_state]
    returns without acting: it issues no store write and no libvirt
    operation (the trace is as it was) and the node's domain list is
    unchanged.  What it has done before it reaches the guard is to read:
    the two store keys and the state of the domain in the driver.  This
    holds in pvcnoded, where the store and the driver are left exactly as
    found, and in pvcvd, where the only thing that happens to them is
    what the peers do during the initial sleep. *)
Theorem manage_vm_state_busy_no_action
    (env : Z → Cluster → Cluster) (cluster_domain : string) (fuel : nat)
    (s : State) :
  busy (self s) →
  (∃ s', Pvcnoded.manage_vm_state env cluster_domain (S fuel) s = (Return tt, s')
     ∧ trace s' = trace s
     ∧ this_node s' = this_node s
     ∧ cluster s' = cluster s)
  ∧ (∃ s', Pvcvd.manage_vm_state env fuel s = (Return tt, s')
     ∧ trace s' = trace s
     ∧ this_node s' = this_node s
     ∧ cluster s' = env (clock s + 200)%Z (cluster s)).
Proof.
  intros Hb. split.
  - cbn [Pvcnoded.manage_vm_state]. unfold Pvcnoded.manage_vm_state_body. mred.
    destruct (self_dom (self s)) as [[u]|]; cbn [dom_state]; mred.
    + destruct (libvirt (cluster s) !! u); mred;
        rewrite (busy_guard _ Hb); eauto.
    + rewrite (busy_guard _ Hb); eauto.
  - unfold Pvcvd.manage_vm_state. mred.
    destruct (self_dom (self s)) as [[u]|]; cbn [dom_state]; mred.
    + destruct (libvirt (env (clock s + 200)%Z (cluster s)) !! u); mred;
        rewrite (busy_guard _ Hb); eauto.
    + rewrite (busy_guard _ Hb); eauto.
Qed.

Lemma manage_vm_state_busy_no_action_witness :
  busy (self busy_state)
  ∧ (Pvcnoded.manage_vm_state (λ _ c, c) "cluster.local" 1 busy_state).1 = Return tt.
Proof.
  assert (Hb : busy (self busy_state)) by (unfold busy; cbn; tauto).
  split; [exact Hb|].
  destruct (manage_vm_state_busy_no_action (λ _ c, c) "cluster.local" 0 busy_state Hb)
    as [(s' & -> & _) _].
  reflexivity.
Defined.

(** *** The list of running domains *)

(** C9. [addDomainToList] is idempotent: when the uuid is already in
    the node's domain list the call changes nothing at all (neither the
    list nor the [runningdomains] key, and it writes nothing).  As the
    only other method that touches the list, [removeDomainFromList],
    keeps a duplicate-free list duplicate-free as well, and every value
    either method writes to [runningdomains] is the join of the list it
    has just produced, the key never holds the same uuid twice.  The two
    methods have the same body in pvcnoded and in pvcvd. *)
Theorem addDomainToList_idempotent (s : State) :
  (domuuid (self s) ∈ domain_list (this_node s) →
     addDomainToList s = (Return tt, s))
  ∧ (∀ m, m = addDomainToList ∨ m = removeDomainFromList →
       NoDup (domain_list (this_node s)) →
       ∃ s', m s = (Return tt, s')
         ∧ NoDup (domain_list (this_node s'))
         ∧ (emitted s s' []
            ∨ emitted s s'
                [ZkWrite (runningdomains_key (name (this_node s)))
                   (str_join " " (domain_list (this_node s')))])).
Proof.
  split; [apply addDomainToList_present|].
  intros m [-> | ->] Hnd.
  - destruct (decide (domuuid (self s) ∈ domain_list (this_node s))) as [Hin|Hin].
    + rewrite addDomainToList_present by done.
      eexists; split; [reflexivity|]. split; [done|]. left.
      unfold emitted. by rewrite app_nil_r.
    + rewrite addDomainToList_absent by done.
      eexists; split; [reflexivity|]. mred. split; [|by right].
      apply NoDup_app. split; [done|]. split; [|apply NoDup_singleton].
      intros x Hx ->%list_elem_of_singleton. done.
  - destruct (decide (domuuid (self s) ∈ domain_list (this_node s))) as [Hin|Hin].
    + rewrite removeDomainFromList_present by done.
      eexists; split; [reflexivity|]. mred. split; [|by right].
      by apply list_remove_NoDup.
    + rewrite removeDomainFromList_absent by done.
      eexists; split; [reflexivity|]. split; [done|]. left.
      unfold emitted. by rewrite app_nil_r.
Qed.

Lemma addDomainToList_idempotent_witness :
  domuuid (self listed_state) ∈ domain_list (this_node listed_state)
  ∧ addDomainToList listed_state = (Return tt, listed_state)
  ∧ NoDup (domain_list (this_node listed_state))
  ∧ ∃ s', removeDomainFromList listed_state = (Return tt, s')
      ∧ NoDup (domain_list (this_node s')).
Proof.
  assert (H : domuuid (self listed_state) ∈ domain_list (this_node listed_state))
    by compute_done.
  assert (Hnd : NoDup (domain_list (this_node listed_state))) by compute_done.
  split; [exact H|].
  destruct (addDomainToList_idempotent listed_state) as [Hidem Hinv].
  split; [exact (Hidem H)|]. split; [exact Hnd|].
  destruct (Hinv removeDomainFromList (or_intror eq_refl) Hnd) as (s' & Heq & Hnd' & _).
  exists s'. split; [exact Heq|exact Hnd'].
Defined.

(** C10. Force-termination never writes the domain's state key: on every
    invocation, in pvcnoded and in pvcvd, [terminate_vm] issues no write
    to [/domains/<uuid>/state] and the key holds afterwards what it held
    before, so a value written by the new owner survives; when the domain
    is there to be destroyed the call destroys it and takes the uuid off
    the running list.  [stop_vm] on the same input does write ['stop']
    (outside a restart). *)
Theorem terminate_vm_leaves_state (s : State) :
  state_untouched s (Pvcnoded.terminate_vm s).2
  ∧ state_untouched s (Pvcvd.terminate_vm s).2
  ∧ (dom_present s →
       (∃ s', Pvcnoded.terminate_vm s = (Return tt, s') ∧ terminated s s')
       ∧ (∃ s', Pvcvd.terminate_vm s = (Return tt, s') ∧ terminated s s')
       ∧ (inrestart (self s) = false →
            ∃ s', Pvcnoded.stop_vm s = (Return tt, s')
              ∧ ZkWrite (state_key (domuuid (self s))) "stop" ∈ trace s'
              ∧ zk (cluster s') !! state_key (domuuid (self s)) = Some "stop")).
Proof.
  split; [apply pvcnoded_terminate_vm_untouched|].
  split; [apply pvcvd_terminate_vm_untouched|].
  intros Hp.
  split; [by apply pvcnoded_terminate_vm_present|].
  split; [by apply pvcvd_terminate_vm_present|].
  intros Hr. by apply pvcnoded_stop_vm_writes_stop.
Qed.

Lemma terminate_vm_leaves_state_witness :
  dom_present disowned_state
  ∧ inrestart (self disowned_state) = false
  ∧ zk (cluster (Pvcnoded.terminate_vm disowned_state).2) !! state_key "7c1f"
    = Some "start"
  ∧ domain_list (this_node (Pvcnoded.terminate_vm disowned_state).2) = []
  ∧ ∃ s', Pvcnoded.stop_vm disowned_state = (Return tt, s')
      ∧ zk (cluster s') !! state_key "7c1f" = Some "stop".
Proof.
  assert (Hp : dom_present disowned_state).
  { split; [reflexivity|]. exists VIR_DOMAIN_RUNNING. reflexivity. }
  assert (Hr : inrestart (self disowned_state) = false) by reflexivity.
  split; [exact Hp|]. split; [exact Hr|].
  destruct (terminate_vm_leaves_state disowned_state)
    as ((evs & _ & _ & Hz) & _ & Hrest).
  destruct (Hrest Hp) as ((s' & Heq & _ & _ & Hl & _) & _ & Hstop).
  split; [exact (eq_trans Hz eq_refl)|]. split.
  - rewrite Heq. cbn [snd]. rewrite Hl. reflexivity.
  - destruct (Hstop Hr) as (s'' & Heq' & _ & Hz'). exists s''.
    split; [exact Heq'|exact Hz'].
Defined.

(** *** The network controller *)

Ltac vxred :=
  repeat (progress (
    munfold;
    try unfold VXNetwork.getnetworkstate;
    cbn [VXNetwork.self VXNetwork.os VXNetwork.environ
         VXNetwork.network_state fst snd])).

(** C7. On a router whose network state is not ['primary'],
    [createGatewayAddress] and [startDHCPServer] do nothing at all: no
    process is spawned (no [ip address add], no gratuitous ARP, no
    [mkdir], no dnsmasq) and the controller object, its DHCP daemon handle
    included, is as before.  These two methods are the only places of the
    file that add a gateway address or start the DHCP daemon, so both
    exist only on the node in primary state. *)
Theorem gateway_and_dhcp_only_on_primary (s : VXNetwork.State) :
  VXNetwork.network_state (VXNetwork.self s) ≠ "primary" →
  VXNetwork.createGatewayAddress s = (Return tt, s)
  ∧ VXNetwork.startDHCPServer s = (Return tt, s).
Proof.
  intros Hne. split.
  - unfold VXNetwork.createGatewayAddress. vxred. by bd_false.
  - unfold VXNetwork.startDHCPServer. vxred. by bd_false.
Qed.

Lemma gateway_and_dhcp_only_on_primary_witness :
  VXNetwork.network_state (VXNetwork.self (network_on "secondary")) ≠ "primary"
  ∧ Common.spawned
      (VXNetwork.os (VXNetwork.createGatewayAddress (network_on "secondary")).2)
    = []
  ∧ Common.spawned
      (VXNetwork.os (VXNetwork.startDHCPServer (network_on "secondary")).2)
    = [].
Proof.
  assert (Hne : VXNetwork.network_state (VXNetwork.self (network_on "secondary"))
                ≠ "primary") by (cbn; discriminate).
  split; [exact Hne|].
  destruct (gateway_and_dhcp_only_on_primary (network_on "secondary") Hne)
    as [-> ->].
  split; reflexivity.
Defined.

(** The guard is what holds the commands back: on the primary both
    methods act. *)
Example createGatewayAddress_on_primary :
  Common.args <$>
    Common.spawned
      (VXNetwork.os (VXNetwork.createGatewayAddress (network_on "primary")).2)
  = [ ["ip"; "address"; "add"; "10.1.0.1/24"; "dev"; "br1001"];
      ["arping"; "-A"; "-c2"; "-I"; "br1001"; "10.1.0.1"] ].
Proof. vm_compute. reflexivity. Qed.

Example startDHCPServer_on_primary :
  (λ p, hd "" (Common.args p)) <$>
    Common.spawned
      (VXNetwork.os (VXNetwork.startDHCPServer (network_on "primary")).2)
  = [ "/bin/mkdir"; "/usr/sbin/dnsmasq" ]
  ∧ is_Some (VXNetwork.dhcp_server_daemon
               (VXNetwork.self (VXNetwork.startDHCPServer (network_on "primary")).2)).
Proof. vm_compute. split; [reflexivity|by eexists]. Qed.

(** *** The process runner *)

(** In the foreground [run_os_command] hands back the [returncode] of a
    [Popen] object it has only just constructed: [None], for every
    program that can be started at all; otherwise the exception of
    [Popen] reaches the caller. *)
Lemma run_os_command_foreground (o : Common.OS) (command_string : string)
    (environment : option (list (string * string))) :
  (Common.run_os_command command_string false environment o).1 = Return None
  ∨ (Common.run_os_command command_string false environment o).1 = Raise OSError
  ∨ (Common.run_os_command command_string false environment o).1
    = Raise IndexError.
Proof.
  unfold Common.run_os_command, Common.subprocess_Popen.
  destruct (str_split command_string) as [|prog argv]; munfold; cbn; [auto|].
  destruct (Common.program_exit o (prog :: argv)); cbn; auto.
Qed.

(** C8 (the code departs from it). A foreground [run_os_command] does
    not wait and returns no exit status: for [/bin/false] (exit 1) and
    for [/bin/true] (exit 0) alike the caller gets [None], where the
    runner of the specification gives 1 and 0. *)
Theorem run_os_command_foreground_loses_status :
  (Common.run_os_command "/bin/false" false None tools).1 = Return None
  ∧ (Common.run_os_command "/bin/true" false None tools).1 = Return None
  ∧ (Common.run_os_command_spec "/bin/false" None tools).1 = Return (Some 1%Z)
  ∧ (Common.run_os_command_spec "/bin/true" None tools).1 = Return (Some 0%Z).
Proof.
  split; [vm_compute; reflexivity|].
  split; [vm_compute; reflexivity|].
  split; vm_compute; reflexivity.
Qed.

(** *** The flush of a node *)

Lemma most_free_candidates : NodeSupervisor.most_free candidates "hv3".
Proof.
  exists (NodeSupervisor.mkNodeInstance "hv3" (NodeSupervisor.PyInt 8589934592) []),
    8589934592%Z.
  split; [unfold candidates; set_solver|]. do 2 (split; [done|]).
  intros n' z' Hn' Hz'. unfold candidates in Hn'.
  apply elem_of_cons in Hn' as [->|Hn'].
  { cbn in Hz'. injection Hz' as <-. lia. }
  apply list_elem_of_singleton in Hn' as ->.
  cbn in Hz'. injection Hz' as <-. lia.
Qed.

Lemma most_free_named (l : list NodeSupervisor.NodeInstance) (t : string) :
  NodeSupervisor.most_free l t → t ∈ NodeSupervisor.name <$> l.
Proof.
  intros (n & z & Hn & <- & _). by apply list_elem_of_fmap_2.
Qed.

(** C1 (the code departs from it). Flushing [hv1], which runs one
    domain, with the candidates [hv2] (4 GiB free) and [hv3] (8 GiB free):
    the node with the most free memory is [hv3], but the loop compares
    with [<] against a running minimum that starts at [(2^64)/8 = 8.25],
    so no candidate is chosen and the empty name is written, under the
    key [hypervisor] and with the state ['flush'].  Among candidates that
    do pass the comparison the one with the least free memory wins.  And
    as the file stands, the name [node_list] is unbound and the call
    raises before it writes anything. *)
Theorem flush_does_not_pick_most_free :
  NodeSupervisor.most_free candidates "hv3"
  ∧ (NodeSupervisor.flush (Some candidates) flushed_node flush_store).1 = Return tt
  ∧ NodeSupervisor.sets
      (NodeSupervisor.flush (Some candidates) flushed_node flush_store).2
    = [("/domains/7c1f/state", "flush"); ("/domains/7c1f/hypervisor", "")]
  ∧ ¬ NodeSupervisor.most_free candidates ""
  ∧ NodeSupervisor.sets
      (NodeSupervisor.flush (Some starved_candidates) flushed_node flush_store).2
    = [("/domains/7c1f/state", "flush"); ("/domains/7c1f/hypervisor", "hv3")]
  ∧ NodeSupervisor.flush None flushed_node flush_store
    = (Raise NameError, flush_store).
Proof.
  split; [apply most_free_candidates|].
  split; [vm_compute; reflexivity|].
  split; [vm_compute; reflexivity|].
  split.
  { intros H%most_free_named. unfold candidates in H. cbn in H.
    apply elem_of_cons in H as [H|H]; [discriminate|].
    apply list_elem_of_singleton in H. discriminate. }
  split; vm_compute; reflexivity.
Qed.

Lemma py_lt_int_num {S} (z : Z) (m : NodeSupervisor.pyval) (q : Q) (s : S) :
  NodeSupervisor.num_of m = Some q →
  NodeSupervisor.py_lt (NodeSupervisor.PyInt z) m s
  = (Return (negb (Qle_bool q (inject_Z z))), s).
Proof. destruct m; cbn; intros [= <-]; done. Qed.

(** What the loop of [flush] computes over nodes that report an [int]: the
    running minimum of the free memory, started at [least_mem]; the host
    changes only when a node lies strictly below the minimum so far. *)
Lemma select_target_minimum {S} (node_list : list NodeSupervisor.NodeInstance)
    (least_mem : NodeSupervisor.pyval) (least_host : string) (q : Q) (s : S) :
  Forall (λ n, ∃ z, NodeSupervisor.memfree n = NodeSupervisor.PyInt z) node_list →
  NodeSupervisor.num_of least_mem = Some q →
  ∃ m' h' q',
    NodeSupervisor.select_target node_list least_mem least_host s
    = (Return (m', h'), s)
    ∧ NodeSupervisor.num_of m' = Some q'
    ∧ (q' <= q)%Q
    ∧ (∀ n z, n ∈ node_list →
         NodeSupervisor.memfree n = NodeSupervisor.PyInt z → (q' <= inject_Z z)%Q)
    ∧ ((m', h') = (least_mem, least_host)
       ∨ ∃ n z, n ∈ node_list ∧ m' = NodeSupervisor.PyInt z
           ∧ h' = NodeSupervisor.name n
           ∧ NodeSupervisor.memfree n = NodeSupervisor.PyInt z
           ∧ (inject_Z z < q)%Q).
Proof.
  intros Hall. revert least_mem least_host q.
  induction Hall as [|n l [z Hz] Hl IH]; intros m h q Hm.
  - exists m, h, q. split; [done|]. split; [done|]. split; [apply Qle_refl|].
    split; [|by left]. intros n z Hn. by apply not_elem_of_nil in Hn.
  - cbn [NodeSupervisor.select_target]. unfold NodeSupervisor.getfreemem,
      NodeSupervisor.getname, mbind, M_bind.
    rewrite Hz, (py_lt_int_num z m q s Hm).
    destruct (Qle_bool q (inject_Z z)) eqn:Hcmp; cbn [negb].
    + apply Qle_bool_iff in Hcmp.
      destruct (IH m h q Hm) as (m' & h' & q' & Heq & Hq' & Hle & Hmin & Hsel).
      exists m', h', q'. split; [done|]. split; [done|]. split; [done|]. split.
      * intros n' z' [->|Hin]%elem_of_cons Hz'.
        -- rewrite Hz in Hz'. injection Hz' as <-. by eapply Qle_trans.
        -- by eapply Hmin.
      * destruct Hsel as [Hsel|(n' & z' & Hin & ? & ? & ? & ?)]; [by left|].
        right. exists n', z'. split_and!; [by apply list_elem_of_further|done..].
    + assert (Hlt : (inject_Z z < q)%Q).
      { apply Qnot_le_lt. intros Hle%Qle_bool_iff. congruence. }
      destruct (IH (NodeSupervisor.PyInt z) (NodeSupervisor.name n) (inject_Z z) eq_refl)
        as (m' & h' & q' & Heq & Hq' & Hle & Hmin & Hsel).
      exists m', h', q'. split; [done|]. split; [done|].
      split; [eapply Qle_trans; [exact Hle|by apply Qlt_le_weak]|]. split.
      * intros n' z' [->|Hin]%elem_of_cons Hz'.
        -- rewrite Hz in Hz'. by injection Hz' as <-.
        -- by eapply Hmin.
      * right. destruct Hsel as [[= -> ->]|(n' & z' & Hin & -> & -> & Hz'' & Hlt')].
        -- exists n, z. split_and!; [apply list_elem_of_here|done..].
        -- exists n', z'. split_and!; [by apply list_elem_of_further|done..|].
           by eapply Qlt_trans.
Qed.

(** So the host that [flush] writes is the empty name, or a node with
    at most 8 units of free memory and no more than any other candidate:
    the least free memory, not the most. *)
Lemma flush_selects_least_free {S} (node_list : list NodeSupervisor.NodeInstance)
    (s : S) :
  Forall (λ n, ∃ z, NodeSupervisor.memfree n = NodeSupervisor.PyInt z) node_list →
  ∃ m' h',
    NodeSupervisor.select_target node_list NodeSupervisor.least_mem_init "" s
    = (Return (m', h'), s)
    ∧ (h' = ""
       ∨ ∃ n z, n ∈ node_list ∧ h' = NodeSupervisor.name n
           ∧ NodeSupervisor.memfree n = NodeSupervisor.PyInt z
           ∧ (z ≤ 8)%Z
           ∧ ∀ n' z', n' ∈ node_list →
               NodeSupervisor.memfree n' = NodeSupervisor.PyInt z' → (z ≤ z')%Z).
Proof.
  intros Hall.
  destruct (select_target_minimum node_list NodeSupervisor.least_mem_init "" _ s
              Hall eq_refl)
    as (m' & h' & q' & Heq & Hq' & Hle & Hmin & Hsel).
  exists m', h'. split; [done|].
  destruct Hsel as [[= _ ->]|(n & z & Hin & -> & -> & Hz & Hlt)]; [by left|].
  right. exists n, z. split_and!; [done..| |].
  - change (inject_Z (Z.lxor 2 64) / 8)%Q with (66 # 8)%Q in Hlt.
    unfold Qlt in Hlt. cbn in Hlt. lia.
  - intros n' z' Hin' Hz'. specialize (Hmin n' z' Hin' Hz').
    cbn in Hq'. injection Hq' as <-. unfold Qle in Hmin. cbn in Hmin. lia.
Qed.

(** *** Loops *)

(** Total correctness of [while True]: an invariant on the loop-carried
    locals and the state, a measure that every new round lowers, and a
    budget above the measure. *)
Lemma while_true_rule {S L R} (body : L → M S (L + R)) (measure : L → nat)
    (I : L → S → Prop) (Q : outcome R → S → Prop) :
  (∀ l s, I l s →
     match body l s with
     | (Return (inl l'), s') => I l' s' ∧ (measure l' < measure l)%nat
     | (Return (inr r), s') => Q (Return r) s'
     | (Raise e, s') => Q (Raise e) s'
     | (OutOfFuel, s') => False
     end) →
  ∀ fuel l s, I l s → (measure l < fuel)%nat →
    Q (while_true fuel body l s).1 (while_true fuel body l s).2.
Proof.
  intros Hbody fuel. induction fuel as [|fuel IH]; intros l s HI Hm; [lia|].
  cbn [while_true]. munfold. specialize (Hbody l s HI).
  destruct (body l s) as [[[l'|r]|e|] s']; cbn [fst snd]; try done.
  destruct Hbody as [HI' Hm']. apply IH; [done|lia].
Qed.


(** *** Graceful shutdown in pvcnoded *)

Section pvcnoded_shutdown.
Variable env : Z → Cluster → Cluster.


End pvcnoded_shutdown.

Lemma emitted_trans (s s1 s2 : State) (e1 e2 : list event) :
  emitted s s1 e1 → emitted s1 s2 e2 → emitted s s2 (e1 ++ e2).
Proof. unfold emitted. intros H1 H2. by rewrite H2, H1, app_assoc. Qed.

Lemma emitted_refl (s s' : State) : trace s' = trace s → emitted s s' [].
Proof. unfold emitted. intros ->. by rewrite app_nil_r. Qed.

Lemma no_write_to_app (k : string) (e1 e2 : list event) :
  no_write_to k e1 → no_write_to k e2 → no_write_to k (e1 ++ e2).
Proof. intros H1 H2 v [?|?]%elem_of_app; [by apply (H1 v)|by apply (H2 v)]. Qed.


Lemma stop_report_app_l (ir : bool) (u : string) (e1 e2 : list event) :
  no_write_to (state_key u) e1 → stop_report ir u e2 → stop_report ir u (e1 ++ e2).
Proof.
  destruct ir; cbn; intros H1 H2; [by apply no_write_to_app|].
  apply elem_of_app. by right.
Qed.

Lemma stop_report_app_r (ir : bool) (u : string) (e1 e2 : list event) :
  stop_report ir u e1 → no_write_to (state_key u) e2 → stop_report ir u (e1 ++ e2).
Proof.
  destruct ir; cbn; intros H1 H2; [by apply no_write_to_app|].
  apply elem_of_app. by left.
Qed.

(** *** Rules of the weakest precondition *)

Lemma wp_bind {S A B} (m : M S A) (f : A → M S B) Q s :
  wp m (wp_cont f Q) s → wp (m ≫= f) Q s.
Proof.
  unfold wp, wp_cont, mbind, M_bind.
  destruct (m s) as [[a|e|] s']; cbn [fst snd]; done.
Qed.

Lemma wp_unbind {S A B} (m : M S A) (f : A → M S B) Q s :
  wp (m ≫= f) Q s → wp m (wp_cont f Q) s.
Proof.
  unfold wp, wp_cont, mbind, M_bind.
  destruct (m s) as [[a|e|] s']; cbn [fst snd]; done.
Qed.

Lemma wp_ret {S A} (a : A) (Q : outcome A → S → Prop) s :
  Q (Return a) s → wp (mret a) Q s.
Proof. done. Qed.

Lemma wp_get {S} (Q : outcome S → S → Prop) s : Q (Return s) s → wp get Q s.
Proof. done. Qed.

Lemma wp_modify {S} (f : S → S) (Q : outcome unit → S → Prop) s :
  Q (Return tt) (f s) → wp (modify f) Q s.
Proof. done. Qed.

Lemma wp_raise {S A} (e : exn) (Q : outcome A → S → Prop) s :
  Q (Raise e) s → wp (raise e) Q s.
Proof. done. Qed.

Lemma wp_try {S A} (m : M S A) (h : exn → M S A) Q s :
  wp m (λ r s', match r with Raise e => wp (h e) Q s' | _ => Q r s' end) s →
  wp (try_except m h) Q s.
Proof.
  unfold wp, try_except. destruct (m s) as [[a|e|] s']; cbn [fst snd]; done.
Qed.

Lemma wp_mono {S A} (m : M S A) (Q Q' : outcome A → S → Prop) s :
  wp m Q s → (∀ r s', Q r s' → Q' r s') → wp m Q' s.
Proof. unfold wp. auto. Qed.

Lemma wp_eq {S A} (m : M S A) (Q : outcome A → S → Prop) s r s' :
  m s = (r, s') → Q r s' → wp m Q s.
Proof. unfold wp. by intros ->. Qed.

Lemma wp_returns {S A} (m : M S A) (P : S → Prop) (a : A) (s : S) :
  wp m (λ r s', r = Return a ∧ P s') s → ∃ s', m s = (Return a, s') ∧ P s'.
Proof.
  unfold wp. destruct (m s) as [r s']. cbn [fst snd]. intros [-> H].
  by exists s'.
Qed.

Lemma wp_while {S L R} (body : L → M S (L + R)) (measure : L → nat)
    (I : L → S → Prop) (Q : outcome R → S → Prop) fuel l s :
  (∀ l s, I l s →
     wp (body l) (λ r s',
       match r with
       | Return (inl l') => I l' s' ∧ (measure l' < measure l)%nat
       | Return (inr r) => Q (Return r) s'
       | Raise e => Q (Raise e) s'
       | OutOfFuel => False
       end) s) →
  I l s → (measure l < fuel)%nat →
  wp (while_true fuel body l) Q s.
Proof.
  intros Hbody HI Hm. unfold wp.
  apply (while_true_rule body measure I Q); [|done..].
  intros l0 s0 HI0. specialize (Hbody l0 s0 HI0). unfold wp in Hbody.
  by destruct (body l0 s0) as [[[l'|r]|e|] s'].
Qed.

Lemma wp_gets {S A} (f : S → A) (Q : outcome A → S → Prop) s :
  Q (Return (f s)) s → wp (gets f) Q s.
Proof. done. Qed.

Lemma wp_readdata (key : string) Q (s : State) :
  Q (Return (default "" (zk (cluster s) !! key))) s → wp (readdata key) Q s.
Proof. done. Qed.

Lemma wp_writedata (kvs : list (string * string)) Q (s : State) :
  Q (Return tt) (foldl write_one s kvs) → wp (writedata kvs) Q s.
Proof. done. Qed.

Lemma wp_sleep (env : Z → Cluster → Cluster) (ms : Z) Q (s : State) :
  Q (Return tt)
    (set_clock (clock s + ms)%Z (upd_cluster (env (clock s + ms)%Z) s)) →
  wp (sleep env ms) Q s.
Proof. done. Qed.

Ltac wp_step :=
  lazymatch goal with
  | |- wp (mbind _ _) _ _ => apply wp_bind
  | |- wp (mret _) _ _ => apply wp_ret
  | |- wp get _ _ => apply wp_get
  | |- wp (gets _) _ _ => apply wp_gets
  | |- wp (modify _) _ _ => apply wp_modify
  | |- wp (raise _) _ _ => apply wp_raise
  | |- wp (readdata _) _ _ => apply wp_readdata
  | |- wp (writedata _) _ _ => apply wp_writedata
  | |- wp (sleep _ _) _ _ => apply wp_sleep
  | |- wp Pvcnoded.console_log_start _ _ => apply wp_modify
  | |- wp Pvcnoded.console_log_stop _ _ => apply wp_modify
  | |- wp_cont _ _ (Return _) _ => unfold wp_cont at 1
  | |- wp_cont _ _ (Raise _) _ => unfold wp_cont at 1
  end; cbv beta iota zeta; cbn [negb andb orb].

Ltac wp_pure := cbv beta iota zeta; cbn [negb andb orb]; repeat wp_step.

(** Projections of the states that the steps build. *)
Ltac sred :=
  cbn [upd_self upd_node upd_cluster log set_clock
       self this_node cluster trace clock
       domuuid self_state self_node self_dom instart inrestart inmigrate
       inreceive inshutdown instop console_log
       set_self_state set_self_node set_self_dom set_instart set_inrestart
       set_inmigrate set_inreceive set_inshutdown set_instop set_console_log
       name domain_list router_state set_domain_list
       zk libvirt libvirt_up dest_up migrate_ok create_error set_zk
       set_libvirt write_one foldl fst snd] in *.

(** *** Graceful shutdown in pvcvd *)

Lemma wp_removeDomainFromList Q (s : State) :
  (∀ s' evs,
     self s' = self s → name (this_node s') = name (this_node s) →
     domain_list (this_node s')
       = list_remove (domuuid (self s)) (domain_list (this_node s)) →
     libvirt (cluster s') = libvirt (cluster s) →
     clock s' = clock s →
     emitted s s' evs → no_write_to (state_key (domuuid (self s))) evs →
     Q (Return tt) s') →
  wp removeDomainFromList Q s.
Proof.
  intros HQ.
  destruct (removeDomainFromList_spec s)
    as (s' & Heq & H1 & H2 & H3 & H4 & H5 & (evs & H6 & H7 & _)).
  eapply wp_eq; [exact Heq|]. by eapply HQ.
Qed.



Lemma wp_dom_state (d : option virDomain) Q (s : State) :
  (∀ st, Q (Return st) s) → (∀ e, Q (Raise e) s) → wp (dom_state d) Q s.
Proof.
  intros HR HE. destruct d as [[u]|]; cbn [dom_state]; [|by apply wp_raise].
  wp_pure. destruct (libvirt (cluster s) !! u); wp_pure; auto.
Qed.

Lemma wp_dom_shutdown Q (s : State) :
  dom_present s →
  Q (Return tt) (log (LvShutdown (domuuid (self s))) s) →
  wp (dom_shutdown (self_dom (self s))) Q s.
Proof.
  intros [Hd [st Hst]] HQ. rewrite Hd. cbn [dom_shutdown]. wp_pure.
  rewrite Hst. by wp_pure.
Qed.

Section pvcvd_shutdown.
Variable env : Z → Cluster → Cluster.

Lemma pvcvd_shutdown_wait (fuel : nat) (s : State) :
  (60 < fuel)%nat →
  wp (while_true fuel (Pvcvd.shutdown_round env) 0%Z)
    (λ r s', r ≠ OutOfFuel ∧ trace s' = trace s ∧ self s' = self s
             ∧ this_node s' = this_node s
             ∧ (0 ≤ clock s' - clock s ≤ 30000)%Z) s.
Proof.
  intros Hfuel.
  apply (wp_while _ (λ tick, Z.to_nat (60 - tick))
           (λ tick s1, (0 ≤ tick ≤ 60)%Z ∧ clock s1 = (clock s + 500 * tick)%Z
                       ∧ trace s1 = trace s ∧ self s1 = self s
                       ∧ this_node s1 = this_node s)).
  - intros tick s1 (Ht & Hc & Htr & Hself & Hnode).
    unfold Pvcvd.shutdown_round. wp_pure. apply wp_dom_state.
    + intros st. wp_pure.
      destruct (bool_decide (st = VIR_DOMAIN_RUNNING)); cbn [andb].
      * case_bool_decide as Hlt; wp_pure; sred.
        -- split; [|lia]. split_and!; [lia|lia|lia|done..].
        -- split_and!; [done..|lia|lia].
      * wp_pure. split_and!; [done..|lia|lia].
    + intros e. wp_pure. split_and!; [done..|lia|lia].
  - split_and!; [lia|lia|lia|done..].
  - cbn. lia.
Qed.

End pvcvd_shutdown.

(** *** C4: graceful shutdown *)

Section graceful_shutdown.
Variable env : Z → Cluster → Cluster.

End graceful_shutdown.




(** *** C3: sending a live migration *)

(** What [dom.migrate] does in either daemon: it moves the domain away
    and logs it, or it raises and leaves everything as it was. *)
Lemma wp_dom_migrate (d : option virDomain) (dest_lv : string)
    (dest_tcp : option string) Q (s : State) :
  (∀ u, d = Some (VirDomain u) →
        Q (Return true)
          (log (LvMigrate u dest_lv dest_tcp)
             (upd_cluster (λ c, set_libvirt (delete u (libvirt c)) c) s))) →
  (∀ e, Q (Raise e) s) →
  wp (dom_migrate d dest_lv dest_tcp) Q s.
Proof.
  intros HR HE. destruct d as [[u]|]; cbn [dom_migrate]; [|by apply wp_raise].
  wp_pure. destruct (libvirt (cluster s) !! u); [|by wp_pure].
  destruct (migrate_ok (cluster s)); wp_pure; auto.
Qed.

Lemma pvcnoded_live_migrate_vm_spec (cluster_domain : string) (s : State) :
  wp (Pvcnoded.live_migrate_vm cluster_domain)
    (λ r s', ∃ ok, r = Return ok
       ∧ self s' = self s ∧ this_node s' = this_node s
       ∧ ∃ evs, emitted s s' evs
           ∧ (∀ k v, ZkWrite k v ∉ evs)
           ∧ (ok = false → evs = [])) s.
Proof.
  unfold Pvcnoded.live_migrate_vm. wp_pure.
  destruct (dest_up (cluster s)); cbn [negb]; wp_pure.
  2:{ exists false. split_and!; [done..|]. exists [].
      split_and!; [by apply emitted_refl| |done].
      intros k v H. by apply not_elem_of_nil in H. }
  apply wp_try. apply wp_bind. apply wp_dom_migrate.
  - intros u _. wp_pure. exists true. split_and!; [done..|].
    eexists. split; [reflexivity|]. split; [|done].
    intros k v H. apply list_elem_of_singleton in H. discriminate.
  - intros e. wp_pure. exists false. split_and!; [done..|]. exists [].
    split_and!; [by apply emitted_refl| |done].
    intros k v H. by apply not_elem_of_nil in H.
Qed.

Lemma pvcnoded_migrate_vm_spec (cluster_domain : string) (s : State) :
  ∃ ok s1 s',
    Pvcnoded.live_migrate_vm cluster_domain (upd_self (set_inmigrate true) s)
    = (Return ok, s1)
    ∧ Pvcnoded.migrate_vm cluster_domain s = (Return tt, s')
    ∧ sends_as_specified ok s s'.
Proof.
  pose proof (pvcnoded_live_migrate_vm_spec cluster_domain
                (upd_self (set_inmigrate true) s)) as Hl.
  unfold wp in Hl.
  destruct (Pvcnoded.live_migrate_vm cluster_domain (upd_self (set_inmigrate true) s))
    as [r s1] eqn:Hlive.
  cbn [fst snd] in Hl. destruct Hl as (ok & -> & Hself & Hnode & evs & Hem & Hnw & Hfail).
  sred. exists ok, s1.
  assert (H : wp (Pvcnoded.migrate_vm cluster_domain)
                (λ r s', r = Return tt ∧ sends_as_specified ok s s') s).
  { unfold Pvcnoded.migrate_vm. wp_pure. sred. eapply wp_eq; [exact Hlive|].
    wp_pure. destruct ok; cbn [negb]; wp_pure.
    - apply wp_removeDomainFromList.
      intros s2 e2 Hs2 _ Hl2 _ _ He2 Hn2. wp_pure. split; [done|].
      exists (evs ++ e2). sred. split_and!.
      + unfold emitted in *. sred. by rewrite He2, Hem, app_assoc.
      + done.
      + intros _. by rewrite Hl2, Hself, Hnode.
      + intros [H|H]%elem_of_app; [by apply (Hnw _ _ H)|].
        rewrite Hself in Hn2. by apply (Hn2 _ H).
    - split; [done|]. rewrite (Hfail eq_refl) in *.
      exists [ZkWrite (state_key (domuuid (self s))) "shutdown"].
      split_and!.
      + unfold emitted in *. sred. rewrite Hem. sred. by rewrite app_nil_r.
      + intros _. apply list_elem_of_here.
      + done.
      + intros H. apply list_elem_of_singleton in H. discriminate. }
  unfold wp in H. destruct (Pvcnoded.migrate_vm cluster_domain s) as [r s'].
  cbn [fst snd] in H. destruct H as [-> H]. by exists s'.
Qed.

Lemma shutdown_event_not_shutdown_write (u n : string) (evs : list event) :
  (∀ e, e ∈ evs → shutdown_event u n e) →
  (ZkWrite (state_key u) "shutdown" ∉ evs)
  ∧ ∀ dest_lv dest_tcp, LvMigrate u dest_lv dest_tcp ∉ evs.
Proof.
  intros Hall. split.
  - intros Hin. destruct (Hall _ Hin) as [H|[H|[[v H]|H]]];
      first [discriminate
            |apply ZkWrite_key in H; by apply state_key_ne_runningdomains in H].
  - intros dest_lv dest_tcp Hin.
    destruct (Hall _ Hin) as [H|[H|[[v H]|H]]]; discriminate.
Qed.

Lemma wp_removeDomainFromList_events Q (s : State) :
  (∀ s' evs,
     self s' = self s → name (this_node s') = name (this_node s) →
     domain_list (this_node s')
       = list_remove (domuuid (self s)) (domain_list (this_node s)) →
     emitted s s' evs →
     (∀ e, e ∈ evs → ∃ v, e = ZkWrite (runningdomains_key (name (this_node s))) v) →
     Q (Return tt) s') →
  wp removeDomainFromList Q s.
Proof.
  intros HQ.
  destruct (decide (domuuid (self s) ∈ domain_list (this_node s))) as [Hin|Hin].
  - eapply wp_eq; [by apply removeDomainFromList_present|].
    eapply HQ; [done..|reflexivity|].
    intros e He. sred. apply list_elem_of_singleton in He as ->. by eexists.
  - eapply wp_eq; [by apply removeDomainFromList_absent|].
    apply (HQ s []); [done..|by rewrite list_remove_absent|by apply emitted_refl|].
    intros e He. by apply not_elem_of_nil in He.
Qed.

Lemma wp_try_destroy_events Q (s : State) :
  (∀ s' evs,
     self s' = self s → this_node s' = this_node s →
     emitted s s' evs →
     (∀ e, e ∈ evs →
        ∃ u, self_dom (self s) = Some (VirDomain u) ∧ e = LvDestroy u) →
     Q (Return tt) s') →
  (∀ e, Q (Raise e) s) →
  wp try_destroy Q s.
Proof.
  intros HQ HE. unfold try_destroy. wp_pure. apply wp_try.
  destruct (self_dom (self s)) as [[u]|] eqn:Hd; cbn [dom_destroy].
  - wp_pure. destruct (libvirt (cluster s) !! u); wp_pure.
    + eapply HQ; [done..|reflexivity|]. intros e He.
      apply list_elem_of_singleton in He as ->. by exists u.
    + apply HE.
  - wp_pure. apply (HQ s []); [done..|by apply emitted_refl|].
    intros e He. by apply not_elem_of_nil in He.
Qed.

Section pvcvd_send.
Variable env : Z → Cluster → Cluster.

(** What is left of [shutdown_vm] and of [stop_vm] once the domain is
    gone: the list, the report, the handle. *)
Lemma pvcvd_unlist_and_report_events (u : string) (flag : VMInstance → VMInstance)
    (s : State) :
  domuuid (self s) = u →
  wp (removeDomainFromList;;
      s2 ← get;
      (if bool_decide (inrestart (self s2) = false)
       then writedata [(state_key u, "stop")]
       else mret tt);;
      modify (upd_self (set_self_dom None));;
      modify (upd_self flag))
    (λ r s', r = Return tt
       ∧ ∃ evs, emitted s s' evs
           ∧ ∀ e, e ∈ evs → shutdown_event u (name (this_node s)) e) s.
Proof.
  intros Hu. wp_pure. apply wp_removeDomainFromList_events.
  intros s1 e1 Hs1 Hn1 _ He1 Hk1. wp_pure.
  case_bool_decide; wp_pure; sred; (split; [done|]).
  - exists (e1 ++ [ZkWrite (state_key u) "stop"]). split.
    + unfold emitted in *. sred. rewrite He1. by rewrite app_assoc.
    + intros e [He|He]%elem_of_app.
      * right. right. left. by apply Hk1.
      * apply list_elem_of_singleton in He as ->. by repeat right.
  - exists e1. split; [exact He1|].
    intros e He. right. right. left. by apply Hk1.
Qed.

Lemma pvcvd_stop_vm_events (s : State) :
  self_dom (self s) = Some (VirDomain (domuuid (self s))) →
  wp Pvcvd.stop_vm
    (λ r s', match r with
             | Return _ =>
                 ∃ evs, emitted s s' evs
                   ∧ ∀ e, e ∈ evs →
                       shutdown_event (domuuid (self s)) (name (this_node s)) e
             | Raise _ => trace s' = trace s ∧ this_node s' = this_node s
                          ∧ domuuid (self s') = domuuid (self s)
             | OutOfFuel => False
             end) s.
Proof.
  intros Hd. unfold Pvcvd.stop_vm. wp_pure. apply wp_try_destroy_events; [|done].
  sred. intros s1 e1 Hs1 Hn1 He1 Hk1. wp_pure.
  assert (Hu1 : domuuid (self s1) = domuuid (self s)) by by rewrite Hs1.
  apply wp_unbind. eapply wp_mono.
  { apply (pvcvd_unlist_and_report_events (domuuid (self s))
             (set_instop false) s1 Hu1). }
  intros r s2 (-> & e2 & He2 & Hk2). exists (e1 ++ e2). split.
  - eapply emitted_trans; [|exact He2]. exact He1.
  - intros e [He|He]%elem_of_app.
    + destruct (Hk1 _ He) as (u' & Hu' & ->). rewrite Hd in Hu'.
      injection Hu' as <-. right. by left.
    + rewrite Hn1 in Hk2. by apply Hk2.
Qed.

(** [shutdown_vm] of pvcvd, by the events it produces: the request to
    the guest comes first, and everything after it belongs to the
    shutdown. *)
Lemma pvcvd_shutdown_vm_events (fuel : nat) (s : State) :
  dom_present s → (60 < fuel)%nat →
  wp (Pvcvd.shutdown_vm env fuel)
    (λ r s', r = Return tt
       ∧ ∃ evs, emitted s s' (LvShutdown (domuuid (self s)) :: evs)
           ∧ ∀ e, e ∈ evs →
               shutdown_event (domuuid (self s)) (name (this_node s)) e) s.
Proof.
  intros Hp Hfuel. unfold Pvcvd.shutdown_vm. wp_pure.
  apply wp_dom_shutdown.
  { destruct Hp as [Hd Hl]. by split. }
  sred. wp_pure.
  set (s0 := log (LvShutdown (domuuid (self s))) (upd_self (set_inshutdown true) s)).
  assert (Htail : ∀ s1,
    trace s1 = trace s0 → this_node s1 = this_node s →
    domuuid (self s1) = domuuid (self s) →
    wp (removeDomainFromList;;
        s2 ← get;
        (if bool_decide (inrestart (self s2) = false)
         then writedata [(state_key (domuuid (self s)), "stop")]
         else mret tt);;
        modify (upd_self (set_self_dom None));;
        modify (upd_self (set_inshutdown false)))
      (λ r s', r = Return tt
         ∧ ∃ evs, emitted s s' (LvShutdown (domuuid (self s)) :: evs)
             ∧ ∀ e, e ∈ evs →
                 shutdown_event (domuuid (self s)) (name (this_node s)) e) s1).
  { intros s1 Ht1 Hn1 Hu1. eapply wp_mono.
    { apply (pvcvd_unlist_and_report_events (domuuid (self s))
               (set_inshutdown false) s1 Hu1). }
    intros r s2 (-> & e2 & He2 & Hk2). split; [done|]. exists e2. split.
    - unfold emitted in *. rewrite He2, Ht1. unfold s0. sred.
      by rewrite <- app_assoc.
    - by rewrite Hn1 in Hk2. }
  apply wp_try. wp_step.
  eapply wp_mono; [apply (pvcvd_shutdown_wait env fuel s0 Hfuel)|].
  intros r s1 (Hr & Htr & Hself & Hnode & Hc). unfold wp_cont.
  assert (Hu1 : domuuid (self s1) = domuuid (self s)) by by rewrite Hself.
  assert (Hn1 : this_node s1 = this_node s) by by rewrite Hnode.
  destruct r as [tick|e|]; [| |done].
  2:{ wp_pure. eapply wp_unbind, Htail; done. }
  case_bool_decide as Htick; wp_pure.
  2:{ eapply wp_unbind, Htail; done. }
  eapply wp_mono; [apply pvcvd_stop_vm_events|].
  { rewrite Hself. unfold s0. sred. by destruct Hp. }
  intros r s2 H2. unfold wp_cont. destruct r as [[]|e|]; [| |done].
  - wp_pure. destruct H2 as (evs & He2 & Hk2). sred. split; [done|].
    exists evs. split.
    + unfold emitted in *. sred. rewrite He2, Htr. unfold s0. sred.
      by rewrite <- app_assoc.
    + by rewrite Hu1, Hn1 in Hk2.
  - wp_pure. destruct H2 as (Htr2 & Hn2 & Hu2).
    eapply wp_unbind, Htail; congruence.
Qed.

Lemma pvcvd_migrate_vm_spec (fuel : nat) (s : State) :
  dom_present s → (60 < fuel)%nat →
  ∃ ret s1 s',
    Pvcvd.live_migrate_vm (self_node (self s)) (upd_self (set_inmigrate true) s)
    = (Return ret, s1)
    ∧ Pvcvd.migrate_vm env fuel s = (Return tt, s')
    ∧ pvcvd_sends (bool_decide (ret = 0%Z)) s s'.
Proof.
  intros Hp Hfuel. set (u := domuuid (self s)).
  set (s0 := upd_self (set_inmigrate true) s).
  assert (Hp0 : dom_present s0) by (destruct Hp; by split).
  destruct Hp as [Hd [st Hl]]. fold u in Hd, Hl.
  (* the path after a failed attempt *)
  assert (Hfail : wp
    (Pvcvd.shutdown_vm env fuel;; sleep env 1000;;
     writedata [(state_key u, "start")];;
     modify (upd_self (set_inmigrate false)))
    (λ r s', r = Return tt ∧ pvcvd_sends false s s') s0).
  { wp_step. eapply wp_mono; [apply (pvcvd_shutdown_vm_events fuel s0 Hp0 Hfuel)|].
    intros r s1 (-> & evs & Hem & Hk). wp_pure. split; [done|].
    destruct (shutdown_event_not_shutdown_write _ _ _ Hk) as [Hns Hnm].
    exists (LvShutdown u :: evs). split_and!.
    - unfold emitted in *. sred. rewrite Hem. unfold s0. sred.
      by rewrite <- app_assoc.
    - intros [H|H]%elem_of_cons; [discriminate|by apply Hns].
    - done.
    - intros _. split; [apply list_elem_of_here|].
      intros dest_lv dest_tcp [H|H]%elem_of_cons; [discriminate|].
      by apply (Hnm dest_lv dest_tcp). }
  destruct (dest_up (cluster s) && migrate_ok (cluster s)) eqn:Hok.
  - apply andb_prop in Hok as [Hup Hmig].
    exists 0%Z. eexists. 
    assert (Hlive : Pvcvd.live_migrate_vm (self_node (self s)) s0
      = (Return 0%Z,
         log (LvMigrate u ("qemu+tcp://" +:+ self_node (self s) +:+ "/system") None)
           (upd_cluster (λ c, set_libvirt (delete u (libvirt c)) c) s0))).
    { unfold Pvcvd.live_migrate_vm, s0. mred. rewrite Hup. cbn [negb].
      rewrite Hd. cbn [dom_migrate]. mred. fold u. rewrite Hl, Hmig. by mred. }
    assert (H : wp (Pvcvd.migrate_vm env fuel)
                  (λ r s', r = Return tt ∧ pvcvd_sends true s s') s).
    { unfold Pvcvd.migrate_vm. wp_pure. sred. apply wp_try. fold s0.
      eapply wp_eq; [exact Hlive|]. wp_pure. bd_false. wp_pure.
      apply wp_removeDomainFromList_events.
      intros s2 e2 Hs2 Hn2 Hl2 He2 Hk2. wp_pure. split; [done|].
      exists (LvMigrate u ("qemu+tcp://" +:+ self_node (self s) +:+ "/system") None
              :: e2).
      split_and!.
      - unfold emitted in *. sred. rewrite He2. sred. by rewrite <- !app_assoc.
      - intros [H|H]%elem_of_cons; [discriminate|].
        destruct (Hk2 _ H) as [v Hv]. apply ZkWrite_key in Hv.
        symmetry in Hv. by apply state_key_ne_runningdomains in Hv.
      - intros _. split_and!.
        + eexists. apply list_elem_of_here.
        + intros [H|H]%elem_of_cons; [discriminate|].
          destruct (Hk2 _ H) as [v Hv]. discriminate.
        + sred. exact Hl2.
      - done. }
    apply wp_returns in H as (s' & He & Hs). exists s'.
    split; [exact Hlive|]. split; [exact He|exact Hs].
  - exists 1%Z, s0.
    assert (Hlive : Pvcvd.live_migrate_vm (self_node (self s)) s0
                    = (Return 1%Z, s0)).
    { unfold Pvcvd.live_migrate_vm, s0. mred.
      destruct (dest_up (cluster s)); cbn [negb andb] in *; [|done].
      rewrite Hd. cbn [dom_migrate]. mred. fold u. rewrite Hl, Hok. by mred. }
    assert (H : wp (Pvcvd.migrate_vm env fuel)
                  (λ r s', r = Return tt ∧ pvcvd_sends false s s') s).
    { unfold Pvcvd.migrate_vm. wp_pure. sred. apply wp_try. fold s0.
      eapply wp_eq; [exact Hlive|]. wp_pure. bd_true. wp_pure.
      apply wp_unbind in Hfail. apply Hfail. }
    apply wp_returns in H as (s' & He & Hs). exists s'.
    split; [exact Hlive|]. split; [exact He|exact Hs].
Qed.
End pvcvd_send.

(** C3 (as amended). For every live-migration send attempt by the
    current owner in pvcnoded: on failure the owner writes ['shutdown'], on
    success it takes the domain off its running list, and in neither case
    does it write ['start'].  In pvcvd the owner never writes
    ['shutdown']: after a failed attempt it shuts the domain down itself
    (and no migration has taken place), after a successful one it takes
    the domain off its running list (and asks for no shutdown), and in both
    cases it finishes by writing ['start']. *)
Theorem migrate_vm_send (env : Z → Cluster → Cluster) (cluster_domain : string)
    (fuel : nat) (s : State) :
  (∃ ok s1 s',
     Pvcnoded.live_migrate_vm cluster_domain (upd_self (set_inmigrate true) s)
     = (Return ok, s1)
     ∧ Pvcnoded.migrate_vm cluster_domain s = (Return tt, s')
     ∧ sends_as_specified ok s s')
  ∧ (dom_present s → (60 < fuel)%nat →
       ∃ ret s1 s',
         Pvcvd.live_migrate_vm (self_node (self s))
           (upd_self (set_inmigrate true) s)
         = (Return ret, s1)
         ∧ Pvcvd.migrate_vm env fuel s = (Return tt, s')
         ∧ pvcvd_sends (bool_decide (ret = 0%Z)) s s').
Proof.
  split; [apply pvcnoded_migrate_vm_spec|].
  intros Hp Hfuel. by apply pvcvd_migrate_vm_spec.
Qed.

Lemma pvcvd_migrate_vm_trace_ok :
  trace (Pvcvd.migrate_vm quiet 100 (migrating_away (hypervisor_key "7c1f") true)).2
  = [LvMigrate "7c1f" "qemu+tcp://hv2/system" None;
     ZkWrite (runningdomains_key "hv1") "";
     ZkWrite (state_key "7c1f") "start"].
Proof. vm_compute. reflexivity. Qed.

Lemma pvcvd_migrate_vm_trace_failed :
  trace (Pvcvd.migrate_vm quiet 100 (migrating_away (hypervisor_key "7c1f") false)).2
  = [LvShutdown "7c1f";
     LvDestroy "7c1f";
     ZkWrite (runningdomains_key "hv1") "";
     ZkWrite (state_key "7c1f") "stop";
     ZkWrite (state_key "7c1f") "start"].
Proof. vm_compute. reflexivity. Qed.

(** C3 as first stated does not hold of pvcvd, on success and on failure
    alike: the sender writes ['start'], and after a failed attempt it
    writes ['stop'] and no ['shutdown']. *)
Lemma pvcvd_migrate_vm_writes_start :
  ¬ sends_as_specified true
      (migrating_away (hypervisor_key "7c1f") true)
      (Pvcvd.migrate_vm quiet 100 (migrating_away (hypervisor_key "7c1f") true)).2
  ∧ ¬ sends_as_specified false
      (migrating_away (hypervisor_key "7c1f") false)
      (Pvcvd.migrate_vm quiet 100 (migrating_away (hypervisor_key "7c1f") false)).2.
Proof.
  split; intros (evs & Hem & _ & _ & Hstart); unfold emitted in Hem.
  - rewrite pvcvd_migrate_vm_trace_ok in Hem. cbn in Hem. subst evs.
    apply Hstart. cbn. do 2 apply list_elem_of_further. apply list_elem_of_here.
  - rewrite pvcvd_migrate_vm_trace_failed in Hem. cbn in Hem. subst evs.
    apply Hstart. cbn. do 4 apply list_elem_of_further. apply list_elem_of_here.
Qed.

Lemma migrate_vm_send_witness :
  dom_present (migrating_away (node_key "7c1f") false)
  ∧ (100 > 60)%nat
  ∧ (Pvcnoded.migrate_vm "cluster.local" (migrating_away (node_key "7c1f") false)).1
    = Return tt
  ∧ (Pvcvd.migrate_vm quiet 100 (migrating_away (node_key "7c1f") false)).1
    = Return tt.
Proof.
  assert (Hp : dom_present (migrating_away (node_key "7c1f") false)).
  { split; [reflexivity|]. exists VIR_DOMAIN_RUNNING. reflexivity. }
  assert (Hf : (60 < 100)%nat) by lia.
  split; [exact Hp|]. split; [lia|].
  destruct (migrate_vm_send quiet "cluster.local" 100
              (migrating_away (node_key "7c1f") false))
    as [(ok & s1 & s' & _ & -> & _) H2].
  split; [reflexivity|].
  destruct (H2 Hp Hf) as (ret & s1' & s'' & _ & -> & _). reflexivity.
Defined.

(** In pvcnoded the same failed attempt ends with ['shutdown'] written
    and nothing else. *)
Example pvcnoded_migrate_vm_trace_failed :
  trace (Pvcnoded.migrate_vm "cluster.local"
           (migrating_away (node_key "7c1f") false)).2
  = [ZkWrite (state_key "7c1f") "shutdown"].
Proof. vm_compute. reflexivity. Qed.

Example pvcnoded_migrate_vm_trace_ok :
  trace (Pvcnoded.migrate_vm "cluster.local"
           (migrating_away (node_key "7c1f") true)).2
  = [LvMigrate "7c1f" "qemu+tcp://hv2.cluster.local/system"
       (Some "tcp://hv2.cluster.local");
     ZkWrite (runningdomains_key "hv1") ""].
Proof. vm_compute. reflexivity. Qed.

(** *** C2: the receive side of a migration that never arrives *)

Lemma wp_pvcnoded_lookup_absent (u : string) Q (s : State) :
  libvirt (cluster s) !! u = None →
  Q (Return None) s → wp (Pvcnoded.lookupByUUID u) Q s.
Proof.
  intros Hl HQ. unfold Pvcnoded.lookupByUUID. wp_pure.
  case_bool_decide; [by wp_pure|].
  destruct (libvirt_up (cluster s)); cbn [negb]; [|by wp_pure].
  rewrite Hl. by wp_pure.
Qed.

(** With nothing arriving, [receive_migrate] of pvcnoded runs its first
    loop for 91 rounds of one second and then writes ['fail'] to the state
    key: that single write is all it does to the store. *)
Lemma pvcnoded_receive_migrate_timeout (env : Z → Cluster → Cluster)
    (fuel : nat) (s : State) :
  nothing_arrives env (domuuid (self s)) →
  zk (cluster s) !! state_key (domuuid (self s)) = Some "migrate" →
  libvirt (cluster s) !! domuuid (self s) = None →
  (91 < fuel)%nat →
  ∃ s', Pvcnoded.receive_migrate env fuel s = (Return tt, s')
    ∧ trace s' = trace s ++ [ZkWrite (state_key (domuuid (self s))) "fail"]
    ∧ clock s' = (clock s + 91000)%Z.
Proof.
  intros Henv Hz Hl Hfuel. set (u := domuuid (self s)) in *.
  assert (H : wp (Pvcnoded.receive_migrate env fuel)
    (λ r s', r = Return tt
       ∧ trace s' = trace s ++ [ZkWrite (state_key u) "fail"]
       ∧ clock s' = (clock s + 91000)%Z) s).
  { unfold Pvcnoded.receive_migrate. wp_pure. sred. fold u.
    apply (wp_while _ (λ tick, Z.to_nat (91 - tick))
      (λ tick s1, (0 ≤ tick ≤ 90)%Z ∧ clock s1 = (clock s + 1000 * tick)%Z
         ∧ trace s1 = trace s
         ∧ zk (cluster s1) !! state_key u = Some "migrate"
         ∧ libvirt (cluster s1) !! u = None)).
    - intros tick s1 (Ht & Hc & Htr & Hz1 & Hl1).
      unfold Pvcnoded.receive_round. wp_pure. sred.
      destruct (Henv (clock s1 + 1000)%Z (cluster s1) Hz1 Hl1) as [Hz2 Hl2].
      rewrite Hz2. cbn [default]. wp_pure.
      apply wp_pvcnoded_lookup_absent; [by sred|]. wp_pure.
      rewrite !(bool_decide_eq_false_2 ("migrate" = _)) by done. cbn [orb].
      case_bool_decide as Hlate; wp_pure; sred.
      + split_and!; [done| |lia]. by rewrite Htr.
      + split; [|lia]. split_and!; [lia|lia|lia|done..].
    - sred. split_and!; [lia|lia|lia|done..].
    - cbn. lia. }
  unfold wp in H. destruct (Pvcnoded.receive_migrate env fuel s) as [r s'].
  cbn [fst snd] in H. destruct H as (-> & Htr & Hc). by exists s'.
Qed.

(** C2 (the code departs from it). The domain never appears and the
    state stays ['migrate']: after 91 seconds [receive_migrate] writes
    ['fail'] to the state key and nothing else, so [failedreason] is not
    populated (it still holds the empty string); the timeout of the
    fallback loop of the same method does write both keys. *)
Theorem receive_migrate_timeout_omits_failedreason :
  (Pvcnoded.receive_migrate quiet 200 awaiting_migration).1 = Return tt
  ∧ trace (Pvcnoded.receive_migrate quiet 200 awaiting_migration).2
    = [ZkWrite (state_key "7c1f") "fail"]
  ∧ clock (Pvcnoded.receive_migrate quiet 200 awaiting_migration).2 = 91000%Z
  ∧ zk (cluster (Pvcnoded.receive_migrate quiet 200 awaiting_migration).2)
      !! failedreason_key "7c1f" = Some ""
  ∧ zk (cluster (Pvcnoded.receive_migrate quiet 200 awaiting_migration).2)
      !! state_key "7c1f" = Some "fail".
Proof.
  split; [vm_compute; reflexivity|].
  split; [vm_compute; reflexivity|].
  split; [vm_compute; reflexivity|].
  split; vm_compute; reflexivity.
Qed.

Example receive_migrate_fallback_timeout :
  trace (Pvcnoded.receive_migrate sender_shutting_down 200 awaiting_migration).2
  = [ZkWrite (state_key "7c1f") "fail";
     ZkWrite (failedreason_key "7c1f") "Timeout waiting for migrate or shutdown"].
Proof. vm_compute. reflexivity. Qed.

(** *** C6: flushing locks that are not there *)

Section flush_locks.
Variable env : Z → Cluster → Cluster.
Variable os_reply : list event → string → Z * string * string.
Variable json_loads : string → option json.
Variable py_str : json → string.

Lemma flush_volume_no_locks (rbd : string) (s : State) :
  carries_no_locks os_reply json_loads rbd →
  CommandQueue.flush_volume os_reply json_loads py_str rbd s
  = (Return tt, log (lock_list_command rbd) s).
Proof.
  intros Hno. destruct (Hno (trace s)) as (out & err & ll & Hreply & Hjson & Hempty).
  unfold CommandQueue.flush_volume, CommandQueue.run_os_command. mred.
  rewrite Hreply. mred. bd_false. rewrite Hjson, Hempty. done.
Qed.

Lemma for_each_flush_volume_no_locks (l : list string) (s : State) :
  (∀ rbd, rbd ∈ l → carries_no_locks os_reply json_loads rbd) →
  for_each l (CommandQueue.flush_volume os_reply json_loads py_str) s
  = (Return tt, foldl (λ s rbd, log (lock_list_command rbd) s) s l).
Proof.
  revert s. induction l as [|rbd l IH]; intros s Hno; [done|].
  cbn [for_each foldl]. unfold mbind, M_bind.
  rewrite flush_volume_no_locks by (apply Hno; apply list_elem_of_here).
  apply IH. intros r Hr. apply Hno. by apply list_elem_of_further.
Qed.

Lemma foldl_log_frame (l : list string) (s : State) :
  let s' := foldl (λ s rbd, log (lock_list_command rbd) s) s l in
  trace s' = trace s ++ (lock_list_command <$> l)
  ∧ cluster s' = cluster s ∧ this_node s' = this_node s
  ∧ self s' = self s ∧ clock s' = clock s.
Proof.
  revert s. induction l as [|rbd l IH]; intros s; cbn.
  - by rewrite app_nil_r.
  - destruct (IH (log (lock_list_command rbd) s)) as (Ht & Hc & Hn & Hs & Hk).
    rewrite Ht, Hc, Hn, Hs, Hk. sred. by rewrite <- app_assoc.
Qed.

(** Whatever the volumes answer, the only value [flush_locks] ever
    returns is [True]. *)
Lemma flush_locks_never_false (dom_uuid : string) (s s' : State) (r : bool) :
  CommandQueue.flush_locks os_reply json_loads py_str dom_uuid s = (Return r, s') →
  r = true.
Proof.
  unfold CommandQueue.flush_locks. mred.
  destruct (for_each _ _ s) as [[[]|e|] s1]; congruence.
Qed.
End flush_locks.

(** C6. [flush_locks] succeeds on volumes that carry no locks: for every
    domain whose listed RBD volumes all answer the lock listing with an
    empty collection, it returns [True], having done nothing but list the
    locks of each volume; and the command-queue handler on the primary,
    given the request ['flush_locks <uuid>'], then writes
    ['success-<request>'] to [/cmd/domains].  Running it again meets the
    same conditions and succeeds again. *)
Theorem flush_locks_without_locks_succeeds
    (env : Z → Cluster → Cluster)
    (os_reply : list event → string → Z * string * string)
    (json_loads : string → option json) (py_str : json → string)
    (dom_uuid data : string) (s : State) :
  (∀ rbd,
     rbd ∈ str_split_on ","%char (default "" (zk (cluster s) !! rbdlist_key dom_uuid)) →
     carries_no_locks os_reply json_loads rbd) →
  (∃ s1,
     CommandQueue.flush_locks os_reply json_loads py_str dom_uuid s = (Return true, s1)
     ∧ emitted s s1
         (lock_list_command <$>
            str_split_on ","%char (default "" (zk (cluster s) !! rbdlist_key dom_uuid)))
     ∧ cluster s1 = cluster s)
  ∧ (str_split data = ["flush_locks"; dom_uuid] →
     router_state (this_node s) = "primary" →
     ∃ s' evs,
       CommandQueue.run_command env os_reply json_loads py_str data s = (Return tt, s')
       ∧ emitted s s' (evs ++ [ZkWrite "/cmd/domains" ("success-" +:+ data)])
       ∧ no_write_to "/cmd/domains" evs).
Proof.
  intros Hno.
  set (l := str_split_on ","%char (default "" (zk (cluster s) !! rbdlist_key dom_uuid))) in *.
  pose proof (for_each_flush_volume_no_locks os_reply json_loads py_str l s Hno) as Hfor.
  destruct (foldl_log_frame l s) as (Ht & Hc & Hn & Hs & Hk).
  set (s1 := foldl (λ s rbd, log (lock_list_command rbd) s) s l) in *.
  assert (Hflush : CommandQueue.flush_locks os_reply json_loads py_str dom_uuid s
                   = (Return true, s1)).
  { unfold CommandQueue.flush_locks. mred. fold l. by rewrite Hfor. }
  split.
  - exists s1. by split.
  - intros Hsplit Hprimary. unfold CommandQueue.run_command.
    rewrite Hsplit. bd_true. mred. rewrite Hprimary. bd_true.
    rewrite Hflush. mred.
    eexists _, (lock_list_command <$> l). split; [reflexivity|]. split.
    + unfold emitted. sred. by rewrite Ht, <- app_assoc.
    + intros v Hv. apply list_elem_of_fmap in Hv as (rbd & Heq & _). discriminate.
Qed.

Lemma unlocked_volumes_carry_no_locks (rbd : string) :
  rbd ∈ ["vms/7c1f_disk0"; "vms/7c1f_disk1"] →
  carries_no_locks unlocked_reply toy_json_loads rbd.
Proof.
  intros Hin tr. exists "{}", "", (JObject []).
  apply elem_of_cons in Hin as [->|Hin].
  { split; [reflexivity|]. split; reflexivity. }
  apply list_elem_of_singleton in Hin as ->.
  split; [reflexivity|]. split; reflexivity.
Qed.

Lemma flush_locks_without_locks_succeeds_witness :
  str_split "flush_locks 7c1f" = ["flush_locks"; "7c1f"]
  ∧ router_state (this_node primary_with_unlocked_volumes) = "primary"
  ∧ ∃ s' evs,
      CommandQueue.run_command quiet unlocked_reply toy_json_loads toy_py_str
        "flush_locks 7c1f" primary_with_unlocked_volumes = (Return tt, s')
      ∧ emitted primary_with_unlocked_volumes s'
          (evs ++ [ZkWrite "/cmd/domains" "success-flush_locks 7c1f"]).
Proof.
  assert (Hsplit : str_split "flush_locks 7c1f" = ["flush_locks"; "7c1f"])
    by reflexivity.
  assert (Hprimary : router_state (this_node primary_with_unlocked_volumes) = "primary")
    by reflexivity.
  split; [exact Hsplit|]. split; [exact Hprimary|].
  destruct (flush_locks_without_locks_succeeds quiet unlocked_reply toy_json_loads
              toy_py_str "7c1f" "flush_locks 7c1f" primary_with_unlocked_volumes)
    as [_ H].
  { intros rbd Hin. apply unlocked_volumes_carry_no_locks. exact Hin. }
  destruct (H Hsplit Hprimary) as (s' & evs & Heq & Hem & _).
  exists s', evs. split; [exact Heq|exact Hem].
Defined.

Example flush_locks_removes_a_lock :
  (CommandQueue.flush_locks locked_reply locked_json_loads toy_py_str "7c1f"
     primary_with_unlocked_volumes).1 = Return true
  ∧ length (trace (CommandQueue.flush_locks locked_reply locked_json_loads
                     toy_py_str "7c1f" primary_with_unlocked_volumes).2) = 3%nat.
Proof. split; vm_compute; reflexivity. Qed.

(** * Further properties of the code *)

(** ** The list of running domains, continued *)

Lemma list_remove_app_last (u : string) (l : list string) :
  u ∉ l → list_remove u (l ++ [u]) = l.
Proof.
  induction l as [|x l IH]; intros Hu; cbn.
  - by rewrite bool_decide_eq_true_2.
  - apply not_elem_of_cons in Hu as [Hne Hu].
    rewrite bool_decide_eq_false_2 by done. by rewrite IH.
Qed.

Lemma list_remove_filter (u : string) (l : list string) :
  NoDup l → list_remove u l = filter (λ x, x ≠ u) l.
Proof.
  induction 1 as [|x l Hx Hl IH]; [done|]. cbn [list_remove].
  case_bool_decide as Hux.
  - subst x. rewrite filter_cons_False by (intros H; by apply H).
    clear IH Hl. induction l as [|y l IH]; [done|].
    apply not_elem_of_cons in Hx as [Hne Hx].
    rewrite filter_cons_True by done. by rewrite <- IH.
  - rewrite filter_cons_True by congruence. by rewrite IH.
Qed.

(** X1. Adding a domain that is not listed and removing it again gives
    back the list as it was, and [runningdomains] ends up holding the join
    of that list; the store has seen two writes to that key and no other. *)
Theorem add_then_remove_restores (s : State) :
  domuuid (self s) ∉ domain_list (this_node s) →
  ∃ s1 s2,
    addDomainToList s = (Return tt, s1)
    ∧ removeDomainFromList s1 = (Return tt, s2)
    ∧ domain_list (this_node s2) = domain_list (this_node s)
    ∧ zk (cluster s2) !! runningdomains_key (name (this_node s))
      = Some (str_join " " (domain_list (this_node s)))
    ∧ trace s2
      = trace s
        ++ [ZkWrite (runningdomains_key (name (this_node s)))
              (str_join " " (domain_list (this_node s) ++ [domuuid (self s)]));
            ZkWrite (runningdomains_key (name (this_node s)))
              (str_join " " (domain_list (this_node s)))].
Proof.
  intros Hu. rewrite addDomainToList_absent by done.
  eexists _, _. split; [reflexivity|].
  rewrite removeDomainFromList_present.
  2:{ sred. apply elem_of_app. right. apply list_elem_of_here. }
  sred. rewrite list_remove_app_last by done.
  split; [reflexivity|]. sred. split; [done|]. split.
  - by rewrite lookup_insert_eq.
  - by rewrite <- app_assoc.
Qed.

(** X2. On a duplicate-free list [removeDomainFromList] takes away this
    controller's uuid and nothing else: what is left are the other uuids in
    their order, the uuid is no longer listed, and a second call changes
    nothing. *)
Theorem removeDomainFromList_removes (s : State) :
  NoDup (domain_list (this_node s)) →
  ∃ s',
    removeDomainFromList s = (Return tt, s')
    ∧ domain_list (this_node s')
      = filter (λ x, x ≠ domuuid (self s)) (domain_list (this_node s))
    ∧ (domuuid (self s) ∉ domain_list (this_node s'))
    ∧ removeDomainFromList s' = (Return tt, s').
Proof.
  intros Hnd.
  destruct (removeDomainFromList_spec s)
    as (s' & Heq & Hself & _ & Hl & _).
  exists s'. split; [done|].
  assert (Hout : domuuid (self s) ∉ domain_list (this_node s')).
  { rewrite Hl. by apply list_remove_NoDup. }
  split; [by rewrite Hl, list_remove_filter|]. split; [done|].
  apply removeDomainFromList_absent. by rewrite Hself.
Qed.

Lemma add_then_remove_restores_witness :
  (domuuid (self awaiting_migration) ∉ domain_list (this_node awaiting_migration))
  ∧ ∃ s1 s2,
      addDomainToList awaiting_migration = (Return tt, s1)
      ∧ removeDomainFromList s1 = (Return tt, s2)
      ∧ domain_list (this_node s2) = [].
Proof.
  assert (H : domuuid (self awaiting_migration)
              ∉ domain_list (this_node awaiting_migration)) by compute_done.
  split; [exact H|].
  destruct (add_then_remove_restores awaiting_migration H)
    as (s1 & s2 & H1 & H2 & H3 & _).
  exists s1, s2. split; [exact H1|]. split; [exact H2|exact H3].
Defined.

Lemma removeDomainFromList_removes_witness :
  NoDup (domain_list (this_node listed_state))
  ∧ ∃ s', removeDomainFromList listed_state = (Return tt, s')
      ∧ domain_list (this_node s') = ["3d2a"].
Proof.
  assert (H : NoDup (domain_list (this_node listed_state))) by compute_done.
  split; [exact H|].
  destruct (removeDomainFromList_removes listed_state H) as (s' & H1 & H2 & _).
  exists s'. split; [exact H1|]. rewrite H2. reflexivity.
Defined.

(** ** Starting a domain *)

Lemma wp_addDomainToList Q (s : State) :
  (domuuid (self s) ∈ domain_list (this_node s) → Q (Return tt) s) →
  (domuuid (self s) ∉ domain_list (this_node s) →
   Q (Return tt)
     (write_one
        (upd_node (set_domain_list (domain_list (this_node s) ++ [domuuid (self s)])) s)
        (runningdomains_key (name (this_node s)),
         str_join " " (domain_list (this_node s) ++ [domuuid (self s)])))) →
  wp addDomainToList Q s.
Proof.
  intros Hin Hout.
  destruct (decide (domuuid (self s) ∈ domain_list (this_node s))) as [H|H].
  - eapply wp_eq; [by apply addDomainToList_present|]. by apply Hin.
  - eapply wp_eq; [by apply addDomainToList_absent|]. by apply Hout.
Qed.

Lemma failedreason_key_ne_runningdomains (u n : string) :
  runningdomains_key n ≠ failedreason_key u.
Proof. unfold failedreason_key, runningdomains_key. intros [=]. Qed.

Lemma wp_pvcvd_lookup_absent (u : string) Q (s : State) :
  libvirt (cluster s) !! u = None →
  Q (Return None) s → wp (Pvcvd.lookupByUUID u) Q s.
Proof.
  intros Hl HQ. unfold Pvcvd.lookupByUUID. wp_pure.
  destruct (libvirt_up (cluster s)); cbn [negb]; [|by wp_pure].
  rewrite Hl. by wp_pure.
Qed.

(** X3. When libvirt refuses to create the domain, [start_vm] records the
    failure and gives up: it writes the state ['fail'] (pvcnoded) or
    ['failed'] (pvcvd) and then the text of the libvirt error to
    [failedreason], does not list the domain as running, and lowers
    [instart]. *)
Theorem start_vm_create_refused (msg : string) (s : State) :
  not_in_driver s → create_error (cluster s) = Some msg →
  (∃ s', Pvcnoded.start_vm s = (Return tt, s') ∧ start_failed "fail" msg s s')
  ∧ (∃ s', Pvcvd.start_vm s = (Return tt, s') ∧ start_failed "failed" msg s s').
Proof.
  intros [Hup Hl] Herr. split.
  - assert (H : wp Pvcnoded.start_vm
                  (λ r s', r = Return tt ∧ start_failed "fail" msg s s') s).
    { unfold Pvcnoded.start_vm. wp_pure. sred. rewrite Hup. wp_pure.
      apply wp_try. wp_step. apply wp_pvcnoded_lookup_absent; [by sred|].
      wp_pure. cbn [dom_state]. wp_pure. bd_false. apply wp_try. wp_pure.
      unfold createXML. wp_pure.
      sred. rewrite Herr. wp_pure. split; [done|]. unfold start_failed. sred.
      split_and!; try done.
      - by rewrite <- app_assoc.
      - rewrite lookup_insert_ne by apply state_key_ne_failedreason.
        by rewrite lookup_insert_eq.
      - by rewrite lookup_insert_eq. }
    unfold wp in H. destruct (Pvcnoded.start_vm s) as [r s'].
    cbn [fst snd] in H. destruct H as [-> H]. by exists s'.
  - assert (H : wp Pvcvd.start_vm
                  (λ r s', r = Return tt ∧ start_failed "failed" msg s s') s).
    { unfold Pvcvd.start_vm. wp_pure. sred. rewrite Hup. wp_pure.
      apply wp_try. wp_step. apply wp_pvcvd_lookup_absent; [by sred|].
      wp_pure. cbn [dom_state]. wp_pure. bd_false. apply wp_try. wp_pure.
      unfold createXML. wp_pure.
      sred. rewrite Herr. wp_pure. split; [done|]. unfold start_failed. sred.
      split_and!; try done.
      - by rewrite <- app_assoc.
      - rewrite lookup_insert_ne by apply state_key_ne_failedreason.
        by rewrite lookup_insert_eq.
      - by rewrite lookup_insert_eq. }
    unfold wp in H. destruct (Pvcvd.start_vm s) as [r s'].
    cbn [fst snd] in H. destruct H as [-> H]. by exists s'.
Qed.

Lemma pvcnoded_start_vm_creates_spec (s : State) :
  not_in_driver s → create_error (cluster s) = None →
  ∃ s', Pvcnoded.start_vm s = (Return tt, s') ∧ started s s'
    ∧ LvCreateXML (default "" (zk (cluster s) !! xml_key (domuuid (self s))))
      ∈ trace s'.
Proof.
  intros [Hup Hl] Herr.
  assert (Hnw : ∀ n v x,
    ZkWrite (state_key (domuuid (self s))) v
    ∉ [LvCreateXML x; ZkWrite (runningdomains_key n) (str_join " " (domain_list (this_node s) ++ [domuuid (self s)]));
       ZkWrite (failedreason_key (domuuid (self s))) ""]).
  { intros n v x H. apply elem_of_cons in H as [H|H]; [discriminate|].
    apply elem_of_cons in H as [H|H].
    { apply ZkWrite_key in H. symmetry in H. by apply state_key_ne_runningdomains in H. }
    apply list_elem_of_singleton, ZkWrite_key in H. symmetry in H.
    by apply state_key_ne_failedreason in H. }
  assert (Hnw' : ∀ v x,
    ZkWrite (state_key (domuuid (self s))) v
    ∉ [LvCreateXML x; ZkWrite (failedreason_key (domuuid (self s))) ""]).
  { intros v x H. apply elem_of_cons in H as [H|H]; [discriminate|].
    apply list_elem_of_singleton, ZkWrite_key in H. symmetry in H.
    by apply state_key_ne_failedreason in H. }
  apply wp_returns.
  unfold Pvcnoded.start_vm. wp_pure. sred. rewrite Hup. wp_pure.
  apply wp_try. wp_step. apply wp_pvcnoded_lookup_absent; [by sred|].
  wp_pure. cbn [dom_state]. wp_pure. bd_false. apply wp_try. wp_pure.
  unfold createXML. wp_pure.
  sred. rewrite Herr. wp_pure. apply wp_addDomainToList; sred; intros Hin;
    wp_pure; (split; [done|]); unfold started, dom_present, state_untouched,
    emitted; sred.
  - split_and!; try done.
    + by rewrite lookup_insert_eq.
    + by rewrite lookup_insert_eq.
    + by rewrite lookup_insert_eq.
    + eexists. split; [by rewrite <- !app_assoc|]. split; [intros v; apply Hnw'|].
      rewrite lookup_insert_ne by apply state_key_ne_failedreason. done.
    + apply elem_of_app. left. apply elem_of_app. right. apply list_elem_of_here.
  - split_and!; try done.
    + by rewrite lookup_insert_eq.
    + by rewrite lookup_insert_eq.
    + apply elem_of_app. right. apply list_elem_of_here.
    + by rewrite lookup_insert_eq.
    + eexists. split; [by rewrite <- !app_assoc|]. split; [intros v; apply Hnw|].
      rewrite lookup_insert_ne by apply state_key_ne_failedreason.
      rewrite lookup_insert_ne by apply state_key_ne_runningdomains. done.
    + apply elem_of_app. left. apply elem_of_app. left.
      apply elem_of_app. right. apply list_elem_of_here.
Qed.

Lemma pvcvd_start_vm_creates_spec (s : State) :
  not_in_driver s → create_error (cluster s) = None →
  ∃ s', Pvcvd.start_vm s = (Return tt, s') ∧ started s s'
    ∧ LvCreateXML (default "" (zk (cluster s) !! xml_key (domuuid (self s))))
      ∈ trace s'.
Proof.
  intros [Hup Hl] Herr.
  assert (Hnw : ∀ n v x,
    ZkWrite (state_key (domuuid (self s))) v
    ∉ [LvCreateXML x; ZkWrite (runningdomains_key n) (str_join " " (domain_list (this_node s) ++ [domuuid (self s)]));
       ZkWrite (failedreason_key (domuuid (self s))) ""]).
  { intros n v x H. apply elem_of_cons in H as [H|H]; [discriminate|].
    apply elem_of_cons in H as [H|H].
    { apply ZkWrite_key in H. symmetry in H. by apply state_key_ne_runningdomains in H. }
    apply list_elem_of_singleton, ZkWrite_key in H. symmetry in H.
    by apply state_key_ne_failedreason in H. }
  assert (Hnw' : ∀ v x,
    ZkWrite (state_key (domuuid (self s))) v
    ∉ [LvCreateXML x; ZkWrite (failedreason_key (domuuid (self s))) ""]).
  { intros v x H. apply elem_of_cons in H as [H|H]; [discriminate|].
    apply list_elem_of_singleton, ZkWrite_key in H. symmetry in H.
    by apply state_key_ne_failedreason in H. }
  apply wp_returns.
  unfold Pvcvd.start_vm. wp_pure. sred. rewrite Hup. wp_pure.
  apply wp_try. wp_step. apply wp_pvcvd_lookup_absent; [by sred|].
  wp_pure. cbn [dom_state]. wp_pure. bd_false. apply wp_try. wp_pure.
  unfold createXML. wp_pure.
  sred. rewrite Herr. wp_pure. apply wp_addDomainToList; sred; intros Hin;
    wp_pure; (split; [done|]); unfold started, dom_present, state_untouched,
    emitted; sred.
  - split_and!; try done.
    + by rewrite lookup_insert_eq.
    + by rewrite lookup_insert_eq.
    + by rewrite lookup_insert_eq.
    + eexists. split; [by rewrite <- !app_assoc|]. split; [intros v; apply Hnw'|].
      rewrite lookup_insert_ne by apply state_key_ne_failedreason. done.
    + apply elem_of_app. left. apply elem_of_app. right. apply list_elem_of_here.
  - split_and!; try done.
    + by rewrite lookup_insert_eq.
    + by rewrite lookup_insert_eq.
    + apply elem_of_app. right. apply list_elem_of_here.
    + by rewrite lookup_insert_eq.
    + eexists. split; [by rewrite <- !app_assoc|]. split; [intros v; apply Hnw|].
      rewrite lookup_insert_ne by apply state_key_ne_failedreason.
      rewrite lookup_insert_ne by apply state_key_ne_runningdomains. done.
    + apply elem_of_app. left. apply elem_of_app. left.
      apply elem_of_app. right. apply list_elem_of_here.
Qed.

(** X4. A cold start that libvirt accepts: [start_vm] creates the domain
    from the XML in the store, and afterwards the domain runs in the local
    driver, the controller holds its handle, the uuid is on the list of
    running domains, [failedreason] is cleared, [instart] is down, and the
    state key has not been written. *)
Theorem start_vm_creates (s : State) :
  not_in_driver s → create_error (cluster s) = None →
  (∃ s', Pvcnoded.start_vm s = (Return tt, s') ∧ started s s'
         ∧ LvCreateXML (default "" (zk (cluster s) !! xml_key (domuuid (self s))))
           ∈ trace s')
  ∧ (∃ s', Pvcvd.start_vm s = (Return tt, s') ∧ started s s'
           ∧ LvCreateXML (default "" (zk (cluster s) !! xml_key (domuuid (self s))))
             ∈ trace s').
Proof.
  intros Hn Herr. split.
  - by apply pvcnoded_start_vm_creates_spec.
  - by apply pvcvd_start_vm_creates_spec.
Qed.

Lemma start_vm_create_refused_witness :
  not_in_driver (cold_start (Some "out of memory"))
  ∧ create_error (cluster (cold_start (Some "out of memory"))) = Some "out of memory"
  ∧ ∃ s', Pvcnoded.start_vm (cold_start (Some "out of memory")) = (Return tt, s')
      ∧ zk (cluster s') !! state_key "7c1f" = Some "fail".
Proof.
  assert (H1 : not_in_driver (cold_start (Some "out of memory")))
    by (split; vm_compute; reflexivity).
  assert (H2 : create_error (cluster (cold_start (Some "out of memory")))
               = Some "out of memory") by reflexivity.
  split; [exact H1|]. split; [exact H2|].
  destruct (start_vm_create_refused "out of memory" _ H1 H2)
    as [(s' & He & _ & Hz & _) _].
  exists s'. split; [exact He|exact Hz].
Defined.

Lemma start_vm_creates_witness :
  not_in_driver (cold_start None)
  ∧ create_error (cluster (cold_start None)) = None
  ∧ ∃ s', Pvcnoded.start_vm (cold_start None) = (Return tt, s')
      ∧ libvirt (cluster s') !! "7c1f" = Some VIR_DOMAIN_RUNNING.
Proof.
  assert (H1 : not_in_driver (cold_start None))
    by (split; vm_compute; reflexivity).
  assert (H2 : create_error (cluster (cold_start None)) = None) by reflexivity.
  split; [exact H1|]. split; [exact H2|].
  destruct (start_vm_creates _ H1 H2) as [(s' & He & (_ & Hl & _) & _) _].
  exists s'. split; [exact He|exact Hl].
Defined.

Lemma idle_not_busy (o : VMInstance) : idle o ↔ ¬ busy o.
Proof.
  unfold idle, busy.
  destruct (instart o), (inrestart o), (inmigrate o), (inreceive o),
    (inshutdown o), (instop o); intuition congruence.
Qed.

Lemma idle_guard (o : VMInstance) :
  idle o →
  bool_decide (instart o = false)
  && bool_decide (inrestart o = false)
  && bool_decide (inmigrate o = false)
  && bool_decide (inreceive o = false)
  && bool_decide (inshutdown o = false)
  && bool_decide (instop o = false) = true.
Proof. intros (-> & -> & -> & -> & -> & ->). done. Qed.

(** X5. Without a connection to the local libvirt, [start_vm] and
    [restart_vm] give up at once: they write nothing to the store (in
    particular no failure is recorded and the state key keeps the request),
    ask nothing of the driver, and lower the flag they had raised. *)
Theorem start_and_restart_without_libvirt
    (env : Z → Cluster → Cluster) (fuel : nat) (rec : M State unit) (s : State) :
  libvirt_up (cluster s) = false → idle (self s) →
  (∃ s', Pvcnoded.start_vm s = (Return tt, s') ∧ dropped s s')
  ∧ (∃ s', Pvcnoded.restart_vm env fuel rec s = (Return tt, s') ∧ dropped s s')
  ∧ (∃ s', Pvcvd.start_vm s = (Return tt, s') ∧ dropped s s')
  ∧ (∃ s', Pvcvd.restart_vm env fuel s = (Return tt, s') ∧ dropped s s').
Proof.
  intros Hup Hidle.
  assert (Hi := Hidle). destruct Hi as (H1 & H2 & H3 & H4 & H5 & H6).
  split_and!.
  - unfold Pvcnoded.start_vm. mred. rewrite Hup. mred.
    eexists. split; [reflexivity|]. unfold dropped. mred. split_and!; try done.
    apply idle_not_busy. unfold idle. mred. done.
  - unfold Pvcnoded.restart_vm. mred. rewrite Hup. mred.
    eexists. split; [reflexivity|]. unfold dropped. mred. split_and!; try done.
    apply idle_not_busy. unfold idle. mred. done.
  - unfold Pvcvd.start_vm. mred. rewrite Hup. mred.
    eexists. split; [reflexivity|]. unfold dropped. mred. split_and!; try done.
    apply idle_not_busy. unfold idle. mred. done.
  - unfold Pvcvd.restart_vm. mred. rewrite Hup. mred.
    eexists. split; [reflexivity|]. unfold dropped. mred. split_and!; try done.
    apply idle_not_busy. unfold idle. mred. done.
Qed.

Lemma wp_pvcnoded_lookup_present (u : string) Q (s : State) :
  self_node (self s) = name (this_node s) →
  libvirt_up (cluster s) = true → is_Some (libvirt (cluster s) !! u) →
  Q (Return (Some (VirDomain u))) s → wp (Pvcnoded.lookupByUUID u) Q s.
Proof.
  intros Hn Hup [st Hl] HQ. unfold Pvcnoded.lookupByUUID. wp_pure.
  bd_false. rewrite Hup, Hl. by wp_pure.
Qed.

Lemma wp_pvcvd_lookup_present (u : string) Q (s : State) :
  libvirt_up (cluster s) = true → is_Some (libvirt (cluster s) !! u) →
  Q (Return (Some (VirDomain u))) s → wp (Pvcvd.lookupByUUID u) Q s.
Proof.
  intros Hup [st Hl] HQ. unfold Pvcvd.lookupByUUID. wp_pure.
  rewrite Hup, Hl. by wp_pure.
Qed.

(** X6. A domain that already runs in the local driver is not created
    again: [start_vm] takes its handle, lists it and clears [failedreason];
    it calls no [createXML] and writes nothing to the state key. *)
Theorem start_vm_adopts_running (s : State) :
  libvirt_up (cluster s) = true →
  libvirt (cluster s) !! domuuid (self s) = Some VIR_DOMAIN_RUNNING →
  self_node (self s) = name (this_node s) →
  (∃ s', Pvcnoded.start_vm s = (Return tt, s') ∧ adopted s s')
  ∧ (∃ s', Pvcvd.start_vm s = (Return tt, s') ∧ adopted s s').
Proof.
  intros Hup Hl Hn. split.
  - assert (H : wp Pvcnoded.start_vm (λ r s', r = Return tt ∧ adopted s s') s).
    { unfold Pvcnoded.start_vm. wp_pure. sred. rewrite Hup. wp_pure.
      apply wp_try. wp_step. apply wp_pvcnoded_lookup_present; [by sred..|].
      wp_pure. cbn [dom_state]. wp_pure. sred. rewrite Hl. wp_pure. bd_true.
      wp_pure. unfold adopted, listing_write, dom_present.
      apply wp_addDomainToList; sred; intros Hin; wp_pure;
        (split; [done|]); sred.
      - bd_true. rewrite Hl. split_and!; try done.
        by rewrite lookup_insert_eq.
      - bd_false. rewrite Hl. split_and!; try done.
        + apply elem_of_app. right. apply list_elem_of_here.
        + by rewrite lookup_insert_eq.
        + by rewrite <- app_assoc. }
    unfold wp in H. destruct (Pvcnoded.start_vm s) as [r s'].
    cbn [fst snd] in H. destruct H as [-> H]. by exists s'.
  - assert (H : wp Pvcvd.start_vm (λ r s', r = Return tt ∧ adopted s s') s).
    { unfold Pvcvd.start_vm. wp_pure. sred. rewrite Hup. wp_pure.
      apply wp_try. wp_step. apply wp_pvcvd_lookup_present; [by sred..|].
      wp_pure. cbn [dom_state]. wp_pure. sred. rewrite Hl. wp_pure. bd_true.
      wp_pure. unfold adopted, listing_write, dom_present.
      apply wp_addDomainToList; sred; intros Hin; wp_pure;
        (split; [done|]); sred.
      - bd_true. rewrite Hl. split_and!; try done.
        by rewrite lookup_insert_eq.
      - bd_false. rewrite Hl. split_and!; try done.
        + apply elem_of_app. right. apply list_elem_of_here.
        + by rewrite lookup_insert_eq.
        + by rewrite <- app_assoc. }
    unfold wp in H. destruct (Pvcvd.start_vm s) as [r s'].
    cbn [fst snd] in H. destruct H as [-> H]. by exists s'.
Qed.

Lemma start_and_restart_without_libvirt_witness :
  libvirt_up (cluster driver_down) = false
  ∧ idle (self driver_down)
  ∧ ∃ s', Pvcnoded.start_vm driver_down = (Return tt, s') ∧ trace s' = [].
Proof.
  assert (H1 : libvirt_up (cluster driver_down) = false) by reflexivity.
  assert (H2 : idle (self driver_down)) by (repeat split; reflexivity).
  split; [exact H1|]. split; [exact H2|].
  destruct (start_and_restart_without_libvirt (λ _ c, c) 0 (mret tt) _ H1 H2)
    as [(s' & He & Ht & _) _].
  exists s'. split; [exact He|exact Ht].
Defined.

Lemma start_vm_adopts_running_witness :
  libvirt_up (cluster already_running) = true
  ∧ libvirt (cluster already_running) !! domuuid (self already_running)
    = Some VIR_DOMAIN_RUNNING
  ∧ self_node (self already_running) = name (this_node already_running)
  ∧ ∃ s', Pvcnoded.start_vm already_running = (Return tt, s')
      ∧ trace s'
        = [ZkWrite (runningdomains_key "hv1") "3d2a 7c1f";
           ZkWrite (failedreason_key "7c1f") ""].
Proof.
  assert (H1 : libvirt_up (cluster already_running) = true) by reflexivity.
  assert (H2 : libvirt (cluster already_running) !! domuuid (self already_running)
               = Some VIR_DOMAIN_RUNNING) by (vm_compute; reflexivity).
  assert (H3 : self_node (self already_running) = name (this_node already_running))
    by reflexivity.
  split; [exact H1|]. split; [exact H2|]. split; [exact H3|].
  destruct (start_vm_adopts_running _ H1 H2 H3) as [(s' & He & _ & _ & _ & _ & Ht & _) _].
  exists s'. split; [exact He|]. rewrite Ht. vm_compute. reflexivity.
Defined.

(** ** The dispatch of [manage_vm_state] *)

Lemma wp_probe_running (d : option virDomain) Q (s : State) :
  (∀ st, (st = VIR_DOMAIN_RUNNING
          ↔ ∃ u, d = Some (VirDomain u)
                 ∧ libvirt (cluster s) !! u = Some VIR_DOMAIN_RUNNING) →
         Q (Return st) s) →
  wp (try_except
        (match d with
         | Some d => dom_state (Some d)
         | None => raise TypeError
         end)
        (λ _, mret VIR_DOMAIN_NOSTATE)) Q s.
Proof.
  intros HQ. apply wp_try. destruct d as [[u]|].
  - cbn [dom_state]. wp_pure.
    destruct (libvirt (cluster s) !! u) as [st|] eqn:Hl; wp_pure.
    + apply HQ. split.
      * intros ->. by exists u.
      * intros (u' & [= <-] & Hu). congruence.
    + apply HQ. split; [done|]. intros (u' & [= <-] & Hu). congruence.
  - wp_pure. apply HQ. split; [done|]. by intros (u' & [=] & _).
Qed.

(** X7. [manage_vm_state] leaves a domain alone when the domain is
    assigned to this node with a state outside the five it handles
    (['disable'], ['provision'], ['fail'], ...), or when the domain is
    assigned to another node and does not run here. *)
Theorem manage_vm_state_no_action_pvcnoded
    (env : Z → Cluster → Cluster) (cluster_domain : string) (fuel : nat)
    (s : State) :
  let st := default "" (zk (cluster s) !! state_key (domuuid (self s))) in
  let nd := default "" (zk (cluster s) !! node_key (domuuid (self s))) in
  (nd = name (this_node s) ∧ st ∉ handled_states)
  ∨ (nd ≠ name (this_node s) ∧ ¬ runs_here s) →
  ∃ s', Pvcnoded.manage_vm_state env cluster_domain (S fuel) s = (Return tt, s')
        ∧ no_action (cluster s) s s'.
Proof.
  intros st nd Hcase.
  assert (H : wp (Pvcnoded.manage_vm_state env cluster_domain (S fuel))
                (λ r s', r = Return tt ∧ no_action (cluster s) s s') s).
  { cbn [Pvcnoded.manage_vm_state]. unfold Pvcnoded.manage_vm_state_body.
    wp_pure. sred. fold st nd. apply wp_probe_running. intros run Hrun.
    wp_pure. sred.
    destruct (_ && _); [|by wp_pure].
    destruct Hcase as [[Hn Hst]|[Hn Hnr]].
    - assert (Hs : st ≠ "start" ∧ st ≠ "migrate" ∧ st ≠ "restart"
                   ∧ st ≠ "shutdown" ∧ st ≠ "stop").
      { unfold handled_states in Hst.
        split_and!; intros E; apply Hst; rewrite E;
          repeat first [apply list_elem_of_here | apply list_elem_of_further]. }
      destruct Hs as (Hs1 & Hs2 & Hs3 & Hs4 & Hs5).
      bd_true.
      destruct (bool_decide (run = VIR_DOMAIN_RUNNING)).
      + rewrite !bool_decide_eq_false_2 by done. by wp_pure.
      + rewrite !bool_decide_eq_false_2 by done. wp_pure. sred.
        rewrite !bool_decide_eq_false_2 by done. by wp_pure.
    - bd_false.
      rewrite (bool_decide_eq_false_2 (run = _)); [by wp_pure|].
      intros Hr. apply Hnr, Hrun, Hr. }
  unfold wp in H.
  destruct (Pvcnoded.manage_vm_state env cluster_domain (S fuel) s) as [r s'].
  cbn [fst snd] in H. destruct H as [-> H]. by exists s'.
Qed.

(** X8. The owner finds its domain running and the request is ['start']
    or ['migrate']: [manage_vm_state] only brings the records in line.  A
    state stuck at ['migrate'] is set to ['start'], the uuid is put on the
    list of running domains if it is missing, and the driver is not
    touched. *)
Theorem manage_vm_state_confirms_running
    (env : Z → Cluster → Cluster) (cluster_domain : string) (fuel : nat)
    (s : State) :
  let u := domuuid (self s) in
  let st := default "" (zk (cluster s) !! state_key u) in
  let nd := default "" (zk (cluster s) !! node_key u) in
  idle (self s) → nd = name (this_node s) →
  self_dom (self s) = Some (VirDomain u) →
  libvirt (cluster s) !! u = Some VIR_DOMAIN_RUNNING →
  st = "start" ∨ st = "migrate" →
  ∃ s', Pvcnoded.manage_vm_state env cluster_domain (S fuel) s = (Return tt, s')
    ∧ trace s'
      = trace s
        ++ (if bool_decide (st = "migrate") then [ZkWrite (state_key u) "start"]
            else [])
        ++ listing_write s
    ∧ u ∈ domain_list (this_node s')
    ∧ libvirt (cluster s') = libvirt (cluster s).
Proof.
  intros u st nd Hidle Hn Hd Hl Hst. apply wp_returns.
  cbn [Pvcnoded.manage_vm_state]. unfold Pvcnoded.manage_vm_state_body.
  wp_pure. sred. fold u st nd. apply wp_probe_running. intros run Hrun.
  wp_pure. sred. rewrite (idle_guard _ Hidle). bd_true.
  rewrite (bool_decide_eq_true_2 (run = _)) by (apply Hrun; by exists u).
  unfold listing_write. fold u.
  destruct Hst as [Hst|Hst]; rewrite Hst.
  - rewrite (bool_decide_eq_true_2 ("start" = "start")) by done.
    rewrite (bool_decide_eq_false_2 ("start" = "migrate")) by done.
    wp_pure. apply wp_addDomainToList; sred; fold u; intros Hin.
    + bd_true. by rewrite !app_nil_r.
    + bd_false. split_and!; [done|done| |done].
      apply elem_of_app. right. apply list_elem_of_here.
  - rewrite (bool_decide_eq_false_2 ("migrate" = "start")) by done.
    rewrite !(bool_decide_eq_true_2 ("migrate" = "migrate")) by done.
    wp_pure. apply wp_addDomainToList; sred; fold u; intros Hin.
    + bd_true. by rewrite !app_nil_r.
    + bd_false. split_and!; [done|by rewrite <- app_assoc| |done].
      apply elem_of_app. right. apply list_elem_of_here.
Qed.

(** X9. A domain that runs here but is assigned to another node, with a
    state other than ['migrate'] and ['shutdown'], is destroyed:
    [manage_vm_state] takes it out of the driver and off the list of
    running domains, and leaves the state key to the owner. *)
Theorem manage_vm_state_evicts_foreign
    (env : Z → Cluster → Cluster) (cluster_domain : string) (fuel : nat)
    (s : State) :
  let u := domuuid (self s) in
  let st := default "" (zk (cluster s) !! state_key u) in
  let nd := default "" (zk (cluster s) !! node_key u) in
  idle (self s) → nd ≠ name (this_node s) →
  self_dom (self s) = Some (VirDomain u) →
  libvirt (cluster s) !! u = Some VIR_DOMAIN_RUNNING →
  st ≠ "migrate" → st ≠ "shutdown" →
  ∃ s', Pvcnoded.manage_vm_state env cluster_domain (S fuel) s = (Return tt, s')
    ∧ terminated s s' ∧ state_untouched s s'.
Proof.
  intros u st nd Hidle Hn Hd Hl Hst1 Hst2. apply wp_returns.
  cbn [Pvcnoded.manage_vm_state]. unfold Pvcnoded.manage_vm_state_body.
  wp_pure. sred. fold u st nd. apply wp_probe_running. intros run Hrun.
  wp_pure. sred. rewrite (idle_guard _ Hidle). bd_false.
  rewrite (bool_decide_eq_true_2 (run = _)) by (apply Hrun; by exists u).
  rewrite !(bool_decide_eq_false_2 (st = _)) by done.
  set (s0 := upd_self _ _).
  assert (Hp : dom_present s0) by (split; [exact Hd|exists VIR_DOMAIN_RUNNING; exact Hl]).
  destruct (pvcnoded_terminate_vm_present s0 Hp) as (s' & Heq & Ht).
  assert (Hu := pvcnoded_terminate_vm_untouched s0). rewrite Heq in Hu.
  eapply wp_eq; [exact Heq|]. split_and!; [done|exact Ht|].
  eapply state_untouched_trans; [|by apply state_untouched_refl|exact Hu].
  done.
Qed.

(** X10. The owner, the domain not running: a ['restart'] request is
    answered with a single write of ['start'] (there is nothing to shut
    down), and a ['shutdown'] or ['stop'] request only takes the uuid off
    the list of running domains, the state key staying as requested. *)
Theorem manage_vm_state_owner_not_running
    (env : Z → Cluster → Cluster) (cluster_domain : string) (fuel : nat)
    (s : State) :
  let u := domuuid (self s) in
  let st := default "" (zk (cluster s) !! state_key u) in
  let nd := default "" (zk (cluster s) !! node_key u) in
  idle (self s) → nd = name (this_node s) → ¬ runs_here s →
  st ∈ ["restart"; "shutdown"; "stop"] →
  ∃ s', Pvcnoded.manage_vm_state env cluster_domain (S fuel) s = (Return tt, s')
    ∧ libvirt (cluster s') = libvirt (cluster s)
    ∧ (st = "restart" →
       trace s' = trace s ++ [ZkWrite (state_key u) "start"]
       ∧ this_node s' = this_node s)
    ∧ (st ≠ "restart" →
       domain_list (this_node s') = list_remove u (domain_list (this_node s))
       ∧ state_untouched s s').
Proof.
  intros u st nd Hidle Hn Hnr Hst. apply wp_returns.
  cbn [Pvcnoded.manage_vm_state]. unfold Pvcnoded.manage_vm_state_body.
  wp_pure. sred. fold u st nd. apply wp_probe_running. intros run Hrun.
  wp_pure. sred. rewrite (idle_guard _ Hidle). bd_true.
  rewrite (bool_decide_eq_false_2 (run = _)) by (intros Hr; apply Hnr, Hrun, Hr).
  assert (Hcases : st = "restart" ∨ st = "shutdown" ∨ st = "stop").
  { repeat (apply elem_of_cons in Hst as [Hst|Hst]; [tauto|]).
    by apply not_elem_of_nil in Hst. }
  destruct Hcases as [E|[E|E]]; rewrite E;
    repeat (first [rewrite bool_decide_eq_true_2 by done
                  | rewrite bool_decide_eq_false_2 by done]);
    wp_pure; sred;
    repeat (first [rewrite bool_decide_eq_true_2 by done
                  | rewrite bool_decide_eq_false_2 by done]); wp_pure; sred.
  - split_and!; done.
  - destruct (removeDomainFromList_spec
                (upd_self (set_self_node nd) (upd_self (set_self_state "shutdown") s)))
      as (s' & Heq & Hself & _ & Hlist & Hlv & _ & Hu).
    eapply wp_eq; [exact Heq|]. wp_pure. sred.
    split_and!; [done|by rewrite Hlv|done|]. intros _. split; [exact Hlist|].
    eapply state_untouched_trans; [|by apply state_untouched_refl|].
    { done. }
    eapply state_untouched_trans; [|exact Hu|by apply state_untouched_refl].
    by rewrite Hself.
  - destruct (removeDomainFromList_spec
                (upd_self (set_self_node nd) (upd_self (set_self_state "stop") s)))
      as (s' & Heq & Hself & _ & Hlist & Hlv & _ & Hu).
    eapply wp_eq; [exact Heq|]. wp_pure. sred.
    split_and!; [done|by rewrite Hlv|done|]. intros _. split; [exact Hlist|].
    eapply state_untouched_trans; [|by apply state_untouched_refl|].
    { done. }
    eapply state_untouched_trans; [|exact Hu|by apply state_untouched_refl].
    by rewrite Hself.
Qed.

Lemma manage_vm_state_no_action_pvcnoded_witness :
  (default "" (zk (cluster disabled_domain) !! state_key "7c1f")
   ∉ handled_states)
  ∧ ∃ s', Pvcnoded.manage_vm_state (λ _ c, c) "cluster.local" 1 disabled_domain
          = (Return tt, s')
      ∧ trace s' = [].
Proof.
  assert (H1 : default "" (zk (cluster disabled_domain) !! state_key "7c1f")
               ∉ handled_states) by compute_done.
  split; [exact H1|].
  destruct (manage_vm_state_no_action_pvcnoded (λ _ c, c) "cluster.local" 0
              disabled_domain (or_introl (conj eq_refl H1)))
    as (s' & He & Ht & _).
  exists s'. split; [exact He|exact Ht].
Defined.

Lemma manage_vm_state_confirms_running_witness :
  idle (self stuck_in_migrate)
  ∧ ∃ s', Pvcnoded.manage_vm_state (λ _ c, c) "cluster.local" 1 stuck_in_migrate
          = (Return tt, s')
      ∧ trace s' = [ZkWrite (state_key "7c1f") "start";
                    ZkWrite (runningdomains_key "hv1") "7c1f"].
Proof.
  assert (H1 : idle (self stuck_in_migrate)) by (repeat split; reflexivity).
  split; [exact H1|].
  destruct (manage_vm_state_confirms_running (λ _ c, c) "cluster.local" 0
              stuck_in_migrate H1)
    as (s' & He & Ht & _);
    [vm_compute; reflexivity|reflexivity|vm_compute; reflexivity
    |right; vm_compute; reflexivity|].
  exists s'. split; [exact He|]. rewrite Ht. vm_compute. reflexivity.
Defined.

Lemma manage_vm_state_evicts_foreign_witness :
  idle (self disowned_state)
  ∧ ∃ s', Pvcnoded.manage_vm_state (λ _ c, c) "cluster.local" 1 disowned_state
          = (Return tt, s')
      ∧ libvirt (cluster s') !! "7c1f" = None.
Proof.
  assert (H1 : idle (self disowned_state)) by (repeat split; reflexivity).
  split; [exact H1|].
  destruct (manage_vm_state_evicts_foreign (λ _ c, c) "cluster.local" 0
              disowned_state H1)
    as (s' & He & (Hl & _) & _);
    [vm_compute; discriminate|reflexivity|vm_compute; reflexivity
    |vm_compute; discriminate|vm_compute; discriminate|].
  exists s'. split; [exact He|exact Hl].
Defined.

Lemma manage_vm_state_owner_not_running_witness :
  idle (self restart_of_stopped)
  ∧ ¬ runs_here restart_of_stopped
  ∧ ∃ s', Pvcnoded.manage_vm_state (λ _ c, c) "cluster.local" 1 restart_of_stopped
          = (Return tt, s')
      ∧ trace s' = [ZkWrite (state_key "7c1f") "start"].
Proof.
  assert (H1 : idle (self restart_of_stopped)) by (repeat split; reflexivity).
  assert (H2 : ¬ runs_here restart_of_stopped).
  { intros (u & _ & Hl). change ((∅ : gmap string virDomainState) !! u = Some VIR_DOMAIN_RUNNING) in Hl.
    by rewrite lookup_empty in Hl. }
  split; [exact H1|]. split; [exact H2|].
  destruct (manage_vm_state_owner_not_running (λ _ c, c) "cluster.local" 0
              restart_of_stopped H1)
    as (s' & He & _ & Ht & _);
    [vm_compute; reflexivity|exact H2|vm_compute; apply list_elem_of_here|].
  exists s'. split; [exact He|]. apply Ht. vm_compute. reflexivity.
Defined.

(** ** Receiving a migration *)

Lemma wp_pvcnoded_lookup (u : string) Q (s : State) :
  Q (Return None) s →
  (∀ st, libvirt (cluster s) !! u = Some st → Q (Return (Some (VirDomain u))) s) →
  wp (Pvcnoded.lookupByUUID u) Q s.
Proof.
  intros HN HS. unfold Pvcnoded.lookupByUUID. wp_pure.
  case_bool_decide; [by wp_pure|].
  destruct (libvirt_up (cluster s)); cbn [negb]; [|by wp_pure].
  destruct (libvirt (cluster s) !! u) as [st|] eqn:Hl; wp_pure; eauto.
Qed.

(** The first loop of [receive_migrate] ends within 91 rounds of one
    second, whatever the peers do. *)
Lemma pvcnoded_receive_wait (env : Z → Cluster → Cluster) (fuel : nat) (u : string) (s : State) :
  (91 < fuel)%nat →
  wp (while_true fuel (Pvcnoded.receive_round env u) 0%Z)
    (λ r s', (∃ b, r = Return b) ∧ (0 ≤ clock s' - clock s ≤ 91000)%Z) s.
Proof.
  intros Hfuel.
  apply (wp_while _ (λ tick, Z.to_nat (91 - tick))
           (λ tick s1, (0 ≤ tick ≤ 90)%Z ∧ clock s1 = (clock s + 1000 * tick)%Z)).
  - intros tick s1 (Ht & Hc). unfold Pvcnoded.receive_round. wp_pure. sred.
    set (st := default "" _). apply wp_pvcnoded_lookup.
    + wp_pure. destruct (_ || _); wp_pure; sred.
      { split; [by eexists|lia]. }
      case_bool_decide; wp_pure; sred.
      * split; [by eexists|lia].
      * split; [|lia]. lia.
    + intros lv Hlv. wp_pure. cbn [dom_state]. wp_pure. sred. rewrite Hlv.
      wp_pure. case_bool_decide.
      { wp_pure. apply wp_addDomainToList; sred; intros _; wp_pure; sred;
          (split; [by eexists|lia]). }
      case_bool_decide; wp_pure; sred.
      { split; [by eexists|lia]. }
      case_bool_decide; wp_pure; sred.
      * split; [by eexists|lia].
      * split; [|lia]. lia.
  - lia.
  - cbn. lia.
Qed.

(** The second loop ends within 121 rounds, plus the second it sleeps
    before asking for the cold start. *)
Lemma pvcnoded_fallback_wait (env : Z → Cluster → Cluster) (fuel : nat) (u : string) (s : State) :
  (121 < fuel)%nat →
  wp (while_true fuel (Pvcnoded.fallback_round env u) 0%Z)
    (λ r s', r = Return tt ∧ (0 ≤ clock s' - clock s ≤ 122000)%Z) s.
Proof.
  intros Hfuel.
  apply (wp_while _ (λ tick, Z.to_nat (121 - tick))
           (λ tick s1, (0 ≤ tick ≤ 120)%Z ∧ clock s1 = (clock s + 1000 * tick)%Z)).
  - intros tick s1 (Ht & Hc). unfold Pvcnoded.fallback_round. wp_pure. sred.
    case_bool_decide; wp_pure; sred.
    { split; [done|lia]. }
    case_bool_decide; wp_pure; sred.
    + split; [done|lia].
    + split; [|lia]. lia.
  - lia.
  - cbn. lia.
Qed.

(** X11. [receive_migrate] of pvcnoded always comes back: whatever the
    sender, the guests and the other nodes do, it returns after at most
    91 + 122 seconds of waiting, with [inreceive] lowered. *)
Theorem pvcnoded_receive_migrate_returns (env : Z → Cluster → Cluster)
    (fuel : nat) (s : State) :
  (121 < fuel)%nat →
  ∃ s', Pvcnoded.receive_migrate env fuel s = (Return tt, s')
    ∧ (0 ≤ clock s' - clock s ≤ 213000)%Z
    ∧ inreceive (self s') = false.
Proof.
  intros Hfuel. apply wp_returns.
  unfold Pvcnoded.receive_migrate. wp_pure. sred.
  eapply wp_mono; [apply pvcnoded_receive_wait; lia|].
  intros r s1 [[b ->] Hc1]. sred. wp_pure. destruct b; cbn [negb]; wp_pure.
  - sred. split_and!; [done|lia|lia|done].
  - eapply wp_mono; [apply pvcnoded_fallback_wait; lia|].
    intros r s2 [-> Hc2]. wp_pure. sred. split_and!; [done|lia|lia|done].
Qed.

Lemma pvcnoded_receive_migrate_returns_witness :
  (121 < 200)%nat
  ∧ ∃ s', Pvcnoded.receive_migrate delivered 200 awaiting_migration = (Return tt, s')
      ∧ (0 ≤ clock s' - clock awaiting_migration ≤ 213000)%Z.
Proof.
  assert (H : (121 < 200)%nat) by lia.
  split; [exact H|].
  destruct (pvcnoded_receive_migrate_returns delivered 200 awaiting_migration H)
    as (s' & He & Hc & _).
  exists s'. split; [exact He|exact Hc].
Defined.

(** X12. Arrival: when the first poll finds the domain running in the
    local driver, [receive_migrate] of pvcnoded takes the handle, lists the
    domain and writes ['start'] to the state key, one second after it was
    called. *)
Theorem pvcnoded_receive_migrate_arrival (env : Z → Cluster → Cluster)
    (fuel : nat) (s : State) :
  let u := domuuid (self s) in
  let c1 := env (clock s + 1000)%Z (cluster s) in
  self_node (self s) = name (this_node s) →
  libvirt_up c1 = true → libvirt c1 !! u = Some VIR_DOMAIN_RUNNING →
  ∃ s', Pvcnoded.receive_migrate env (S fuel) s = (Return tt, s')
    ∧ clock s' = (clock s + 1000)%Z
    ∧ trace s' = trace s ++ listing_write s ++ [ZkWrite (state_key u) "start"]
    ∧ self_dom (self s') = Some (VirDomain u)
    ∧ u ∈ domain_list (this_node s')
    ∧ zk (cluster s') !! state_key u = Some "start".
Proof.
  intros u c1 Hn Hup Hl. apply wp_returns.
  unfold Pvcnoded.receive_migrate. wp_pure. sred. fold u.
  cbn [while_true]. wp_pure. unfold Pvcnoded.receive_round. wp_pure. sred.
  fold c1. apply wp_pvcnoded_lookup_present; [by sred..|]. wp_pure.
  cbn [dom_state]. wp_pure. sred. fold c1. rewrite Hl. wp_pure. bd_true. wp_pure.
  unfold listing_write. fold u.
  apply wp_addDomainToList; sred; fold u; intros Hin; wp_pure; sred.
  - bd_true. split_and!; try done. by rewrite lookup_insert_eq.
  - bd_false. split_and!; try done.
    + by rewrite <- app_assoc.
    + apply elem_of_app. right. apply list_elem_of_here.
    + by rewrite lookup_insert_eq.
Qed.

Lemma pvcnoded_receive_migrate_arrival_witness :
  libvirt (delivered 1000 (cluster awaiting_migration)) !! "7c1f"
  = Some VIR_DOMAIN_RUNNING
  ∧ ∃ s', Pvcnoded.receive_migrate delivered 1 awaiting_migration = (Return tt, s')
      ∧ trace s' = [ZkWrite (runningdomains_key "hv2") "7c1f";
                    ZkWrite (state_key "7c1f") "start"].
Proof.
  assert (H : libvirt (delivered 1000 (cluster awaiting_migration)) !! "7c1f"
              = Some VIR_DOMAIN_RUNNING) by (vm_compute; reflexivity).
  split; [exact H|].
  destruct (pvcnoded_receive_migrate_arrival delivered 0 awaiting_migration
              eq_refl eq_refl H)
    as (s' & He & _ & Ht & _).
  exists s'. split; [exact He|]. rewrite Ht. vm_compute. reflexivity.
Defined.

Lemma while_true_S {S L R} (fuel : nat) (body : L → M S (L + R)) (l : L) :
  while_true (Datatypes.S fuel) body l
  = (r ← body l;
     match r with
     | inl l' => while_true fuel body l'
     | inr r => mret r
     end).
Proof. reflexivity. Qed.

(** X13. The cold-start fallback: the first poll finds no domain and the
    state at ['shutdown'] or ['stop'] (the sender has given up the live
    migration), and the next poll finds ['stop'].  [receive_migrate] of
    pvcnoded then waits one more second and asks for a cold start by
    writing ['start']; that is its only write. *)
Theorem pvcnoded_receive_migrate_cold_start (env : Z → Cluster → Cluster)
    (fuel : nat) (s : State) :
  let u := domuuid (self s) in
  let c1 := env (clock s + 1000)%Z (cluster s) in
  let c2 := env (clock s + 2000)%Z c1 in
  libvirt c1 !! u = None →
  default "" (zk c1 !! state_key u) ∈ ["shutdown"; "stop"] →
  zk c2 !! state_key u = Some "stop" →
  ∃ s', Pvcnoded.receive_migrate env (S fuel) s = (Return tt, s')
    ∧ clock s' = (clock s + 3000)%Z
    ∧ trace s' = trace s ++ [ZkWrite (state_key u) "start"]
    ∧ zk (cluster s') !! state_key u = Some "start".
Proof.
  intros u c1 c2 Hl Hst Hstop. apply wp_returns.
  unfold Pvcnoded.receive_migrate. wp_pure. sred. fold u.
  cbn [while_true]. wp_pure. unfold Pvcnoded.receive_round. wp_pure. sred.
  fold c1. apply wp_pvcnoded_lookup_absent; [by sred|]. wp_pure.
  assert (Hb : bool_decide (default "" (zk c1 !! state_key u) = "shutdown")
               || bool_decide (default "" (zk c1 !! state_key u) = "stop") = true).
  { apply elem_of_cons in Hst as [->|Hst]; [done|].
    apply list_elem_of_singleton in Hst as ->. done. }
  rewrite Hb. wp_pure. unfold Pvcnoded.fallback_round. wp_pure. sred.
  replace (clock s + 1000 + 1000)%Z with (clock s + 2000)%Z by lia.
  fold c1 c2. rewrite Hstop. cbn [default]. bd_true. wp_pure. sred.
  split_and!; [done|lia|done|by rewrite lookup_insert_eq].
Qed.

Lemma pvcnoded_receive_migrate_cold_start_witness :
  libvirt (sender_stopped 1000 (cluster awaiting_migration)) !! "7c1f" = None
  ∧ ∃ s', Pvcnoded.receive_migrate sender_stopped 1 awaiting_migration
          = (Return tt, s')
      ∧ trace s' = [ZkWrite (state_key "7c1f") "start"].
Proof.
  assert (H : libvirt (sender_stopped 1000 (cluster awaiting_migration)) !! "7c1f"
              = None) by (vm_compute; reflexivity).
  split; [exact H|].
  destruct (pvcnoded_receive_migrate_cold_start sender_stopped 0
              awaiting_migration H)
    as (s' & He & _ & Ht & _);
    [compute_done|vm_compute; reflexivity|].
  exists s'. split; [exact He|exact Ht].
Defined.

(** X14. When the sender's shutdown never completes, [receive_migrate]
    of pvcnoded leaves its first loop after one second, polls for another
    121 seconds and then reports the failure with both keys: ['fail'] in
    the state and the reason in [failedreason]. *)
Theorem pvcnoded_receive_migrate_fallback_timeout (env : Z → Cluster → Cluster)
    (fuel : nat) (s : State) :
  let u := domuuid (self s) in
  sender_hangs env u → libvirt (cluster s) !! u = None → (121 < fuel)%nat →
  ∃ s', Pvcnoded.receive_migrate env fuel s = (Return tt, s')
    ∧ clock s' = (clock s + 122000)%Z
    ∧ trace s'
      = trace s ++ [ZkWrite (state_key u) "fail";
                    ZkWrite (failedreason_key u)
                      "Timeout waiting for migrate or shutdown"]
    ∧ zk (cluster s') !! state_key u = Some "fail".
Proof.
  intros u Henv Hl Hfuel. apply wp_returns.
  unfold Pvcnoded.receive_migrate. wp_pure. sred. fold u.
  destruct fuel as [|fuel]; [lia|].
  rewrite (while_true_S fuel (Pvcnoded.receive_round env u)).
  set (loop2 := while_true (S fuel) (Pvcnoded.fallback_round env u) 0%Z).
  wp_pure. unfold Pvcnoded.receive_round. wp_pure. sred.
  destruct (Henv (clock s + 1000)%Z (cluster s) Hl) as [Hz1 Hl1].
  rewrite Hz1. cbn [default]. apply wp_pvcnoded_lookup_absent; [by sred|].
  wp_pure. rewrite (bool_decide_eq_true_2 ("shutdown" = "shutdown")) by done.
  cbn [orb]. wp_pure.
  set (s1 := upd_self _ _).
  assert (Hc1 : clock s1 = (clock s + 1000)%Z) by done.
  assert (Ht1 : trace s1 = trace s) by done.
  assert (Hl1' : libvirt (cluster s1) !! u = None) by exact Hl1.
  clearbody s1. subst loop2.
  apply (wp_while _ (λ tick, Z.to_nat (121 - tick))
    (λ tick s2, (0 ≤ tick ≤ 120)%Z ∧ clock s2 = (clock s1 + 1000 * tick)%Z
       ∧ trace s2 = trace s1 ∧ libvirt (cluster s2) !! u = None)).
  - intros tick s2 (Ht & Hc & Htr & Hl2). unfold Pvcnoded.fallback_round.
    wp_pure. sred.
    destruct (Henv (clock s2 + 1000)%Z (cluster s2) Hl2) as [Hz3 Hl3].
    rewrite Hz3. cbn [default].
    rewrite (bool_decide_eq_false_2 ("shutdown" = "stop")) by done.
    case_bool_decide as Hlate; wp_pure; sred.
    + split_and!; [done|lia| |by rewrite lookup_insert_ne, lookup_insert_eq
                                 by apply state_key_ne_failedreason].
      rewrite Htr, Ht1. by rewrite <- app_assoc.
    + split; [|lia]. split_and!; [lia|lia|lia|done..].
  - split_and!; [lia|lia|lia|done..].
  - cbn. lia.
Qed.

Lemma pvcnoded_receive_migrate_fallback_timeout_witness :
  sender_hangs sender_shutting_down "7c1f"
  ∧ ∃ s', Pvcnoded.receive_migrate sender_shutting_down 200 awaiting_migration
          = (Return tt, s')
      ∧ clock s' = 122000%Z.
Proof.
  assert (H : sender_hangs sender_shutting_down "7c1f").
  { intros t c Hl. split; [apply lookup_insert_eq|exact Hl]. }
  split; [exact H|].
  destruct (pvcnoded_receive_migrate_fallback_timeout sender_shutting_down 200
              awaiting_migration H)
    as (s' & He & Hc & _); [vm_compute; reflexivity|lia|].
  exists s'. split; [exact He|exact Hc].
Defined.

(** The loop of pvcvd's [receive_migrate] has no tick: while nothing
    arrives it is still going after any number of rounds. *)
Lemma pvcvd_receive_wait_unbounded (env : Z → Cluster → Cluster) (u : string)
    (fuel : nat) (s : State) :
  nothing_arrives env u →
  zk (cluster s) !! state_key u = Some "migrate" →
  libvirt (cluster s) !! u = None →
  wp (while_true fuel (Pvcvd.receive_round env u) tt)
    (λ r s', r = OutOfFuel ∧ trace s' = trace s
             ∧ clock s' = (clock s + 500 * Z.of_nat fuel)%Z
             ∧ inreceive (self s') = inreceive (self s)) s.
Proof.
  intros Henv. revert s. induction fuel as [|fuel IH]; intros s Hz Hl.
  - cbn [while_true]. unfold wp, out_of_fuel. cbn [fst snd].
    split_and!; [done..|lia|done].
  - rewrite while_true_S.
    set (loop := while_true fuel (Pvcvd.receive_round env u)).
    unfold Pvcvd.receive_round. wp_pure. sred.
    destruct (Henv (clock s + 500)%Z (cluster s) Hz Hl) as [Hz1 Hl1].
    rewrite Hz1. cbn [default]. apply wp_pvcvd_lookup_absent; [by sred|].
    wp_pure. rewrite (bool_decide_eq_true_2 (None = None)) by done.
    rewrite (bool_decide_eq_true_2 ("migrate" = "migrate")) by done.
    cbn [andb]. wp_step. wp_step. subst loop.
    eapply wp_mono; [apply IH; by sred|].
    intros r s' (-> & Ht & Hc & Hf). sred. split_and!; [done..|lia|done].
Qed.

(** X15. [receive_migrate] of pvcvd never gives up on its own: while the
    state stays ['migrate'] and the domain does not arrive, the call is
    still polling after any number of half-second rounds, and it has
    written nothing; the timeout of 90 seconds exists in pvcnoded only. *)
Theorem pvcvd_receive_migrate_never_times_out (env : Z → Cluster → Cluster)
    (fuel : nat) (s : State) :
  nothing_arrives env (domuuid (self s)) →
  zk (cluster s) !! state_key (domuuid (self s)) = Some "migrate" →
  libvirt (cluster s) !! domuuid (self s) = None →
  ∃ s', Pvcvd.receive_migrate env fuel s = (OutOfFuel, s')
    ∧ trace s' = trace s
    ∧ clock s' = (clock s + 500 * Z.of_nat fuel)%Z
    ∧ inreceive (self s') = true.
Proof.
  intros Henv Hz Hl.
  assert (H : wp (Pvcvd.receive_migrate env fuel)
    (λ r s', r = OutOfFuel ∧ trace s' = trace s
       ∧ clock s' = (clock s + 500 * Z.of_nat fuel)%Z
       ∧ inreceive (self s') = true) s).
  { unfold Pvcvd.receive_migrate. wp_pure. sred.
    eapply wp_mono; [apply pvcvd_receive_wait_unbounded; by sred|].
    intros r s' (-> & Ht & Hc & Hf). cbn [wp_cont]. sred. by split_and!. }
  unfold wp in H. destruct (Pvcvd.receive_migrate env fuel s) as [r s'].
  cbn [fst snd] in H. destruct H as (-> & H). by exists s'.
Qed.

Lemma pvcvd_receive_migrate_never_times_out_witness :
  nothing_arrives quiet "7c1f"
  ∧ ∃ s', Pvcvd.receive_migrate quiet 1000 awaiting_migration = (OutOfFuel, s')
      ∧ clock s' = 500000%Z.
Proof.
  assert (H : nothing_arrives quiet "7c1f").
  { intros t c Hz Hl. split; [exact Hz|exact Hl]. }
  split; [exact H|].
  destruct (pvcvd_receive_migrate_never_times_out quiet 1000 awaiting_migration H)
    as (s' & He & _ & Hc & _); [vm_compute; reflexivity..|].
  exists s'. split; [exact He|exact Hc].
Defined.

(** ** The live migration itself *)

(** X16. [live_migrate_vm] never raises and never half-fails.  In
    pvcnoded it answers [True] exactly when the migration can go through,
    and then the domain has gone to
    [qemu+tcp://<node>.<cluster_domain>/system] over the transport
    [tcp://<node>.<cluster_domain>]; in pvcvd it answers [0] in the same
    case, with the target [qemu+tcp://<node>/system] and no transport URI
    (its parameter [dest_hypervisor] is not used).  In every other case
    the answer is [False] (or [1]) and nothing has changed. *)
Theorem live_migrate_vm_outcome (cluster_domain dest_hypervisor : string)
    (s : State) :
  (∃ ok s', Pvcnoded.live_migrate_vm cluster_domain s = (Return ok, s')
     ∧ (ok = true ↔ can_migrate_live s)
     ∧ (ok = false → s' = s)
     ∧ (ok = true →
        migrated_to
          ("qemu+tcp://" +:+ self_node (self s) +:+ "." +:+ cluster_domain
             +:+ "/system")
          (Some ("tcp://" +:+ self_node (self s) +:+ "." +:+ cluster_domain))
          s s'))
  ∧ (∃ ret s', Pvcvd.live_migrate_vm dest_hypervisor s = (Return ret, s')
       ∧ (ret = 0%Z ∨ ret = 1%Z)
       ∧ (ret = 0%Z ↔ can_migrate_live s)
       ∧ (ret ≠ 0%Z → s' = s)
       ∧ (ret = 0%Z →
          migrated_to ("qemu+tcp://" +:+ self_node (self s) +:+ "/system") None
            s s')).
Proof.
  unfold can_migrate_live, migrated_to. split.
  - unfold Pvcnoded.live_migrate_vm. mred.
    destruct (dest_up (cluster s)); cbn [negb].
    2:{ exists false, s. split_and!; [done| |done|done].
        split; [done|]. by intros [? _]. }
    destruct (self_dom (self s)) as [[u]|]; cbn [dom_migrate]; mred.
    2:{ exists false, s. split_and!; [done| |done|done].
        split; [done|]. by intros (_ & _ & u & [=] & _). }
    destruct (libvirt (cluster s) !! u) as [st|] eqn:Hl; mred.
    2:{ exists false, s. split_and!; [done| |done|done].
        split; [done|]. intros (_ & _ & u' & [= <-] & Hs).
        rewrite Hl in Hs. by destruct Hs. }
    destruct (migrate_ok (cluster s)); mred.
    + eexists true, _. split_and!; [done| |done|].
      * split; [|done]. intros _. split_and!; [done..|]. exists u. by rewrite Hl.
      * intros _. by exists u.
    + exists false, s. split_and!; [done| |done|done].
      split; [done|]. by intros (_ & ? & _).
  - unfold Pvcvd.live_migrate_vm. mred.
    destruct (dest_up (cluster s)); cbn [negb].
    2:{ exists 1%Z, s. split_and!; [done|by right| |done|done].
        split; [done|]. by intros [? _]. }
    destruct (self_dom (self s)) as [[u]|]; cbn [dom_migrate]; mred.
    2:{ exists 1%Z, s. split_and!; [done|by right| |done|done].
        split; [done|]. by intros (_ & _ & u & [=] & _). }
    destruct (libvirt (cluster s) !! u) as [st|] eqn:Hl; mred.
    2:{ exists 1%Z, s. split_and!; [done|by right| |done|done].
        split; [done|]. intros (_ & _ & u' & [= <-] & Hs).
        rewrite Hl in Hs. by destruct Hs. }
    destruct (migrate_ok (cluster s)); mred.
    + eexists 0%Z, _. split_and!; [done|by left| |done|].
      * split; [|done]. intros _. split_and!; [done..|]. exists u. by rewrite Hl.
      * intros _. by exists u.
    + exists 1%Z, s. split_and!; [done|by right| |done|done].
      split; [done|]. by intros (_ & ? & _).
Qed.

(** ** More on the flush of a node *)

Lemma select_target_rejects_str {S} (node_list : list NodeSupervisor.NodeInstance)
    (least_mem : NodeSupervisor.pyval) (least_host : string) (q : Q) (s : S) :
  NodeSupervisor.num_of least_mem = Some q →
  (∃ n x, n ∈ node_list ∧ NodeSupervisor.memfree n = NodeSupervisor.PyStr x) →
  NodeSupervisor.select_target node_list least_mem least_host s
  = (Raise TypeError, s).
Proof.
  revert least_mem least_host q.
  induction node_list as [|node rest IH]; intros least_mem least_host q Hq
    (n & x & Hin & Hx).
  { by apply not_elem_of_nil in Hin. }
  cbn [NodeSupervisor.select_target]. unfold NodeSupervisor.getfreemem.
  destruct (NodeSupervisor.memfree node) as [z|p|y] eqn:Hm.
  - unfold NodeSupervisor.py_lt. cbn [NodeSupervisor.num_of]. rewrite Hq.
    destruct least_mem; try discriminate; unfold mbind, M_bind, mret, M_ret;
      (destruct (negb _);
       [eapply (IH _ _ (inject_Z z)); [done|]
       |eapply (IH _ _ q); [done|]]);
      apply elem_of_cons in Hin as [->|Hin]; try congruence; by exists n, x.
  - unfold NodeSupervisor.py_lt. cbn [NodeSupervisor.num_of]. rewrite Hq.
    destruct least_mem; try discriminate; unfold mbind, M_bind, mret, M_ret;
      (destruct (negb _);
       [eapply (IH _ _ p); [done|]
       |eapply (IH _ _ q); [done|]]);
      apply elem_of_cons in Hin as [->|Hin]; try congruence; by exists n, x.
  - unfold NodeSupervisor.py_lt. destruct least_mem; try discriminate; done.
Qed.

(** X17. The free memory of a node that is watched through the store is
    the decoded text of its [memfree] key, a [str].  With such a node among
    the candidates (the name [node_list] bound to them) the comparison [node_freemem < least_mem] raises
    [TypeError] for the first domain of the list, before anything has been
    written to the store. *)
Theorem flush_str_memfree_raises (node_list : list NodeSupervisor.NodeInstance)
    (self : NodeSupervisor.NodeInstance) (st : NodeSupervisor.Store) :
  NodeSupervisor.domainlist self ≠ [] →
  (∃ n x, n ∈ node_list ∧ NodeSupervisor.memfree n = NodeSupervisor.PyStr x) →
  NodeSupervisor.flush (Some node_list) self st = (Raise TypeError, st).
Proof.
  intros Hd Hstr. unfold NodeSupervisor.flush.
  destruct (NodeSupervisor.domainlist self) as [|d ds]; [done|].
  cbn [for_each]. unfold mbind, M_bind, mret, M_ret. cbv beta iota.
  by rewrite (select_target_rejects_str node_list NodeSupervisor.least_mem_init
                "" _ st eq_refl Hstr).
Qed.

Lemma flush_str_memfree_raises_witness :
  NodeSupervisor.domainlist flushed_node ≠ []
  ∧ NodeSupervisor.flush (Some watched_candidates) flushed_node flush_store
    = (Raise TypeError, flush_store).
Proof.
  assert (H1 : NodeSupervisor.domainlist flushed_node ≠ []) by discriminate.
  split; [exact H1|].
  apply (flush_str_memfree_raises watched_candidates flushed_node flush_store H1).
  exists (NodeSupervisor.mkNodeInstance "hv2" (NodeSupervisor.PyStr "4294967296") []),
    "4294967296".
  split; [apply list_elem_of_here|reflexivity].
Defined.

(** The selection loop does not look at the store. *)
Lemma select_target_pure {S} (node_list : list NodeSupervisor.NodeInstance)
    (least_mem : NodeSupervisor.pyval) (least_host : string) (s1 s2 : S)
    (r : outcome (NodeSupervisor.pyval * string)) :
  NodeSupervisor.select_target node_list least_mem least_host s1 = (r, s1) →
  NodeSupervisor.select_target node_list least_mem least_host s2 = (r, s2).
Proof.
  revert least_mem least_host.
  induction node_list as [|node rest IH]; intros least_mem least_host.
  { cbn. by intros [= <-]. }
  cbn [NodeSupervisor.select_target]. unfold mbind, M_bind.
  assert (Hlt : ∃ o, ∀ s : S,
    NodeSupervisor.py_lt (NodeSupervisor.getfreemem node) least_mem s = (o, s)).
  { unfold NodeSupervisor.py_lt.
    destruct (NodeSupervisor.getfreemem node), least_mem; cbn; by eexists. }
  destruct Hlt as [o Hlt]. rewrite !Hlt.
  destruct o as [[]|e|]; [apply IH|apply IH|by intros [= <-]..].
Qed.

Lemma state_path_ne_hypervisor_path (d : string) :
  state_path d ≠ hypervisor_path d.
Proof.
  unfold state_path, hypervisor_path. intros H.
  apply (inj (String.append _)) in H. apply (inj (String.append _)) in H.
  discriminate.
Qed.

Lemma flush_loop_one_host (node_list : list NodeSupervisor.NodeInstance)
    (h : string) (m : NodeSupervisor.pyval) (ds : list string)
    (st : NodeSupervisor.Store) :
  (∀ s : NodeSupervisor.Store,
     NodeSupervisor.select_target node_list NodeSupervisor.least_mem_init "" s
     = (Return (m, h), s)) →
  (∀ d, d ∈ ds →
     is_Some (NodeSupervisor.zk st !! state_path d)
     ∧ is_Some (NodeSupervisor.zk st !! hypervisor_path d)) →
  ∃ st',
    for_each ds (λ domain,
      let least_mem := NodeSupervisor.least_mem_init in
      let least_host := "" in
      node_list ← mret node_list;
      r ← NodeSupervisor.select_target node_list least_mem least_host;
      let least_host := r.2 in
      NodeSupervisor.zk_set ("/domains/" +:+ domain +:+ "/state") "flush";;
      NodeSupervisor.zk_set ("/domains/" +:+ domain +:+ "/hypervisor") least_host)
      st
    = (Return tt, st')
    ∧ NodeSupervisor.sets st'
      = NodeSupervisor.sets st
        ++ flat_map (λ d, [(state_path d, "flush"); (hypervisor_path d, h)]) ds.
Proof.
  intros Hsel. revert st. induction ds as [|d ds IH]; intros st Hkeys.
  { exists st. cbn. by rewrite app_nil_r. }
  destruct (Hkeys d) as [[v1 Hv1] [v2 Hv2]]; [apply list_elem_of_here|].
  cbn [for_each]. unfold mbind, M_bind, mret, M_ret. cbv beta iota zeta.
  rewrite Hsel. unfold NodeSupervisor.zk_set at 1. unfold mbind, M_bind, get, modify.
  fold (state_path d). rewrite Hv1. cbn [snd].
  unfold NodeSupervisor.zk_set at 1. unfold mbind, M_bind, get, modify.
  cbn [NodeSupervisor.zk NodeSupervisor.sets]. fold (hypervisor_path d).
  rewrite lookup_insert_ne by apply state_path_ne_hypervisor_path. rewrite Hv2.
  set (st1 := NodeSupervisor.mkStore _ _).
  destruct (IH st1) as (st' & Heq & Hsets).
  { intros d' Hd'. destruct (Hkeys d') as [H1 H2]; [by apply list_elem_of_further|].
    subst st1. cbn [NodeSupervisor.zk].
    split; repeat (apply lookup_insert_is_Some'; right); done. }
  exists st'. split.
  - unfold mbind, M_bind, mret, M_ret in Heq. exact Heq.
  - rewrite Hsets. subst st1. cbn [NodeSupervisor.sets flat_map].
    by rewrite <- !app_assoc.
Qed.

(** X18. Every domain of a flushed node is sent to one and the same
    host: the target is computed afresh for each domain, but from the same
    data, so the store receives for each domain in turn the state
    ['flush'] and the same host name.  (The name [node_list] is bound to
    the candidates, they report their free memory as integers, and both
    keys of every domain exist.) *)
Theorem flush_sends_all_to_one_host
    (node_list : list NodeSupervisor.NodeInstance)
    (self : NodeSupervisor.NodeInstance) (st : NodeSupervisor.Store) :
  Forall (λ n, ∃ z, NodeSupervisor.memfree n = NodeSupervisor.PyInt z) node_list →
  (∀ d, d ∈ NodeSupervisor.domainlist self →
     is_Some (NodeSupervisor.zk st !! state_path d)
     ∧ is_Some (NodeSupervisor.zk st !! hypervisor_path d)) →
  ∃ h st',
    NodeSupervisor.flush (Some node_list) self st = (Return tt, st')
    ∧ NodeSupervisor.sets st'
      = NodeSupervisor.sets st
        ++ flat_map (λ d, [(state_path d, "flush"); (hypervisor_path d, h)])
             (NodeSupervisor.domainlist self).
Proof.
  intros Hint Hkeys.
  destruct (flush_selects_least_free node_list st Hint) as (m & h & Hsel & _).
  exists h. unfold NodeSupervisor.flush.
  apply (flush_loop_one_host node_list h m); [|exact Hkeys].
  intros s. by apply (select_target_pure _ _ _ st s).
Qed.

(** X19. The two [zk.set] calls of [flush] are not one transaction: when
    the [hypervisor] key of the first domain does not exist, the state of
    that domain has already been set to ['flush'] when [NoNodeError] ends
    the flush, and no target has been recorded. *)
Theorem flush_missing_hypervisor_key
    (node_list : list NodeSupervisor.NodeInstance)
    (self : NodeSupervisor.NodeInstance) (st : NodeSupervisor.Store)
    (d : string) (ds : list string) :
  NodeSupervisor.domainlist self = d :: ds →
  Forall (λ n, ∃ z, NodeSupervisor.memfree n = NodeSupervisor.PyInt z) node_list →
  is_Some (NodeSupervisor.zk st !! state_path d) →
  NodeSupervisor.zk st !! hypervisor_path d = None →
  ∃ st',
    NodeSupervisor.flush (Some node_list) self st = (Raise NoNodeError, st')
    ∧ NodeSupervisor.sets st' = NodeSupervisor.sets st ++ [(state_path d, "flush")]
    ∧ NodeSupervisor.zk st' !! state_path d = Some "flush"
    ∧ NodeSupervisor.zk st' !! hypervisor_path d = None.
Proof.
  intros Hd Hint [v Hv] Hnone.
  destruct (flush_selects_least_free node_list st Hint) as (m & h & Hsel & _).
  unfold NodeSupervisor.flush. rewrite Hd.
  cbn [for_each]. unfold mbind, M_bind, mret, M_ret. cbv beta iota zeta.
  rewrite Hsel. unfold NodeSupervisor.zk_set at 1. unfold mbind, M_bind, get, modify.
  fold (state_path d). rewrite Hv. cbn [snd].
  unfold NodeSupervisor.zk_set at 1. unfold mbind, M_bind, get, modify, raise.
  cbn [NodeSupervisor.zk NodeSupervisor.sets]. fold (hypervisor_path d).
  rewrite lookup_insert_ne by apply state_path_ne_hypervisor_path. rewrite Hnone.
  eexists. split; [reflexivity|]. cbn [NodeSupervisor.zk NodeSupervisor.sets].
  split_and!; [done|by rewrite lookup_insert_eq|].
  by rewrite lookup_insert_ne by apply state_path_ne_hypervisor_path.
Qed.

Lemma flush_sends_all_to_one_host_witness :
  Forall (λ n, ∃ z, NodeSupervisor.memfree n = NodeSupervisor.PyInt z)
    starved_candidates
  ∧ ∃ h st',
      NodeSupervisor.flush (Some starved_candidates) node_with_two_domains
        store_of_two_domains
      = (Return tt, st')
      ∧ NodeSupervisor.sets st'
        = [(state_path "7c1f", "flush"); (hypervisor_path "7c1f", h);
           (state_path "3d2a", "flush"); (hypervisor_path "3d2a", h)].
Proof.
  assert (H1 : Forall (λ n, ∃ z, NodeSupervisor.memfree n = NodeSupervisor.PyInt z)
                 starved_candidates).
  { repeat constructor; by eexists. }
  assert (H2 : ∀ d, d ∈ NodeSupervisor.domainlist node_with_two_domains →
     is_Some (NodeSupervisor.zk store_of_two_domains !! state_path d)
     ∧ is_Some (NodeSupervisor.zk store_of_two_domains !! hypervisor_path d)).
  { intros d Hd. apply elem_of_cons in Hd as [->|Hd].
    { split; vm_compute; by eexists. }
    apply list_elem_of_singleton in Hd as ->.
    split; vm_compute; by eexists. }
  split; [exact H1|].
  destruct (flush_sends_all_to_one_host starved_candidates node_with_two_domains
              store_of_two_domains H1 H2) as (h & st' & He & Hs).
  exists h, st'. split; [exact He|exact Hs].
Defined.

(** On these candidates the host is [hv3], the one with the least free
    memory, for both domains. *)
Example flush_two_domains_sets :
  NodeSupervisor.sets
    (NodeSupervisor.flush (Some starved_candidates) node_with_two_domains
       store_of_two_domains).2
  = [("/domains/7c1f/state", "flush"); ("/domains/7c1f/hypervisor", "hv3");
     ("/domains/3d2a/state", "flush"); ("/domains/3d2a/hypervisor", "hv3")].
Proof. vm_compute. reflexivity. Qed.

Lemma flush_missing_hypervisor_key_witness :
  NodeSupervisor.zk flush_store_without_target !! hypervisor_path "7c1f" = None
  ∧ ∃ st',
      NodeSupervisor.flush (Some starved_candidates) flushed_node
        flush_store_without_target
      = (Raise NoNodeError, st')
      ∧ NodeSupervisor.zk st' !! state_path "7c1f" = Some "flush".
Proof.
  assert (H1 : Forall (λ n, ∃ z, NodeSupervisor.memfree n = NodeSupervisor.PyInt z)
                 starved_candidates).
  { repeat constructor; by eexists. }
  assert (H2 : is_Some (NodeSupervisor.zk flush_store_without_target
                          !! state_path "7c1f")).
  { vm_compute. by eexists. }
  assert (H3 : NodeSupervisor.zk flush_store_without_target
               !! hypervisor_path "7c1f" = None) by (vm_compute; reflexivity).
  split; [exact H3|].
  destruct (flush_missing_hypervisor_key starved_candidates flushed_node
              flush_store_without_target "7c1f" [] eq_refl H1 H2 H3)
    as (st' & He & _ & Hz & _).
  exists st'. split; [exact He|exact Hz].
Defined.

(** ** More on the command queue *)

Lemma os_only_refl (s : State) : os_only s s.
Proof.
  exists []. rewrite app_nil_r. split_and!; try done.
  intros e He. by apply not_elem_of_nil in He.
Qed.

Lemma os_only_trans (s1 s2 s3 : State) :
  os_only s1 s2 → os_only s2 s3 → os_only s1 s3.
Proof.
  intros (e1 & Ht1 & Ho1 & Hc1 & Hn1 & Hk1) (e2 & Ht2 & Ho2 & Hc2 & Hn2 & Hk2).
  exists (e1 ++ e2). split_and!; try congruence.
  - by rewrite Ht2, Ht1, app_assoc.
  - intros e [He|He]%elem_of_app; auto.
Qed.

Lemma os_only_log (c : string) (s : State) : os_only s (log (OsCommand c) s).
Proof.
  exists [OsCommand c]. split_and!; try done.
  intros e He. apply list_elem_of_singleton in He as ->. by eexists.
Qed.

Section command_queue.
Variable env : Z → Cluster → Cluster.
Variable os_reply : list event → string → Z * string * string.
Variable json_loads : string → option json.
Variable py_str : json → string.

Lemma free_lock_os_only (rbd : string) (item : string * json) (s : State) :
  os_only s (CommandQueue.free_lock os_reply py_str rbd item s).2.
Proof.
  unfold CommandQueue.free_lock, subscript, CommandQueue.run_os_command.
  destruct item.2 as [| | | | |l]; mred; try apply os_only_refl.
  destruct (list_find _ l) as [[i kv]|]; mred; [|apply os_only_refl].
  apply os_only_log.
Qed.

Lemma for_each_os_only {A} (body : A → M State unit) (l : list A) (s : State) :
  (∀ a s, os_only s (body a s).2) → os_only s (for_each l body s).2.
Proof.
  intros Hbody. revert s. induction l as [|a l IH]; intros s.
  { apply os_only_refl. }
  cbn [for_each]. unfold mbind, M_bind. specialize (Hbody a s).
  destruct (body a s) as [[[]|e|] s1]; cbn [snd] in *; [|done..].
  eapply os_only_trans; [exact Hbody|apply IH].
Qed.

Lemma flush_volume_os_only (rbd : string) (s : State) :
  os_only s (CommandQueue.flush_volume os_reply json_loads py_str rbd s).2.
Proof.
  unfold CommandQueue.flush_volume, CommandQueue.run_os_command. mred.
  destruct (os_reply (trace s) _) as [[rc out] err]. mred.
  case_bool_decide; mred; [apply os_only_log|].
  destruct (json_loads out) as [ll|]; mred; [|apply os_only_log].
  destruct (truthy ll); mred; [|apply os_only_log].
  unfold items. destruct ll; mred; try apply os_only_log.
  eapply os_only_trans; [apply os_only_log|].
  apply for_each_os_only. intros a s'. apply free_lock_os_only.
Qed.

Lemma flush_locks_os_only (dom_uuid : string) (s : State) :
  os_only s (CommandQueue.flush_locks os_reply json_loads py_str dom_uuid s).2.
Proof.
  unfold CommandQueue.flush_locks. mred.
  assert (H := for_each_os_only
                 (CommandQueue.flush_volume os_reply json_loads py_str)
                 (str_split_on "," (default "" (zk (cluster s) !! rbdlist_key dom_uuid)))
                 s flush_volume_os_only).
  destruct (for_each _ _ s) as [[[]|e|] s1]; exact H.
Qed.
End command_queue.

(** X20. The command handler never reports a failure.  Whatever the
    request, the volumes and the decoder do, the only write that
    [run_command] can make is ['success-<request>'] to [/cmd/domains]:
    [flush_locks] has no path that returns [False], so the branch that
    writes ['failure-<request>'] cannot be taken, and when [flush_locks]
    raises nothing is written at all. *)
Theorem run_command_never_reports_failure
    (env : Z → Cluster → Cluster)
    (os_reply : list event → string → Z * string * string)
    (json_loads : string → option json) (py_str : json → string)
    (data : string) (s : State) :
  ∃ evs,
    trace (CommandQueue.run_command env os_reply json_loads py_str data s).2
    = trace s ++ evs
    ∧ ∀ k v, ZkWrite k v ∈ evs → k = "/cmd/domains" ∧ v = "success-" +:+ data.
Proof.
  assert (Hnil : ∃ evs, trace s = trace s ++ evs
    ∧ ∀ k v, ZkWrite k v ∈ evs → k = "/cmd/domains" ∧ v = "success-" +:+ data).
  { exists []. rewrite app_nil_r. split; [done|].
    intros k v H. by apply not_elem_of_nil in H. }
  unfold CommandQueue.run_command.
  destruct (str_split data) as [|command [|args [|]]]; try exact Hnil.
  case_bool_decide; [|exact Hnil]. mred.
  case_bool_decide; [|exact Hnil]. mred.
  assert (Hfl := flush_locks_os_only os_reply json_loads py_str args s).
  assert (Hr := flush_locks_never_false os_reply json_loads py_str args s).
  destruct (CommandQueue.flush_locks _ _ _ args s) as [[r|e|] s1];
    cbn [snd] in Hfl; destruct Hfl as (evs & Ht & Hos & _).
  - rewrite (Hr s1 r eq_refl). mred.
    exists (evs ++ [ZkWrite "/cmd/domains" ("success-" +:+ data)]).
    split; [by rewrite Ht, app_assoc|].
    intros k v [Hin|Hin]%elem_of_app.
    + destruct (Hos _ Hin) as [c [=]].
    + apply list_elem_of_singleton in Hin. by injection Hin as -> ->.
  - exists evs. split; [done|]. intros k v Hin. destruct (Hos _ Hin) as [c [=]].
  - exists evs. split; [done|]. intros k v Hin. destruct (Hos _ Hin) as [c [=]].
Qed.

(** X21. Requests that are not for this handler are dropped.  Unless
    the request is [flush_locks <uuid>] and the node is the primary,
    [run_command] does nothing at all: it returns when the request has two
    words, and the unpacking fails with [ValueError] when it has any other
    number of words. *)
Theorem run_command_ignores
    (env : Z → Cluster → Cluster)
    (os_reply : list event → string → Z * string * string)
    (json_loads : string → option json) (py_str : json → string)
    (data : string) (s : State) :
  (∀ args, str_split data ≠ ["flush_locks"; args])
  ∨ router_state (this_node s) ≠ "primary" →
  CommandQueue.run_command env os_reply json_loads py_str data s
  = (if bool_decide (length (str_split data) = 2%nat)
     then Return tt else Raise ValueError, s).
Proof.
  intros Hcase. unfold CommandQueue.run_command.
  destruct (str_split data) as [|command [|args [|x l]]]; cbn [length];
    try (rewrite bool_decide_eq_false_2 by lia; done).
  rewrite (bool_decide_eq_true_2 (2 = 2)%nat) by done.
  case_bool_decide as Hc; [|done]. mred.
  case_bool_decide as Hp; [|done].
  destruct Hcase as [Hcase|Hcase]; [|done]. subst command. by destruct (Hcase args).
Qed.

Example run_command_splits_at_separators :
  str_split fs_separated_request = ["flush_locks"; "7c1f"]
  ∧ trace (CommandQueue.run_command quiet unlocked_reply toy_json_loads
             toy_py_str fs_separated_request primary_with_unlocked_volumes).2
    = [OsCommand "rbd lock list --format json vms/7c1f_disk0";
       OsCommand "rbd lock list --format json vms/7c1f_disk1";
       ZkWrite "/cmd/domains" ("success-" +:+ fs_separated_request)].
Proof. split; vm_compute; reflexivity. Qed.

Lemma run_command_ignores_witness :
  router_state (this_node awaiting_migration) ≠ "primary"
  ∧ CommandQueue.run_command quiet unlocked_reply toy_json_loads toy_py_str
      fs_separated_request awaiting_migration
    = (Return tt, awaiting_migration)
  ∧ CommandQueue.run_command quiet unlocked_reply toy_json_loads toy_py_str
      "flush_locks" awaiting_migration
    = (Raise ValueError, awaiting_migration).
Proof.
  assert (H : router_state (this_node awaiting_migration) ≠ "primary")
    by discriminate.
  split; [exact H|]. split.
  - rewrite (run_command_ignores quiet unlocked_reply toy_json_loads toy_py_str
               fs_separated_request awaiting_migration (or_intror H)).
    reflexivity.
  - rewrite (run_command_ignores quiet unlocked_reply toy_json_loads toy_py_str
               "flush_locks" awaiting_migration (or_intror H)).
    reflexivity.
Defined.

(** ** More on the process runner and the network controller *)

Lemma split_words_some (w : string) (s : string) : split_words (Some w) s ≠ [].
Proof.
  revert w. induction s as [|a r IH]; intros w; cbn [split_words]; [done|].
  destruct (is_space a); [done|apply IH].
Qed.

(** A command that begins with a character other than white space has a
    first word. *)
Lemma str_split_nonempty (a : ascii) (p t : string) :
  is_space a = false → str_split (String a p +:+ t) ≠ [].
Proof.
  intros Ha. change (String a p +:+ t) with (String a (p +:+ t)).
  unfold str_split. cbn [split_words]. rewrite Ha. apply split_words_some.
Qed.

(** X22. A program that cannot be started: in the background
    [run_os_command] still answers 0, the error staying in the thread; in
    the foreground, and in [run_os_daemon], the [OSError] of [Popen]
    reaches the caller.  In no case is a process recorded. *)
Theorem run_os_command_cannot_start (o : Common.OS) (command_string : string)
    (environment : option (list (string * string))) :
  str_split command_string ≠ [] →
  Common.program_exit o (str_split command_string) = None →
  Common.run_os_command command_string true environment o = (Return (Some 0%Z), o)
  ∧ Common.run_os_command command_string false environment o = (Raise OSError, o)
  ∧ Common.run_os_daemon command_string environment o = (Raise OSError, o).
Proof.
  intros Hne Hno.
  unfold Common.run_os_command, Common.run_os_daemon, Common.thread_start,
    Common.subprocess_Popen.
  destruct (str_split command_string) as [|prog argv]; [done|].
  munfold. by rewrite Hno.
Qed.

Lemma run_os_command_cannot_start_witness :
  str_split "/usr/sbin/dnsmasq --keep-in-foreground" ≠ []
  ∧ Common.program_exit host_without_dnsmasq
      (str_split "/usr/sbin/dnsmasq --keep-in-foreground") = None
  ∧ Common.run_os_command "/usr/sbin/dnsmasq --keep-in-foreground" true None
      host_without_dnsmasq
    = (Return (Some 0%Z), host_without_dnsmasq)
  ∧ Common.run_os_command "/usr/sbin/dnsmasq --keep-in-foreground" false None
      host_without_dnsmasq
    = (Raise OSError, host_without_dnsmasq)
  ∧ Common.run_os_daemon "/usr/sbin/dnsmasq --keep-in-foreground" None
      host_without_dnsmasq
    = (Raise OSError, host_without_dnsmasq).
Proof.
  assert (H1 : str_split "/usr/sbin/dnsmasq --keep-in-foreground" ≠ [])
    by (vm_compute; discriminate).
  assert (H2 : Common.program_exit host_without_dnsmasq
                 (str_split "/usr/sbin/dnsmasq --keep-in-foreground") = None)
    by (vm_compute; reflexivity).
  split; [exact H1|]. split; [exact H2|].
  exact (run_os_command_cannot_start host_without_dnsmasq
           "/usr/sbin/dnsmasq --keep-in-foreground" None H1 H2).
Defined.

(** An empty command (no word at all) fails earlier: [Popen] raises
    [IndexError] on the empty list, whatever the host; in the background
    the answer is 0 all the same. *)
Lemma run_os_command_empty (o : Common.OS) (command_string : string)
    (environment : option (list (string * string))) :
  str_split command_string = [] →
  Common.run_os_command command_string true environment o = (Return (Some 0%Z), o)
  ∧ Common.run_os_command command_string false environment o
    = (Raise IndexError, o)
  ∧ Common.run_os_daemon command_string environment o = (Raise IndexError, o).
Proof.
  intros He.
  unfold Common.run_os_command, Common.run_os_daemon, Common.thread_start,
    Common.subprocess_Popen.
  by rewrite He.
Qed.

Lemma commands_run_nil (s : VXNetwork.State) : commands_run [] s s.
Proof. unfold commands_run. cbn. by rewrite app_nil_r. Qed.

Lemma commands_run_app (c1 c2 : list string) (s1 s2 s3 : VXNetwork.State) :
  commands_run c1 s1 s2 → commands_run c2 s2 s3 → commands_run (c1 ++ c2) s1 s3.
Proof.
  intros (Ha1 & Hb1 & Hc1 & Hd1) (Ha2 & Hb2 & Hc2 & Hd2).
  unfold commands_run. rewrite Ha2, Hb2, Hc2, Hd2, Hd1, fmap_app.
  by rewrite <- app_assoc.
Qed.

Lemma os_command_runs (command_string : string) (s : VXNetwork.State) :
  str_split command_string ≠ [] →
  startable (VXNetwork.os s) command_string →
  ∃ s', VXNetwork.os_command command_string s = (Return tt, s')
        ∧ commands_run [command_string] s s'.
Proof.
  intros Hne [x Hx]. unfold VXNetwork.os_command, VXNetwork.lift_os,
    Common.run_os_command, Common.subprocess_Popen.
  destruct (str_split command_string) as [|prog argv] eqn:Hsp; [done|].
  munfold. rewrite Hx. eexists. split; [reflexivity|].
  unfold commands_run. cbn. by rewrite Hsp.
Qed.

Lemma background_command_runs (command_string : string) (s : VXNetwork.State) :
  str_split command_string ≠ [] →
  startable (VXNetwork.os s) command_string →
  ∃ s', VXNetwork.lift_os (Common.run_os_command command_string true None) s
        = (Return (Some 0%Z), s')
        ∧ commands_run [command_string] s s'.
Proof.
  intros Hne [x Hx]. unfold VXNetwork.lift_os, Common.run_os_command,
    Common.thread_start, Common.subprocess_Popen.
  destruct (str_split command_string) as [|prog argv] eqn:Hsp; [done|].
  munfold. rewrite Hx. eexists. split; [reflexivity|].
  unfold commands_run. cbn. by rewrite Hsp.
Qed.

Lemma foreground_command_runs (command_string : string) (s : VXNetwork.State) :
  str_split command_string ≠ [] →
  startable (VXNetwork.os s) command_string →
  ∃ s', VXNetwork.lift_os (Common.run_os_command command_string false None) s
        = (Return None, s')
        ∧ commands_run [command_string] s s'.
Proof.
  intros Hne [x Hx]. unfold VXNetwork.lift_os, Common.run_os_command,
    Common.subprocess_Popen.
  destruct (str_split command_string) as [|prog argv] eqn:Hsp; [done|].
  munfold. rewrite Hx. eexists. split; [reflexivity|].
  unfold commands_run. cbn. by rewrite Hsp.
Qed.

(** X23. On the primary, with [PVCRD_CONFIG_FILE] missing from the
    environment of the daemon, [startDHCPServer] fails with [KeyError]
    after it has created the hosts directory: dnsmasq is not started and
    the controller holds no daemon handle it did not hold before. *)
Theorem startDHCPServer_without_config (s : VXNetwork.State) :
  VXNetwork.network_state (VXNetwork.self s) = "primary" →
  VXNetwork.environ s !! "PVCRD_CONFIG_FILE" = None →
  startable (VXNetwork.os s)
    ("/bin/mkdir --parents " +:+ VXNetwork.dnsmasq_hostsdir (VXNetwork.self s)) →
  ∃ s', VXNetwork.startDHCPServer s = (Raise KeyError, s')
    ∧ commands_run
        ["/bin/mkdir --parents " +:+ VXNetwork.dnsmasq_hostsdir (VXNetwork.self s)]
        s s'.
Proof.
  intros Hp Henv Hst.
  destruct (foreground_command_runs
              ("/bin/mkdir --parents "
               +:+ VXNetwork.dnsmasq_hostsdir (VXNetwork.self s)) s)
    as (s1 & He & Hr);
    [apply str_split_nonempty; reflexivity|exact Hst|].
  exists s1. split; [|exact Hr].
  unfold VXNetwork.startDHCPServer, VXNetwork.getnetworkstate.
  unfold mbind, M_bind, gets, get. rewrite Hp. bd_true.
  rewrite He. by rewrite Henv.
Qed.

Lemma startDHCPServer_without_config_witness :
  VXNetwork.environ network_without_config !! "PVCRD_CONFIG_FILE" = None
  ∧ ∃ s', VXNetwork.startDHCPServer network_without_config = (Raise KeyError, s')
      ∧ Common.args <$> Common.spawned (VXNetwork.os s')
        = [["/bin/mkdir"; "--parents"; "/var/lib/dnsmasq/1001"]].
Proof.
  assert (H1 : VXNetwork.environ network_without_config !! "PVCRD_CONFIG_FILE"
               = None) by (vm_compute; reflexivity).
  assert (H2 : startable (VXNetwork.os network_without_config)
                 ("/bin/mkdir --parents "
                  +:+ VXNetwork.dnsmasq_hostsdir (VXNetwork.self network_without_config))).
  { vm_compute. by eexists. }
  split; [exact H1|].
  destruct (startDHCPServer_without_config network_without_config eq_refl H1 H2)
    as (s' & He & _ & _ & _ & Hs).
  exists s'. split; [exact He|]. rewrite Hs. vm_compute. reflexivity.
Defined.

Lemma os_commands_run (cmds : list string) (s : VXNetwork.State) :
  (∀ c, c ∈ cmds → str_split c ≠ []) →
  (∀ c, c ∈ cmds → startable (VXNetwork.os s) c) →
  ∃ s', for_each cmds VXNetwork.os_command s = (Return tt, s')
        ∧ commands_run cmds s s'.
Proof.
  revert s. induction cmds as [|c cmds IH]; intros s Hne Hall.
  { exists s. split; [done|apply commands_run_nil]. }
  destruct (os_command_runs c s) as (s1 & He1 & Hr1).
  { apply Hne, list_elem_of_here. }
  { apply Hall, list_elem_of_here. }
  destruct (IH s1) as (s2 & He2 & Hr2).
  { intros c' Hc'. by apply Hne, list_elem_of_further. }
  { intros c' Hc'. unfold startable. destruct Hr1 as (_ & _ & -> & _).
    by apply Hall, list_elem_of_further. }
  exists s2. split.
  - cbn [for_each]. unfold mbind, M_bind. by rewrite He1.
  - by apply (commands_run_app [c] cmds s s1 s2).
Qed.

Lemma do_command_nonempty (st : setup_step) : str_split (do_command st) ≠ [].
Proof. destruct st; cbn [do_command]; apply str_split_nonempty; reflexivity. Qed.

Lemma undo_command_nonempty (st : setup_step) : str_split (undo_command st) ≠ [].
Proof. destruct st; cbn [undo_command]; apply str_split_nonempty; reflexivity. Qed.

Lemma createNetwork_for_each (s : VXNetwork.State) :
  VXNetwork.createNetwork s
  = for_each (do_command <$> network_setup (VXNetwork.self s))
      VXNetwork.os_command s.
Proof.
  unfold VXNetwork.createNetwork. cbn [network_setup fmap list_fmap for_each do_command].
  unfold mbind, M_bind, get.
  repeat (destruct (VXNetwork.os_command _ _) as [[[]|?|] ?]; try done).
Qed.

Lemma removeNetwork_for_each (s : VXNetwork.State) :
  VXNetwork.removeNetwork s
  = for_each (undo_command <$> reverse (network_setup (VXNetwork.self s)))
      VXNetwork.os_command s.
Proof.
  unfold VXNetwork.removeNetwork.
  cbn [network_setup fmap list_fmap for_each undo_command reverse rev_append].
  unfold mbind, M_bind, get.
  repeat (destruct (VXNetwork.os_command _ _) as [[[]|?|] ?]; try done).
Qed.

(** X24. [removeNetwork] takes a network down the way [createNetwork]
    put it up: it undoes the same five steps (VXLAN device, bridge,
    attachment, the two links up) in the opposite order, one command per
    step, and neither changes the controller object. *)
Theorem removeNetwork_mirrors_createNetwork (s : VXNetwork.State) :
  let steps := network_setup (VXNetwork.self s) in
  (∀ c, c ∈ (do_command <$> steps) ++ (undo_command <$> steps) →
        startable (VXNetwork.os s) c) →
  ∃ s1 s2,
    VXNetwork.createNetwork s = (Return tt, s1)
    ∧ commands_run (do_command <$> steps) s s1
    ∧ VXNetwork.removeNetwork s1 = (Return tt, s2)
    ∧ commands_run (undo_command <$> reverse steps) s1 s2.
Proof.
  intros steps Hall.
  destruct (os_commands_run (do_command <$> steps) s) as (s1 & He1 & Hr1).
  { intros c (x & -> & _)%list_elem_of_fmap. apply do_command_nonempty. }
  { intros c Hc. apply Hall, elem_of_app. by left. }
  assert (Hself : VXNetwork.self s1 = VXNetwork.self s) by apply Hr1.
  destruct (os_commands_run (undo_command <$> reverse steps) s1) as (s2 & He2 & Hr2).
  { intros c (x & -> & _)%list_elem_of_fmap. apply undo_command_nonempty. }
  { intros c Hc. unfold startable. destruct Hr1 as (_ & _ & -> & _).
    apply Hall, elem_of_app. right.
    apply list_elem_of_fmap in Hc as (x & -> & Hx).
    apply list_elem_of_fmap. exists x. split; [done|].
    by apply elem_of_reverse in Hx. }
  exists s1, s2. rewrite createNetwork_for_each, removeNetwork_for_each, Hself.
  fold steps. done.
Qed.

Lemma removeNetwork_mirrors_createNetwork_witness :
  (∀ c, c ∈ (do_command <$> network_setup (VXNetwork.self (network_on "primary")))
            ++ (undo_command <$> network_setup (VXNetwork.self (network_on "primary"))) →
        startable (VXNetwork.os (network_on "primary")) c)
  ∧ ∃ s1 s2,
      VXNetwork.createNetwork (network_on "primary") = (Return tt, s1)
      ∧ VXNetwork.removeNetwork s1 = (Return tt, s2)
      ∧ length (Common.spawned (VXNetwork.os s2)) = 10%nat.
Proof.
  assert (H : ∀ c,
    c ∈ (do_command <$> network_setup (VXNetwork.self (network_on "primary")))
        ++ (undo_command <$> network_setup (VXNetwork.self (network_on "primary"))) →
    startable (VXNetwork.os (network_on "primary")) c).
  { apply Forall_forall. repeat constructor; vm_compute; by eexists. }
  split; [exact H|].
  destruct (removeNetwork_mirrors_createNetwork (network_on "primary") H)
    as (s1 & s2 & He1 & (_ & _ & _ & Hs1) & He2 & (_ & _ & _ & Hs2)).
  exists s1, s2. split; [exact He1|]. split; [exact He2|].
  rewrite Hs2, Hs1. reflexivity.
Defined.

Lemma removeGatewayAddress_runs (s : VXNetwork.State) :
  let n := VXNetwork.self s in
  let cmd := "ip address delete " +:+ VXNetwork.fmt (VXNetwork.ip_gateway n)
               +:+ "/" +:+ VXNetwork.fmt (VXNetwork.ip_cidrnetmask n)
               +:+ " dev " +:+ VXNetwork.bridge_nic n in
  startable (VXNetwork.os s) cmd →
  ∃ s', VXNetwork.removeGatewayAddress s = (Return tt, s')
        ∧ commands_run [cmd] s s'.
Proof.
  intros n cmd Hst. unfold VXNetwork.removeGatewayAddress.
  unfold mbind at 1, M_bind at 1, get. apply os_command_runs; [|exact Hst].
  apply str_split_nonempty. reflexivity.
Qed.

Lemma createGatewayAddress_runs (s : VXNetwork.State) :
  let n := VXNetwork.self s in
  let add := "ip address add " +:+ VXNetwork.fmt (VXNetwork.ip_gateway n)
               +:+ "/" +:+ VXNetwork.fmt (VXNetwork.ip_cidrnetmask n)
               +:+ " dev " +:+ VXNetwork.bridge_nic n in
  let arping := "arping -A -c2 -I " +:+ VXNetwork.bridge_nic n +:+ " "
                  +:+ VXNetwork.fmt (VXNetwork.ip_gateway n) in
  VXNetwork.network_state n = "primary" →
  startable (VXNetwork.os s) add → startable (VXNetwork.os s) arping →
  ∃ s', VXNetwork.createGatewayAddress s = (Return tt, s')
        ∧ commands_run [add; arping] s s'.
Proof.
  intros n add arping Hp Hadd Harp.
  destruct (foreground_command_runs add s) as (s1 & He1 & Hr1);
    [apply str_split_nonempty; reflexivity|exact Hadd|].
  destruct (background_command_runs arping s1) as (s2 & He2 & Hr2).
  { apply str_split_nonempty. reflexivity. }
  { unfold startable. destruct Hr1 as (_ & _ & -> & _). exact Harp. }
  exists s2. split.
  - subst add arping n.
    unfold VXNetwork.createGatewayAddress, VXNetwork.getnetworkstate.
    unfold mbind, M_bind, gets, get. rewrite Hp. bd_true.
    rewrite He1, He2. done.
  - apply (commands_run_app [add] [arping] s s1 s2 Hr1 Hr2).
Qed.

(** X25. When the gateway of a network changes, the watcher on the
    primary stores the new address first and removes the old one
    afterwards: [removeGatewayAddress] formats [self.ip_gateway], so the
    address it deletes is the new one, which it then adds.  The commands
    are, in order, [ip address delete <new>], [ip address add <new>] and
    the gratuitous ARP for [<new>]; none names the address that was
    configured before. *)
Theorem watch_network_gateway_deletes_new_address (s : VXNetwork.State)
    (old new : string) (event : option string) :
  let n := VXNetwork.self s in
  let mask := VXNetwork.fmt (VXNetwork.ip_cidrnetmask n) in
  let cmds :=
    [ "ip address delete " +:+ new +:+ "/" +:+ mask +:+ " dev "
        +:+ VXNetwork.bridge_nic n;
      "ip address add " +:+ new +:+ "/" +:+ mask +:+ " dev "
        +:+ VXNetwork.bridge_nic n;
      "arping -A -c2 -I " +:+ VXNetwork.bridge_nic n +:+ " " +:+ new ] in
  event ≠ Some "DELETED" →
  VXNetwork.network_state n = "primary" →
  VXNetwork.ip_gateway n = Some old → old ≠ "" → new ≠ "" → new ≠ old →
  (∀ c, c ∈ cmds → startable (VXNetwork.os s) c) →
  ∃ s', VXNetwork.watch_network_gateway (Some new) event s = (Return None, s')
    ∧ VXNetwork.ip_gateway (VXNetwork.self s') = Some new
    ∧ commands_run cmds
        (VXNetwork.mkState (VXNetwork.set_ip_gateway (Some new) n)
           (VXNetwork.os s) (VXNetwork.environ s))
        s'.
Proof.
  intros n mask cmds Hev Hp Hgw Hold Hnew Hne Hall.
  set (s0 := VXNetwork.mkState (VXNetwork.set_ip_gateway (Some new) n)
               (VXNetwork.os s) (VXNetwork.environ s)).
  destruct (removeGatewayAddress_runs s0) as (s1 & He1 & Hr1).
  { apply Hall, list_elem_of_here. }
  assert (Hself1 : VXNetwork.self s1 = VXNetwork.self s0) by apply Hr1.
  assert (Hos1 : Common.program_exit (VXNetwork.os s1)
                 = Common.program_exit (VXNetwork.os s)) by apply Hr1.
  destruct (createGatewayAddress_runs s1) as (s2 & He2 & Hr2).
  { by rewrite Hself1. }
  { unfold startable. rewrite Hself1, Hos1.
    apply Hall, list_elem_of_further, list_elem_of_here. }
  { unfold startable. rewrite Hself1, Hos1.
    apply Hall, list_elem_of_further, list_elem_of_further, list_elem_of_here. }
  exists s2. split_and!.
  - unfold VXNetwork.watch_network_gateway. bd_false.
    unfold mbind at 1, M_bind at 1, get. fold n. rewrite Hgw.
    cbn [VXNetwork.nonempty]. rewrite (bool_decide_eq_false_2 (new = "")) by done.
    rewrite (bool_decide_eq_true_2 (Some old ≠ Some new)) by congruence.
    cbn [negb andb]. rewrite Hp. bd_true. rewrite (bool_decide_eq_false_2 (old = "")) by done.
    cbn [negb]. unfold mbind, M_bind, modify, mret, M_ret. fold n s0.
    by rewrite He1, He2.
  - destruct Hr2 as (-> & _). by rewrite Hself1.
  - rewrite Hself1 in Hr2. apply (commands_run_app [_] [_; _] s0 s1 s2 Hr1 Hr2).
Qed.

Lemma watch_network_gateway_deletes_new_address_witness :
  VXNetwork.ip_gateway (VXNetwork.self (network_on "primary")) = Some "10.1.0.1"
  ∧ ∃ s', VXNetwork.watch_network_gateway (Some "10.1.0.254") None
            (network_on "primary")
          = (Return None, s')
      ∧ Common.args <$> Common.spawned (VXNetwork.os s')
        = [ ["ip"; "address"; "delete"; "10.1.0.254/24"; "dev"; "br1001"];
            ["ip"; "address"; "add"; "10.1.0.254/24"; "dev"; "br1001"];
            ["arping"; "-A"; "-c2"; "-I"; "br1001"; "10.1.0.254"] ].
Proof.
  assert (H : VXNetwork.ip_gateway (VXNetwork.self (network_on "primary"))
              = Some "10.1.0.1") by reflexivity.
  split; [exact H|].
  destruct (watch_network_gateway_deletes_new_address (network_on "primary")
              "10.1.0.1" "10.1.0.254" None)
    as (s' & He & _ & (_ & _ & _ & Hs));
    [discriminate|reflexivity|exact H|discriminate|discriminate|discriminate| |].
  { apply Forall_forall. repeat constructor; vm_compute; by eexists. }
  exists s'. split; [exact He|]. rewrite Hs. vm_compute. reflexivity.
Defined.

(** X26. The gateway watcher starts no process on a router that is not
    the primary (it only records a new address), and none when the key has
    been deleted, in which case it answers [False] to end the watch and
    leaves the controller as it is. *)
Theorem watch_network_gateway_quiet (s : VXNetwork.State)
    (data event : option string) :
  VXNetwork.network_state (VXNetwork.self s) ≠ "primary"
  ∨ event = Some "DELETED" →
  ∃ r s', VXNetwork.watch_network_gateway data event s = (Return r, s')
    ∧ VXNetwork.os s' = VXNetwork.os s
    ∧ VXNetwork.dhcp_server_daemon (VXNetwork.self s')
      = VXNetwork.dhcp_server_daemon (VXNetwork.self s)
    ∧ (event = Some "DELETED" → r = Some false ∧ s' = s)
    ∧ (event ≠ Some "DELETED" →
       r = None
       ∧ VXNetwork.ip_gateway (VXNetwork.self s')
         = if VXNetwork.nonempty data then data
           else VXNetwork.ip_gateway (VXNetwork.self s)).
Proof.
  intros Hcase. unfold VXNetwork.watch_network_gateway.
  case_bool_decide as Hev.
  { exists (Some false), s. by split_and!. }
  destruct Hcase as [Hp|Hd]; [|done].
  unfold mbind, M_bind, get, modify, mret, M_ret.
  destruct (VXNetwork.nonempty data) eqn:Hdata; cbn [andb].
  - case_bool_decide as Hne.
    + cbn [VXNetwork.self]. rewrite (bool_decide_eq_false_2 _ Hp).
      eexists _, _. split; [reflexivity|]. by split_and!.
    + exists None, s. split_and!; [done..|]. intros _. by split.
  - exists None, s. by split_and!.
Qed.

Lemma watch_network_gateway_quiet_witness :
  VXNetwork.network_state (VXNetwork.self (network_on "secondary")) ≠ "primary"
  ∧ ∃ r s', VXNetwork.watch_network_gateway (Some "10.1.0.254") None
              (network_on "secondary")
            = (Return r, s')
      ∧ Common.spawned (VXNetwork.os s') = [].
Proof.
  assert (H : VXNetwork.network_state (VXNetwork.self (network_on "secondary"))
              ≠ "primary") by discriminate.
  split; [exact H|].
  destruct (watch_network_gateway_quiet (network_on "secondary")
              (Some "10.1.0.254") None (or_introl H))
    as (r & s' & He & Hos & _).
  exists r, s'. split; [exact He|]. rewrite Hos. reflexivity.
Defined.

(** ** A handle that has outlived its domain *)

(** X27. [stop_vm] and [terminate_vm] catch only [AttributeError] around
    [self.dom.destroy()].  When the controller holds a handle whose domain
    has left the driver, the [libvirtError] of the call escapes: nothing is
    written, the uuid stays on the list of running domains, and [instop]
    stays raised, so that every later [manage_vm_state] finds the
    controller busy. *)
Theorem stop_with_stale_handle (s : State) (u : string) :
  self_dom (self s) = Some (VirDomain u) → libvirt (cluster s) !! u = None →
  let r := (Raise (libvirtError "Domain not found"), upd_self (set_instop true) s) in
  Pvcnoded.stop_vm s = r ∧ Pvcnoded.terminate_vm s = r
  ∧ Pvcvd.stop_vm s = r ∧ Pvcvd.terminate_vm s = r
  ∧ busy (self (upd_self (set_instop true) s)).
Proof.
  intros Hd Hl r. subst r.
  unfold Pvcnoded.stop_vm, Pvcnoded.terminate_vm, Pvcvd.stop_vm,
    Pvcvd.terminate_vm, try_destroy.
  mred. rewrite Hd. cbn [dom_destroy]. mred. rewrite Hl. mred.
  split_and!; try done. unfold busy. mred. tauto.
Qed.

Lemma stop_with_stale_handle_witness :
  libvirt (cluster restart_of_stopped) !! "7c1f" = None
  ∧ (Pvcnoded.stop_vm restart_of_stopped).1
    = Raise (libvirtError "Domain not found").
Proof.
  assert (H : libvirt (cluster restart_of_stopped) !! "7c1f" = None)
    by (vm_compute; reflexivity).
  split; [exact H|].
  destruct (stop_with_stale_handle restart_of_stopped "7c1f" eq_refl H)
    as [-> _].
  reflexivity.
Defined.

(** ** Composition: a start request on the owner *)

(** X28. A ['start'] request for a domain that is assigned to this node
    and that the driver does not have: [manage_vm_state] of pvcnoded
    creates the domain from the stored XML, and afterwards the domain runs,
    is listed, and the state key is as requested. *)
Theorem manage_vm_state_cold_start
    (env : Z → Cluster → Cluster) (cluster_domain : string) (fuel : nat)
    (s : State) :
  let u := domuuid (self s) in
  idle (self s) →
  zk (cluster s) !! state_key u = Some "start" →
  zk (cluster s) !! node_key u = Some (name (this_node s)) →
  ¬ runs_here s → not_in_driver s → create_error (cluster s) = None →
  ∃ s', Pvcnoded.manage_vm_state env cluster_domain (S fuel) s = (Return tt, s')
    ∧ dom_present s'
    ∧ libvirt (cluster s') !! u = Some VIR_DOMAIN_RUNNING
    ∧ u ∈ domain_list (this_node s')
    ∧ self_state (self s') = "start"
    ∧ state_untouched s s'
    ∧ zk (cluster s') !! state_key u = Some "start".
Proof.
  intros u Hidle Hst Hnd Hnr Hnid Herr. apply wp_returns.
  cbn [Pvcnoded.manage_vm_state]. unfold Pvcnoded.manage_vm_state_body.
  wp_pure. sred. fold u. rewrite Hst, Hnd. cbn [default].
  apply wp_probe_running. intros run Hrun.
  wp_pure. sred. rewrite (idle_guard _ Hidle). bd_true.
  rewrite (bool_decide_eq_false_2 (run = _)) by (intros Hr; apply Hnr, Hrun, Hr).
  rewrite (bool_decide_eq_true_2 ("start" = "start")) by done.
  set (s0 := upd_self _ _).
  destruct (pvcnoded_start_vm_creates_spec s0 Hnid Herr)
    as (s1 & He & Hs1 & _).
  apply wp_bind. eapply wp_eq; [exact He|]. wp_pure.
  destruct Hs1 as (Hp & Hl & Hin & Hf & Hi & Hss & Hu).
  rewrite Hss. sred.
  repeat (rewrite bool_decide_eq_false_2 by done). wp_pure.
  assert (Hu' : state_untouched s s1).
  { eapply state_untouched_trans; [|by apply state_untouched_refl|exact Hu].
    done. }
  split_and!; try done.
  destruct Hu' as (evs & _ & _ & Hz). exact (eq_trans Hz Hst).
Qed.

Lemma manage_vm_state_cold_start_witness :
  idle (self (cold_start None)) ∧ not_in_driver (cold_start None)
  ∧ ∃ s', Pvcnoded.manage_vm_state (λ _ c, c) "cluster.local" 1 (cold_start None)
          = (Return tt, s')
      ∧ libvirt (cluster s') !! "7c1f" = Some VIR_DOMAIN_RUNNING.
Proof.
  assert (H1 : idle (self (cold_start None))) by (repeat split; reflexivity).
  assert (H2 : not_in_driver (cold_start None)) by (split; vm_compute; reflexivity).
  assert (H3 : ¬ runs_here (cold_start None)).
  { intros (u & Hd & _). discriminate Hd. }
  split; [exact H1|]. split; [exact H2|].
  destruct (manage_vm_state_cold_start (λ _ c, c) "cluster.local" 0
              (cold_start None) H1)
    as (s' & He & _ & Hl & _);
    [vm_compute; reflexivity|vm_compute; reflexivity|exact H3|exact H2
    |reflexivity|].
  exists s'. split; [exact He|exact Hl].
Defined.

(** ** The watcher of the DHCP flag *)

Lemma daemon_runs (command_string : string)
    (environment : option (list (string * string))) (s : VXNetwork.State) :
  str_split command_string ≠ [] →
  is_Some (Common.program_exit (VXNetwork.os s) (str_split command_string)) →
  VXNetwork.lift_os (Common.run_os_daemon command_string environment) s
  = (Return (Common.mkOSDaemon
               (Common.mkPopen (str_split command_string) environment None)),
     VXNetwork.mkState (VXNetwork.self s)
       (Common.record_spawn
          (Common.mkPopen (str_split command_string) environment None)
          (VXNetwork.os s))
       (VXNetwork.environ s)).
Proof.
  intros Hne [x Hx]. unfold VXNetwork.lift_os, Common.run_os_daemon,
    Common.subprocess_Popen.
  destruct (str_split command_string) as [|prog argv] eqn:Hsp; [done|].
  munfold. by rewrite Hx.
Qed.

Lemma startDHCPServer_runs (s : VXNetwork.State) (config_file : string) :
  let n := VXNetwork.self s in
  VXNetwork.network_state n = "primary" →
  VXNetwork.environ s !! "PVCRD_CONFIG_FILE" = Some config_file →
  (∀ p, p ∈ dhcp_processes n config_file →
        is_Some (Common.program_exit (VXNetwork.os s) (Common.args p))) →
  ∃ s', VXNetwork.startDHCPServer s = (Return tt, s')
    ∧ Common.spawned (VXNetwork.os s')
      = Common.spawned (VXNetwork.os s) ++ dhcp_processes n config_file
    ∧ VXNetwork.dhcp_server_daemon (VXNetwork.self s')
      = Some (Common.mkOSDaemon (nth 1 (dhcp_processes n config_file)
                                   (Common.mkPopen [] None None))).
Proof.
  intros n Hp Henv Hall.
  assert (Hx := Hall (nth 0 (dhcp_processes n config_file)
                        (Common.mkPopen [] None None))
                  (list_elem_of_here _ _)).
  assert (Hy := Hall (nth 1 (dhcp_processes n config_file)
                        (Common.mkPopen [] None None))
                  (list_elem_of_further _ _ _ (list_elem_of_here _ _))).
  cbn [nth dhcp_processes Common.args] in Hx, Hy.
  destruct (foreground_command_runs
              ("/bin/mkdir --parents " +:+ VXNetwork.dnsmasq_hostsdir n) s)
    as (s1 & He1 & Hself1 & Henv1 & Hpe1 & Hsp1);
    [apply str_split_nonempty; reflexivity|exact Hx|].
  rewrite <- Hpe1 in Hy.
  assert (Hne : str_split ("/usr/sbin/dnsmasq "
                           +:+ str_join " " (VXNetwork.dhcp_configuration n)) ≠ [])
    by (apply str_split_nonempty; reflexivity).
  assert (He2 := daemon_runs
    ("/usr/sbin/dnsmasq " +:+ str_join " " (VXNetwork.dhcp_configuration n))
    (Some [("DNSMASQ_INTERFACE", VXNetwork.bridge_nic n);
           ("PVCRD_CONFIG_FILE", config_file)])
    s1 Hne Hy).
  subst n.
  unfold VXNetwork.startDHCPServer, VXNetwork.getnetworkstate.
  unfold mbind, M_bind, gets, get, modify. rewrite Hp. bd_true.
  rewrite He1, Henv, He2.
  eexists. split; [reflexivity|]. cbn. rewrite Hsp1. cbn.
  by rewrite <- app_assoc.
Qed.

(** X29. Once the watcher has set [dhcp_flag] it holds a [bool], and a
    [bool] never equals the text of the key: from then on the guard
    [self.dhcp_flag != data.decode('ascii')] lets every notification
    through.  On the primary a notification ['True'] therefore starts
    dnsmasq again even when the flag was already true: two more processes
    ([mkdir], dnsmasq), the handle replaced by the new daemon, and no
    signal sent to the daemon that was running. *)
Theorem watch_network_dhcp_status_restarts (s : DHCPWatch.State) (b : bool)
    (event : option string) (config_file : string) :
  let n := VXNetwork.self (DHCPWatch.net s) in
  event ≠ Some "DELETED" →
  DHCPWatch.dhcp_flag s = DHCPWatch.FlagBool b →
  VXNetwork.network_state n = "primary" →
  VXNetwork.environ (DHCPWatch.net s) !! "PVCRD_CONFIG_FILE" = Some config_file →
  (∀ p, p ∈ dhcp_processes n config_file →
        is_Some (Common.program_exit (VXNetwork.os (DHCPWatch.net s))
                   (Common.args p))) →
  ∃ s', DHCPWatch.watch_network_dhcp_status (Some "True") event s
        = (Return None, s')
    ∧ DHCPWatch.dhcp_flag s' = DHCPWatch.FlagBool true
    ∧ DHCPWatch.signals s' = DHCPWatch.signals s
    ∧ Common.spawned (VXNetwork.os (DHCPWatch.net s'))
      = Common.spawned (VXNetwork.os (DHCPWatch.net s))
        ++ dhcp_processes n config_file
    ∧ VXNetwork.dhcp_server_daemon (VXNetwork.self (DHCPWatch.net s'))
      = Some (Common.mkOSDaemon (nth 1 (dhcp_processes n config_file)
                                   (Common.mkPopen [] None None))).
Proof.
  intros n Hev Hflag Hp Henv Hall.
  destruct (startDHCPServer_runs (DHCPWatch.net s) config_file Hp Henv Hall)
    as (n' & He & Hsp & Hd).
  unfold DHCPWatch.watch_network_dhcp_status. bd_false.
  unfold mbind, M_bind, get, modify, mret, M_ret. rewrite Hflag.
  cbn [DHCPWatch.flag_differs DHCPWatch.net negb andb].
  rewrite (bool_decide_eq_false_2 ("True" = "")) by done.
  rewrite (bool_decide_eq_true_2 ("True" = "True")) by done.
  fold n. rewrite Hp. bd_true. cbn [negb andb].
  unfold DHCPWatch.lift_net. cbn [DHCPWatch.net]. rewrite He.
  eexists. split; [reflexivity|]. by split_and!.
Qed.

Lemma watch_network_dhcp_status_restarts_witness :
  DHCPWatch.dhcp_flag dhcp_turned_on = DHCPWatch.FlagBool true
  ∧ ∃ s', DHCPWatch.watch_network_dhcp_status (Some "True") None dhcp_turned_on
          = (Return None, s')
      ∧ length (Common.spawned (VXNetwork.os (DHCPWatch.net s'))) = 4%nat
      ∧ DHCPWatch.signals s' = [].
Proof.
  assert (H : DHCPWatch.dhcp_flag dhcp_turned_on = DHCPWatch.FlagBool true)
    by (vm_compute; reflexivity).
  split; [exact H|].
  destruct (watch_network_dhcp_status_restarts dhcp_turned_on true None
              "/etc/pvc/pvcrd.conf")
    as (s' & He & _ & Hsig & Hsp & _);
    [discriminate|exact H|vm_compute; reflexivity|vm_compute; reflexivity| |].
  { apply Forall_forall. repeat constructor; vm_compute; by eexists. }
  exists s'. split; [exact He|]. split.
  - rewrite Hsp. vm_compute. reflexivity.
  - rewrite Hsig. vm_compute. reflexivity.
Defined.

(** X30. A notification other than ['True'] that passes the guard turns
    DHCP off: on the primary the watcher sends [SIGINT] to the process of
    the daemon it holds, if it holds one, and nothing else happens; no
    process is started and the handle is kept, so a later stop signals the
    same process again. *)
Theorem watch_network_dhcp_status_stops (s : DHCPWatch.State) (text : string)
    (event : option string) :
  let n := VXNetwork.self (DHCPWatch.net s) in
  event ≠ Some "DELETED" →
  text ≠ "" → text ≠ "True" →
  DHCPWatch.flag_differs (DHCPWatch.dhcp_flag s) text = true →
  VXNetwork.network_state n = "primary" →
  DHCPWatch.watch_network_dhcp_status (Some text) event s
  = (Return None,
     DHCPWatch.mkState (DHCPWatch.net s) (DHCPWatch.FlagBool false)
       (DHCPWatch.signals s
        ++ match VXNetwork.dhcp_server_daemon n with
           | Some d => [(Common.proc d, "SIGINT")]
           | None => []
           end)).
Proof.
  intros n Hev Ht1 Ht2 Hflag Hp.
  unfold DHCPWatch.watch_network_dhcp_status. bd_false.
  unfold mbind, M_bind, get, modify, mret, M_ret. rewrite Hflag.
  rewrite (bool_decide_eq_false_2 (text = "")) by done.
  rewrite (bool_decide_eq_false_2 (text = "True")) by done.
  fold n. rewrite Hp. bd_true. cbn [negb andb].
  unfold DHCPWatch.stopDHCPServer. unfold mbind, M_bind, get.
  cbn [DHCPWatch.net]. fold n.
  destruct (VXNetwork.dhcp_server_daemon n) as [d|].
  - unfold DHCPWatch.OSDaemon_signal.
    rewrite (bool_decide_eq_false_2 ("int" = "hup")) by done.
    rewrite (bool_decide_eq_true_2 ("int" = "int")) by done. done.
  - unfold mret, M_ret. cbn. by rewrite app_nil_r.
Qed.

Lemma watch_network_dhcp_status_stops_witness :
  DHCPWatch.flag_differs (DHCPWatch.dhcp_flag dhcp_turned_on) "False" = true
  ∧ length (DHCPWatch.signals
              (DHCPWatch.watch_network_dhcp_status (Some "False") None
                 dhcp_turned_on).2) = 1%nat.
Proof.
  assert (H : DHCPWatch.flag_differs (DHCPWatch.dhcp_flag dhcp_turned_on) "False"
              = true) by (vm_compute; reflexivity).
  split; [exact H|].
  rewrite (watch_network_dhcp_status_stops dhcp_turned_on "False" None);
    [|discriminate|discriminate|discriminate|exact H|vm_compute; reflexivity].
  vm_compute. reflexivity.
Defined.
